(** * Firestore storage adapter for Mastra: a shallow embedding

    The adapter (domains/operations, traces, scores, memory, workflows,
    legacy-evals, observability and the FirestoreStore facade) is embedded
    over a small universe of JavaScript values and a model of the document
    store it talks to.  Every backend round trip is a step of a state and
    error monad over a [World]: the database, a log of the round trips, the
    clock read by [new Date()] and the counter behind generated ids.

    What the embedding leaves out.  Objects are plain records: a stored map
    with a key named like a method the code invokes on it ([toDate],
    [valueOf], [toString]) is not considered.  Numbers are integers.  The
    text-level built-ins ([Date.parse], [toISOString], [Number] of a string)
    and the collection names are parameters.  Of the backend, the size and
    depth limits of a document and the rules on field names are left out. *)

From Stdlib Require Import ZArith String Ascii List Lia Bool.
From stdpp Require Import base decidable option list strings sorting pretty.

Set Warnings "-register-all".
Local Open Scope string_scope.
Local Open Scope Z_scope.

(** ** JavaScript values *)

(** Numbers are the integers among the JS numbers; [NaN] appears only where
    the code computes with [undefined] and is then written [None] (see
    [number]).  A [Date] carries its time value in milliseconds, [None] for
    an invalid date.  [VTimestamp] is the backend's timestamp object, with
    its [_seconds] and [_nanoseconds] properties. *)
Inductive value : Type :=
| VUndef
| VNull
| VBool (b : bool)
| VNum (n : Z)
| VStr (s : string)
| VDate (t : option Z)
| VTimestamp (seconds nanos : Z)
| VArr (xs : list value)
| VObj (fields : list (string * value)).

Definition obj : Type := list (string * value).

(** A JS number that may be [NaN]. *)
Definition number : Type := option Z.


(** Induction principle that reaches inside arrays and objects. *)
Section value_induction.
Variable P : value -> Prop.
Hypothesis HUndef : P VUndef.
Hypothesis HNull : P VNull.
Hypothesis HBool : forall b, P (VBool b).
Hypothesis HNum : forall n, P (VNum n).
Hypothesis HStr : forall s, P (VStr s).
Hypothesis HDate : forall t, P (VDate t).
Hypothesis HTimestamp : forall s n, P (VTimestamp s n).
Hypothesis HArr : forall xs, Forall P xs -> P (VArr xs).
Hypothesis HObj : forall fs, Forall (fun kv => P (snd kv)) fs -> P (VObj fs).

Fixpoint value_nested_ind (v : value) : P v :=
  match v with
  | VUndef => HUndef
  | VNull => HNull
  | VBool b => HBool b
  | VNum n => HNum n
  | VStr s => HStr s
  | VDate t => HDate t
  | VTimestamp s n => HTimestamp s n
  | VArr xs =>
      HArr xs
        ((fix go (l : list value) : Forall P l :=
            match l with
            | [] => @List.Forall_nil _ P
            | x :: l' => @List.Forall_cons _ P x l' (value_nested_ind x) (go l')
            end) xs)
  | VObj fs =>
      HObj fs
        ((fix go (l : list (string * value)) : Forall (fun kv => P (snd kv)) l :=
            match l with
            | [] => @List.Forall_nil _ _
            | kv :: l' =>
                @List.Forall_cons _ (fun kv => P (snd kv)) kv l'
                  (value_nested_ind (snd kv)) (go l')
            end) fs)
  end.
End value_induction.

(** Structural equality, as a boolean. *)
Fixpoint value_eqb (a b : value) {struct a} : bool :=
  match a, b with
  | VUndef, VUndef => true
  | VNull, VNull => true
  | VBool x, VBool y => Bool.eqb x y
  | VNum x, VNum y => (x =? y)%Z
  | VStr x, VStr y => String.eqb x y
  | VDate (Some x), VDate (Some y) => (x =? y)%Z
  | VDate None, VDate None => true
  | VTimestamp s n, VTimestamp s' n' => (s =? s')%Z && (n =? n')%Z
  | VArr xs, VArr ys =>
      (fix go (l : list value) (r : list value) : bool :=
         match l, r with
         | [], [] => true
         | x :: l', y :: r' => value_eqb x y && go l' r'
         | _, _ => false
         end) xs ys
  | VObj fs, VObj gs =>
      (fix go (l : list (string * value)) (r : list (string * value)) : bool :=
         match l, r with
         | [], [] => true
         | (k, x) :: l', (k', y) :: r' =>
             String.eqb k k' && value_eqb x y && go l' r'
         | _, _ => false
         end) fs gs
  | _, _ => false
  end.

(** Truthiness: what [if (v)], [v || d] and [!v] test. *)
Definition truthy (v : value) : bool :=
  match v with
  | VUndef | VNull => false
  | VBool b => b
  | VNum n => negb (n =? 0)%Z
  | VStr s => negb (String.eqb s "")
  | VDate _ | VTimestamp _ _ | VArr _ | VObj _ => true
  end.

(** [a || b]. *)
Definition js_or (a b : value) : value := if truthy a then a else b.

(** [typeof v === "object"] (true of [null] as well). *)
Definition typeof_object (v : value) : bool :=
  match v with
  | VNull | VDate _ | VTimestamp _ _ | VArr _ | VObj _ => true
  | _ => false
  end.

Definition typeof_string (v : value) : bool :=
  match v with VStr _ => true | _ => false end.

(** [v === null || v === undefined]. *)
Definition nullish (v : value) : bool :=
  match v with VNull | VUndef => true | _ => false end.

(** [v instanceof Date]. *)
Definition instanceof_Date (v : value) : bool :=
  match v with VDate _ => true | _ => false end.

(** An optional argument seen as a value: absent is [undefined]. *)
Definition opt_str (o : option string) : value :=
  match o with Some s => VStr s | None => VUndef end.

(** Arithmetic and comparison on numbers that may be [NaN]. *)
Definition num_sub (a b : number) : number :=
  match a, b with Some x, Some y => Some (x - y) | _, _ => None end.

Definition num_mul (a b : number) : number :=
  match a, b with Some x, Some y => Some (x * y) | _, _ => None end.

Definition num_add (a b : number) : number :=
  match a, b with Some x, Some y => Some (x + y) | _, _ => None end.

Definition num_gtb (a b : number) : bool :=
  match a, b with Some x, Some y => (y <? x)%Z | _, _ => false end.

(** ** Objects: property read, [in], assignment, spread *)

Fixpoint obj_get (o : obj) (k : string) : value :=
  match o with
  | [] => VUndef
  | (k', v) :: o' => if String.eqb k k' then v else obj_get o' k
  end.

Fixpoint obj_has (o : obj) (k : string) : bool :=
  match o with
  | [] => false
  | (k', _) :: o' => if String.eqb k k' then true else obj_has o' k
  end.

(** [o[k] = v]: an existing key keeps its place, a new key goes last. *)
Fixpoint obj_set (o : obj) (k : string) (v : value) : obj :=
  match o with
  | [] => [(k, v)]
  | (k', v') :: o' =>
      if String.eqb k k' then (k, v) :: o' else (k', v') :: obj_set o' k v
  end.

(** [{...base, ...over}]. *)
Definition obj_spread (base over : obj) : obj :=
  fold_left (fun acc kv => obj_set acc (fst kv) (snd kv)) over base.

Definition keys (o : obj) : list string := map fst o.

(** The own properties of a value, as the spread [{...v}] sees them. *)
Definition as_obj (v : value) : obj :=
  match v with VObj o => o | _ => [] end.

(** Property read on any value: [v.k].  Timestamps expose their two
    properties; an array has its [length]. *)
Definition prop (v : value) (k : string) : value :=
  match v with
  | VObj o => obj_get o k
  | VTimestamp s n =>
      if String.eqb k "_seconds" then VNum s
      else if String.eqb k "_nanoseconds" then VNum n
      else VUndef
  | VArr xs => if String.eqb k "length" then VNum (Z.of_nat (length xs)) else VUndef
  | _ => VUndef
  end.

(** [k in v], for [v] an object. *)
Definition has_prop (v : value) (k : string) : bool :=
  match v with
  | VObj o => obj_has o k
  | VTimestamp _ _ => String.eqb k "_seconds" || String.eqb k "_nanoseconds"
  | VArr _ => String.eqb k "length"
  | _ => false
  end.

(** [xs.slice(i, j)] for indices that are not negative. *)
Definition slice {A : Type} (i j : nat) (xs : list A) : list A :=
  take (j - i)%nat (drop i xs).

(** The successive [xs.slice(i, i + size)] of the loop
    [for (let i = 0; i < xs.length; i += size)], started at [i]; the loop
    body runs at most once per element, which bounds the recursion. *)
Fixpoint slices_from {A : Type} (fuel size i : nat) (xs : list A) : list (list A) :=
  match fuel with
  | O => []
  | S fuel' =>
      if (i <? length xs)%nat
      then slice i (i + size) xs :: slices_from fuel' size (i + size)%nat xs
      else []
  end.

Definition slices {A : Type} (size : nat) (xs : list A) : list (list A) :=
  slices_from (length xs) size 0 xs.

(** ** The JS built-ins that work on text

    [Date.parse], [Date.prototype.toISOString], the string case of
    [Number(...)] and the conversion of arrays and class instances to a
    primitive are taken as given. *)
Class JSBuiltins := {
  Date_parse : string -> option Z;
  Date_toISOString : Z -> string;
  Number_ofString : string -> number;
  Number_ofObject : value -> number;
  Date_ofObject : value -> option Z
}.

(** A concrete runtime, used to run the model on examples. *)
Definition example_builtins : JSBuiltins :=
  {| Date_parse := fun _ => None;
     Date_toISOString := fun ms => pretty ms;
     Number_ofString := fun _ => None;
     Number_ofObject := fun _ => None;
     Date_ofObject := fun _ => None |}.

Section JS.
Context `{JSBuiltins}.

(** [Number(v)], [None] for [NaN]. *)
Definition toNumber (v : value) : number :=
  match v with
  | VUndef => None
  | VNull => Some 0
  | VBool b => Some (if b then 1 else 0)
  | VNum n => Some n
  | VStr s => Number_ofString s
  | VDate t => t
  | VObj _ => None
  | VTimestamp _ _ | VArr _ => Number_ofObject v
  end.

(** [new Date(v)]. *)
Definition newDate (v : value) : value :=
  match v with
  | VDate t => VDate t
  | VStr s => VDate (Date_parse s)
  | VUndef => VDate None
  | VNull => VDate (Some 0)
  | VBool b => VDate (Some (if b then 1 else 0))
  | VNum n => VDate (Some n)
  | VTimestamp _ _ | VArr _ | VObj _ => VDate (Date_ofObject v)
  end.

(** [v?.toDate?.()]: only the backend's timestamps have the method, which
    rounds the nanoseconds to the nearest millisecond. *)
Definition toDate_opt (v : value) : value :=
  match v with
  | VTimestamp s n => VDate (Some (s * 1000 + (n + 500000) / 1000000))
  | _ => VUndef
  end.

(** [v?.toDate?.() || new Date(v)], the idiom of every decoder. *)
Definition coerceDate (v : value) : value := js_or (toDate_opt v) (newDate v).

(** [JSON.parse(JSON.stringify(v))] at a nested position.  An undefined
    property is dropped, an undefined array element becomes null, a date
    becomes its ISO string (null when invalid), a timestamp object is
    flattened to its two properties. *)
Fixpoint json_roundtrip (v : value) : value :=
  match v with
  | VUndef => VNull
  | VNull => VNull
  | VBool b => VBool b
  | VNum n => VNum n
  | VStr s => VStr s
  | VDate (Some ms) => VStr (Date_toISOString ms)
  | VDate None => VNull
  | VTimestamp s n => VObj [("_seconds", VNum s); ("_nanoseconds", VNum n)]
  | VArr xs => VArr (map json_roundtrip xs)
  | VObj fs =>
      VObj ((fix go (l : list (string * value)) : list (string * value) :=
               match l with
               | [] => []
               | (k, VUndef) :: l' => go l'
               | (k, x) :: l' => (k, json_roundtrip x) :: go l'
               end) fs)
  end.

End JS.

(** ** The document store

    A collection maps document ids to documents; the database maps
    collection names to collections.  What follows is the contract of the
    backend as the adapter relies on it, for a client that is set up to
    ignore undefined properties (every typed serializer of the adapter
    writes its optional fields whether or not they are defined).  A client
    left at its defaults refuses a write that holds undefined, and the
    backend takes at most 500 writes in one batch: [accepted] below marks
    the round trips that pass both, on which this store and such a client
    agree. *)

Definition Collection : Type := list (string * obj).
Definition Db : Type := string -> Collection.

Definition empty_db : Db := fun _ => [].

Fixpoint coll_get (c : Collection) (id : string) : option obj :=
  match c with
  | [] => None
  | (id', d) :: c' => if String.eqb id id' then Some d else coll_get c' id
  end.

Fixpoint coll_put (c : Collection) (id : string) (d : obj) : Collection :=
  match c with
  | [] => [(id, d)]
  | (id', d') :: c' =>
      if String.eqb id id' then (id, d) :: c' else (id', d') :: coll_put c' id d
  end.

Fixpoint coll_remove (c : Collection) (id : string) : Collection :=
  match c with
  | [] => []
  | (id', d') :: c' =>
      if String.eqb id id' then c' else (id', d') :: coll_remove c' id
  end.

Definition db_put (db : Db) (coll : string) (c : Collection) : Db :=
  fun n => if String.eqb n coll then c else db n.

(** A value can be written unless it holds an invalid date. *)
Fixpoint storable (v : value) : bool :=
  match v with
  | VDate None => false
  | VArr xs => forallb storable xs
  | VObj fs => forallb (fun kv => let '(_, x) := kv in storable x) fs
  | _ => true
  end.

(** What the store keeps of a written value: a date becomes a timestamp
    (whole seconds and the remaining nanoseconds), undefined properties and
    elements are skipped. *)
Fixpoint toFirestore (v : value) : value :=
  match v with
  | VDate (Some ms) => VTimestamp (ms / 1000) ((ms mod 1000) * 1000000)
  | VDate None => VNull
  | VArr xs =>
      VArr ((fix go (l : list value) : list value :=
               match l with
               | [] => []
               | VUndef :: l' => go l'
               | x :: l' => toFirestore x :: go l'
               end) xs)
  | VObj fs =>
      VObj ((fix go (l : list (string * value)) : list (string * value) :=
               match l with
               | [] => []
               | (k, VUndef) :: l' => go l'
               | (k, x) :: l' => (k, toFirestore x) :: go l'
               end) fs)
  | _ => v
  end.

Definition toFirestore_doc (data : obj) : obj := as_obj (toFirestore (VObj data)).

(** [set(data, {merge: true})] writes the leaves of [data]: a non-empty map
    is merged field by field into what is stored, anything else (an empty
    map included) replaces it. *)
Fixpoint merge_value (old new : value) {struct new} : value :=
  match new with
  | VObj ((_ :: _) as fs) =>
      VObj ((fix go (acc : obj) (l : list (string * value)) : obj :=
               match l with
               | [] => acc
               | (k, v) :: l' => go (obj_set acc k (merge_value (obj_get acc k) v)) l'
               end) (as_obj old) fs)
  | _ => new
  end.

Definition merge_obj (old new : obj) : obj :=
  fold_left (fun acc kv => obj_set acc (fst kv) (merge_value (obj_get acc (fst kv)) (snd kv)))
    new old.

(** *** Queries *)

Inductive WhereOp := OpEq | OpGe | OpLe | OpIn.
Inductive Direction := Asc | Desc.

Record Query := mkQuery {
  q_coll : string;
  q_where : list (string * WhereOp * value);
  q_order : option (string * Direction);
  q_offset : number;
  q_limit : option number
}.

Definition collection (name : string) : Query :=
  {| q_coll := name; q_where := []; q_order := None;
     q_offset := Some 0; q_limit := None |}.

Definition fs_where (q : Query) (field : string) (op : WhereOp) (v : value) : Query :=
  {| q_coll := q_coll q; q_where := q_where q ++ [(field, op, v)];
     q_order := q_order q; q_offset := q_offset q; q_limit := q_limit q |}.

Definition fs_orderBy (q : Query) (field : string) (dir : Direction) : Query :=
  {| q_coll := q_coll q; q_where := q_where q;
     q_order := Some (field, dir); q_offset := q_offset q; q_limit := q_limit q |}.

Definition fs_offset (q : Query) (n : number) : Query :=
  {| q_coll := q_coll q; q_where := q_where q;
     q_order := q_order q; q_offset := n; q_limit := q_limit q |}.

Definition fs_limit (q : Query) (n : number) : Query :=
  {| q_coll := q_coll q; q_where := q_where q;
     q_order := q_order q; q_offset := q_offset q; q_limit := Some n |}.

(** The backend's order on stored values: by type first (null, boolean,
    number, timestamp, string, array, map), then by content; arrays and
    maps are not compared further. *)
Definition order_key (v : value) : list Z :=
  match v with
  | VUndef => []
  | VNull => [0]
  | VBool b => [1; if b then 1 else 0]
  | VNum n => [2; n]
  | VTimestamp s n => [3; s; n]
  | VDate (Some ms) => [3; ms / 1000; (ms mod 1000) * 1000000]
  | VDate None => [3]
  | VStr s => 4 :: map (fun c => Z.of_nat (nat_of_ascii c)) (list_ascii_of_string s)
  | VArr _ => [8]
  | VObj _ => [9]
  end.

Fixpoint lex_leb (a b : list Z) : bool :=
  match a, b with
  | [], _ => true
  | _ :: _, [] => false
  | x :: a', y :: b' => (x <? y) || ((x =? y) && lex_leb a' b')
  end.

Definition value_leb (a b : value) : bool := lex_leb (order_key a) (order_key b).

Definition same_type (a b : value) : bool :=
  match order_key a, order_key b with
  | x :: _, y :: _ => (x =? y)
  | _, _ => false
  end.

(** One [where] clause against one document.  A document without the
    field matches nothing; range filters match values of the filter's own
    type only. *)
Definition matches_clause (d : obj) (c : string * WhereOp * value) : bool :=
  let '(field, op, v) := c in
  let x := obj_get d field in
  obj_has d field &&
  match op with
  | OpEq => value_eqb x (toFirestore v)
  | OpGe => same_type x v && value_leb v x
  | OpLe => same_type x v && value_leb x v
  | OpIn => existsb (fun y => value_eqb x (toFirestore y))
              (match v with VArr ys => ys | _ => [] end)
  end.

(** Ordering by a field also keeps only the documents that have it. *)
Definition matches (q : Query) (d : obj) : bool :=
  forallb (matches_clause d) (q_where q) &&
  match q_order q with
  | Some (field, _) => obj_has d field
  | None => true
  end.

Definition matching (db : Db) (q : Query) : Collection :=
  List.filter (fun kd => matches q (snd kd)) (db (q_coll q)).

Definition doc_le (field : string) (dir : Direction) (a b : string * obj) : Prop :=
  match dir with
  | Asc => value_leb (obj_get (snd a) field) (obj_get (snd b) field) = true
  | Desc => value_leb (obj_get (snd b) field) (obj_get (snd a) field) = true
  end.

#[global] Instance doc_le_dec field dir a b : Decision (doc_le field dir a b).
Proof. destruct dir; unfold doc_le; apply _. Defined.

(** The matches in the order of the query.  Documents that tie on the
    ordering field, and the matches of a query without an order, are listed
    as they were inserted, where the backend lists them by document id: the
    properties below leave the order among ties open. *)
Definition ordered (db : Db) (q : Query) : Collection :=
  match q_order q with
  | Some (field, dir) => merge_sort (doc_le field dir) (matching db q)
  | None => matching db q
  end.

(** The window [offset .. offset + limit) of a list. *)
Definition window {A : Type} (offset : Z) (limit : option Z) (l : list A) : list A :=
  match limit with
  | Some n => take (Z.to_nat n) (drop (Z.to_nat offset) l)
  | None => drop (Z.to_nat offset) l
  end.

Inductive error :=
| Error (msg : string)
| TypeError (msg : string)
| RangeError (msg : string)
| FirestoreError (code : string).

Inductive result (A : Type) :=
| Ok (a : A)
| Throw (e : error).
Arguments Ok {A} a.
Arguments Throw {A} e.

(** A filter value must be defined and storable; offset and limit must be
    integers (the client checks this) and not negative (the server does). *)
Definition filter_ok (c : string * WhereOp * value) : bool :=
  let '(_, _, v) := c in
  match v with VUndef => false | _ => storable v end.

Definition run_query (db : Db) (q : Query) : result Collection :=
  if negb (forallb filter_ok (q_where q)) then
    Throw (Error "Value for argument value is not a valid query constraint.")
  else
    match q_offset q, q_limit q with
    | None, _ => Throw (Error "Value for argument offset is not a valid integer.")
    | _, Some None => Throw (Error "Value for argument limit is not a valid integer.")
    | Some off, lim =>
        let lim' := match lim with Some (Some n) => Some n | _ => None end in
        if (off <? 0) || (match lim' with Some n => n <? 0 | None => false end)
        then Throw (FirestoreError "INVALID_ARGUMENT")
        else Ok (window off lim' (ordered db q))
    end.

(** The aggregate count ignores any window. *)
Definition run_count (db : Db) (q : Query) : result Z :=
  if negb (forallb filter_ok (q_where q)) then
    Throw (Error "Value for argument value is not a valid query constraint.")
  else Ok (Z.of_nat (length (matching db q))).

(** *** Writes *)

Inductive Write :=
| WSet (coll id : string) (data : obj)
| WSetMerge (coll id : string) (data : obj)
| WUpdate (coll id : string) (updates : obj)
| WDelete (coll id : string).

Definition apply_write (db : Db) (w : Write) : result Db :=
  match w with
  | WSet coll id data =>
      if storable (VObj data)
      then Ok (db_put db coll (coll_put (db coll) id (toFirestore_doc data)))
      else Throw (Error "Value for argument seconds is not a valid integer.")
  | WSetMerge coll id data =>
      if storable (VObj data)
      then
        let old := match coll_get (db coll) id with Some d => d | None => [] end in
        Ok (db_put db coll (coll_put (db coll) id (merge_obj old (toFirestore_doc data))))
      else Throw (Error "Value for argument seconds is not a valid integer.")
  | WUpdate coll id updates =>
      if storable (VObj updates)
      then
        match coll_get (db coll) id with
        | Some d =>
            Ok (db_put db coll
                  (coll_put (db coll) id (obj_spread d (toFirestore_doc updates))))
        | None => Throw (FirestoreError "NOT_FOUND")
        end
      else Throw (Error "Value for argument seconds is not a valid integer.")
  | WDelete coll id => Ok (db_put db coll (coll_remove (db coll) id))
  end.

(** A batch is applied as a whole or not at all. *)
Fixpoint apply_writes (db : Db) (ws : list Write) : result Db :=
  match ws with
  | [] => Ok db
  | w :: ws' =>
      match apply_write db w with
      | Ok db' => apply_writes db' ws'
      | Throw e => Throw e
      end
  end.

(** ** The world and the monad of operations *)

Inductive Event :=
| EvGet (coll id : string)
| EvWrite (w : Write)
| EvQuery (q : Query)
| EvCount (q : Query)
| EvCommit (ws : list Write).

Record World := mkWorld {
  w_db : Db;
  w_log : list Event;
  w_now : Z;
  w_ids : nat
}.

Definition M (A : Type) : Type := World -> result A * World.

Definition ret {A : Type} (a : A) : M A := fun w => (Ok a, w).

Definition throw {A : Type} (e : error) : M A := fun w => (Throw e, w).

Definition bind {A B : Type} (m : M A) (k : A -> M B) : M B :=
  fun w =>
    match m w with
    | (Ok a, w') => k a w'
    | (Throw e, w') => (Throw e, w')
    end.

Declare Scope op_scope.
Delimit Scope op_scope with op.
Notation "x <- c1 ;; c2" := (bind c1 (fun x => c2))
  (at level 100, c1 at next level, right associativity) : op_scope.
Notation "c1 ;; c2" := (bind c1 (fun _ => c2))
  (at level 100, right associativity) : op_scope.
Local Open Scope op_scope.

Fixpoint mapM {A B : Type} (f : A -> M B) (l : list A) : M (list B) :=
  match l with
  | [] => ret []
  | x :: l' => y <- f x ;; ys <- mapM f l' ;; ret (y :: ys)
  end.

Fixpoint forM_ {A : Type} (l : list A) (f : A -> M unit) : M unit :=
  match l with
  | [] => ret tt
  | x :: l' => f x ;; forM_ l' f
  end.

(** A computation that touches no state, and [docs.map(f)] for an [f] that
    may throw. *)
Definition liftR {A : Type} (r : result A) : M A := fun w => (r, w).

Fixpoint mapR {A B : Type} (f : A -> result B) (l : list A) : result (list B) :=
  match l with
  | [] => Ok []
  | x :: l' =>
      match f x with
      | Throw e => Throw e
      | Ok y =>
          match mapR f l' with
          | Throw e => Throw e
          | Ok ys => Ok (y :: ys)
          end
      end
  end.

Definition logged (ev : Event) (w : World) : World :=
  {| w_db := w_db w; w_log := w_log w ++ [ev]; w_now := w_now w; w_ids := w_ids w |}.

Definition with_db (db : Db) (w : World) : World :=
  {| w_db := db; w_log := w_log w; w_now := w_now w; w_ids := w_ids w |}.

Definition log (ev : Event) : M unit := fun w => (Ok tt, logged ev w).

Definition lift {A : Type} (f : Db -> result A) : M A :=
  fun w => (f (w_db w), w).

Definition set_db (db : Db) : M unit := fun w => (Ok tt, with_db db w).

(** [new Date()]. *)
Definition now : M value := fun w => (Ok (VDate (Some (w_now w))), w).

(** [collection.doc()]: a reference with a generated id. *)
Definition auto_id : M string :=
  fun w => (Ok ("auto-" +:+ pretty (w_ids w)),
            {| w_db := w_db w; w_log := w_log w;
               w_now := w_now w; w_ids := S (w_ids w) |}).

(** [docRef.get()]: [None] when the document does not exist. *)
Definition doc_get (coll id : string) : M (option obj) :=
  log (EvGet coll id) ;;
  lift (fun db => Ok (coll_get (db coll) id)).

Definition write (w : Write) : M unit :=
  log (EvWrite w) ;;
  db <- lift (fun db => apply_write db w) ;;
  set_db db.

Definition doc_set (coll id : string) (data : obj) : M unit := write (WSet coll id data).
Definition doc_set_merge (coll id : string) (data : obj) : M unit :=
  write (WSetMerge coll id data).
Definition doc_update (coll id : string) (updates : obj) : M unit :=
  write (WUpdate coll id updates).
Definition doc_delete (coll id : string) : M unit := write (WDelete coll id).

(** [collectionRef.add(data)]. *)
Definition coll_add (coll : string) (data : obj) : M unit :=
  id <- auto_id ;; doc_set coll id data.

(** [batch.commit()]. *)
Definition commit (ws : list Write) : M unit :=
  log (EvCommit ws) ;;
  db <- lift (fun db => apply_writes db ws) ;;
  set_db db.

(** [query.get()]: the documents of the snapshot, with their ids. *)
Definition query_get (q : Query) : M Collection :=
  log (EvQuery q) ;;
  lift (fun db => run_query db q).

(** [query.count().get()] and [.data().count]. *)
Definition query_count (q : Query) : M Z :=
  log (EvCount q) ;;
  lift (fun db => run_count db q).

(** ** Names and shapes shared by the domains *)

(** The collection names are constants of the host framework. *)
Class Tables := {
  TABLE_THREADS : string;
  TABLE_MESSAGES : string;
  TABLE_RESOURCES : string;
  TABLE_WORKFLOW_SNAPSHOT : string;
  TABLE_TRACES : string;
  TABLE_AI_SPANS : string;
  TABLE_SCORERS : string;
  TABLE_EVALS : string
}.

Definition example_tables : Tables :=
  {| TABLE_THREADS := "mastra_threads";
     TABLE_MESSAGES := "mastra_messages";
     TABLE_RESOURCES := "mastra_resources";
     TABLE_WORKFLOW_SNAPSHOT := "mastra_workflow_snapshot";
     TABLE_TRACES := "mastra_traces";
     TABLE_AI_SPANS := "mastra_ai_spans";
     TABLE_SCORERS := "mastra_scorers";
     TABLE_EVALS := "mastra_evals" |}.

(** A page of records with its [PaginationInfo]. *)
Record Page := mkPage {
  items : list obj;
  page : number;
  perPage : number;
  total : Z;
  hasMore : bool
}.

(** [{ page = 1, perPage = 20 } = pagination]: a default replaces an
    undefined field only.  The pagination object itself is taken as given:
    a call that leaves it out altogether is not modelled (the scores
    destructure it as it comes, messages and spans behind [|| {}]). *)
Record StoragePagination := mkPagination {
  sp_page : option Z;
  sp_perPage : option Z
}.

Definition no_pagination : StoragePagination :=
  {| sp_page := None; sp_perPage := None |}.

Definition or_default {A : Type} (o : option A) (d : A) : A :=
  match o with Some a => a | None => d end.

(** A record that carries an id that is a non-empty string is written under
    that id. *)
Definition explicit_id (record : obj) : option string :=
  match obj_get record "id" with
  | VStr s => if truthy (VStr s) then Some s else None
  | _ => None
  end.

(** ** Property tests and spreads on any value

    Which names the built-in prototypes define, and how a string lists its
    characters, is taken from the runtime: [Object_prototype_has] for what
    every object inherits, [exotic_has] for the other properties of arrays,
    dates and timestamps. *)
Class JSObjects := {
  Object_prototype_has : string -> bool;
  exotic_has : value -> string -> bool;
  String_entries : string -> obj
}.

Definition example_objects : JSObjects :=
  {| Object_prototype_has := fun k =>
       bool_decide (k ∈ ["constructor"; "hasOwnProperty"; "isPrototypeOf";
                         "propertyIsEnumerable"; "toLocaleString"; "toString";
                         "valueOf"; "__proto__"; "__defineGetter__";
                         "__defineSetter__"; "__lookupGetter__"; "__lookupSetter__"]);
     exotic_has := fun _ _ => false;
     String_entries := fun _ => [] |}.

(** A primitive as the message of a [TypeError] prints it. *)
Definition prim_text (v : value) : string :=
  match v with
  | VUndef => "undefined"
  | VNull => "null"
  | VBool b => if b then "true" else "false"
  | VNum n => pretty n
  | VStr s => s
  | _ => ""
  end.

Section JSObj.
Context `{JSObjects}.

(** [k in v]: own and inherited properties; a primitive on the right
    throws. *)
Definition js_in (k : string) (v : value) : result bool :=
  match v with
  | VObj o => Ok (obj_has o k || Object_prototype_has k)
  | VArr _ | VDate _ | VTimestamp _ _ => Ok (exotic_has v k || Object_prototype_has k)
  | _ => Throw (TypeError ("Cannot use 'in' operator to search for '" +:+ k
                           +:+ "' in " +:+ prim_text v))
  end.

(** The own enumerable properties of a value, as [{...v}] copies them. *)
Definition own_entries (v : value) : obj :=
  match v with
  | VObj o => o
  | VArr xs => imap (fun i x => (pretty i, x)) xs
  | VTimestamp s n => [("_seconds", VNum s); ("_nanoseconds", VNum n)]
  | VStr s => String_entries s
  | _ => []
  end.

End JSObj.

(** A loop that threads an accumulator through steps that may throw. *)
Fixpoint foldM {A B : Type} (f : B -> A -> M B) (l : list A) (b : B) : M B :=
  match l with
  | [] => ret b
  | x :: l' => b' <- f b x ;; foldM f l' b'
  end.

(** ** domains/operations: [StoreOperationsFirestore] *)
Module StoreOperationsFirestore.
Section ops.
Context `{JSBuiltins}.

Definition hasColumn (table column : string) : M bool :=
  throw (Error "Method not implemented.").

Definition serializeRecord (record : obj) : obj :=
  fold_left
    (fun serialized kv =>
       let '(key, value) := kv in
       if instanceof_Date value then obj_set serialized key value
       else if nullish value then obj_set serialized key VNull
       else if typeof_object value then obj_set serialized key (json_roundtrip value)
       else obj_set serialized key value)
    record [].

Definition deserializeRecord (data : option obj) : obj :=
  match data with
  | None => []
  | Some data =>
      fold_left
        (fun deserialized kv =>
           let '(key, value) := kv in
           if truthy value && typeof_object value && has_prop value "_seconds"
           then obj_set deserialized key
                  (VDate (num_mul (toNumber (prop value "_seconds")) (Some 1000)))
           else obj_set deserialized key value)
        data []
  end.

Definition insert (tableName : string) (record : obj) : M unit :=
  match explicit_id record with
  | Some id => doc_set tableName id (serializeRecord record)
  | None => coll_add tableName (serializeRecord record)
  end.

Definition batchInsert (tableName : string) (records : list obj) : M unit :=
  let batchSize := 500%nat in
  forM_ (slices batchSize records)
    (fun batchRecords =>
       batch <- mapM
                  (fun record =>
                     match explicit_id record with
                     | Some id => ret (WSet tableName id (serializeRecord record))
                     | None =>
                         id <- auto_id ;;
                         ret (WSet tableName id (serializeRecord record))
                     end)
                  batchRecords ;;
       commit batch).

(** [for (const [key, value] of Object.entries(keys))
      query = query.where(key, "==", value)]. *)
Definition load_query (tableName : string) (keys : obj) : Query :=
  fold_left (fun q kv => fs_where q (fst kv) OpEq (snd kv)) keys
    (collection tableName).

(** The result is [null] or the one decoded record. *)
Definition load (tableName : string) (keys : obj) : M value :=
  if truthy (obj_get keys "id") then
    match obj_get keys "id" with
    | VStr id =>
        doc <- doc_get tableName id ;;
        match doc with
        | None => ret VNull
        | Some data => ret (VObj (deserializeRecord (Some data)))
        end
    | _ => throw (TypeError "document path must be a string")
    end
  else
    let query := load_query tableName keys in
    snapshot <- query_get (fs_limit query (Some 1)) ;;
    match snapshot with
    | [] => ret VNull
    | (_, data) :: _ => ret (VObj (deserializeRecord (Some data)))
    end.

Context `{JSObjects}.

Definition createTable (tableName : string) (schema : obj) : M unit :=
  d <- now ;;
  doc_set "_metadata" tableName [("schema", VObj schema); ("createdAt", d)].

Definition alterTable (tableName : string) (schema : obj) (ifNotExists : list string)
  : M unit :=
  doc <- doc_get "_metadata" tableName ;;
  match doc with
  | None => ret tt
  | Some data =>
      let existingSchema := js_or (obj_get data "schema") (VObj []) in
      let updatedSchema := obj_spread [] (own_entries existingSchema) in
      updatedSchema <-
        foldM
          (fun updatedSchema columnName =>
             present <- liftR (js_in columnName existingSchema) ;;
             if present then ret updatedSchema
             else
               wanted <- liftR (js_in columnName (VObj schema)) ;;
               if wanted
               then ret (obj_set updatedSchema columnName (obj_get schema columnName))
               else ret updatedSchema)
          ifNotExists updatedSchema ;;
      d <- now ;;
      doc_update "_metadata" tableName [("schema", VObj updatedSchema); ("updatedAt", d)]
  end.

(** One round of [clearTable]: the number of documents it deleted. *)
Definition deleteQueryBatch (tableName : string) (batchSize : nat) : M nat :=
  snapshot <- query_get (fs_limit (collection tableName) (Some (Z.of_nat batchSize))) ;;
  if (length snapshot =? 0)%nat then ret 0%nat
  else
    commit (map (fun doc => WDelete tableName (fst doc)) snapshot) ;;
    ret (length snapshot).

(** [do { deletedCount = await deleteQueryBatch() } while (deletedCount >=
    batchSize)].  A round that goes on has deleted [batchSize] documents, so
    the rounds are bounded by the size of the collection; the bound is not
    reached (see [clearTable_run]). *)
Fixpoint clearTable_rounds (fuel : nat) (tableName : string) (batchSize : nat) : M unit :=
  match fuel with
  | O => throw (Error "clearTable: more rounds than documents")
  | S fuel' =>
      deletedCount <- deleteQueryBatch tableName batchSize ;;
      if (batchSize <=? deletedCount)%nat
      then clearTable_rounds fuel' tableName batchSize
      else ret tt
  end.

Definition clearTable (tableName : string) : M unit :=
  let batchSize := 500%nat in
  fun w => clearTable_rounds (S (length (w_db w tableName))) tableName batchSize w.

Definition dropTable (tableName : string) : M unit :=
  clearTable tableName ;;
  doc_delete "_metadata" tableName.

End ops.
End StoreOperationsFirestore.

(** ** domains/traces: [TracesFirestore] *)
Module TracesFirestore.
Section traces.
Context `{JSBuiltins} `{Tables}.

(** The fields of [StorageGetTracesArg] the adapter reads.  [page] and
    [perPage] are destructured without a default: left undefined they are
    [NaN] in the arithmetic. *)
Record StorageGetTracesArg := mkTracesArg {
  tr_page : number;
  tr_perPage : number;
  tr_fromDate : value;
  tr_toDate : value
}.

Definition serializeTrace (trace : obj) : M obj :=
  d <- now ;;
  ret (obj_set trace "timestamp" (js_or (obj_get trace "timestamp") d)).

Definition deserializeTrace (data : option obj) : result obj :=
  match data with
  | None => Throw (Error "Trace data is undefined")
  | Some data =>
      Ok [("id", obj_get data "id");
           ("parentSpanId", obj_get data "parentSpanId");
           ("name", obj_get data "name");
           ("traceId", obj_get data "traceId");
           ("attributes", obj_get data "attributes");
           ("links", obj_get data "links");
           ("createdAt", coerceDate (obj_get data "createdAt"));
           ("scope", obj_get data "scope");
           ("kind", obj_get data "kind");
           ("status", obj_get data "status");
           ("events", js_or (obj_get data "events") (VArr []));
           ("other", js_or (obj_get data "other") (VArr []));
           ("startTime", coerceDate (obj_get data "startTime"));
           ("endTime", coerceDate (obj_get data "endTime"))]
  end.

Definition traces_query (fromDate toDate : value) : Query :=
  let query := collection TABLE_TRACES in
  let query := if truthy fromDate then fs_where query "timestamp" OpGe fromDate else query in
  let query := if truthy toDate then fs_where query "timestamp" OpLe toDate else query in
  fs_orderBy query "timestamp" Desc.

Definition getTraces (args : StorageGetTracesArg) : M (list obj) :=
  let query := traces_query (tr_fromDate args) (tr_toDate args) in
  snapshot <- query_get query ;;
  liftR (mapR (fun doc => deserializeTrace (Some (snd doc))) snapshot).

Definition getTracesPaginated (args : StorageGetTracesArg) : M Page :=
  let page := tr_page args in
  let perPage := tr_perPage args in
  let query := traces_query (tr_fromDate args) (tr_toDate args) in
  totalCount <- query_count query ;;
  let offset := num_mul (num_sub page (Some 1)) perPage in
  snapshot <- query_get (fs_limit (fs_offset query offset) perPage) ;;
  traces <- liftR (mapR (fun doc => deserializeTrace (Some (snd doc))) snapshot) ;;
  ret {| items := traces; page := page; perPage := perPage;
         total := totalCount;
         hasMore := num_gtb (Some totalCount) (num_add offset perPage) |}.

Definition batchTraceInsert (records : list obj) : M unit :=
  if (length records =? 0)%nat then ret tt
  else
    let batchSize := 500%nat in
    forM_ (slices batchSize records)
      (fun batchRecords =>
         batch <- mapM
                    (fun record =>
                       id <- (if truthy (obj_get record "id")
                              then match obj_get record "id" with
                                   | VStr s => ret s
                                   | _ => throw (TypeError "document path must be a string")
                                   end
                              else auto_id) ;;
                       data <- serializeTrace record ;;
                       ret (WSet TABLE_TRACES id data))
                    batchRecords ;;
         commit batch).

End traces.
End TracesFirestore.

(** ** domains/scores: [ScoresFirestore] *)
Module ScoresFirestore.
Section scores.
Context `{JSBuiltins} `{Tables}.

Definition serializeScore (score : obj) : obj :=
  [("id", obj_get score "id");
   ("scorerId", obj_get score "scorerId");
   ("entityId", obj_get score "entityId");
   ("entityType", obj_get score "entityType");
   ("source", obj_get score "source");
   ("runId", obj_get score "runId");
   ("traceId", obj_get score "traceId");
   ("spanId", obj_get score "spanId");
   ("score", obj_get score "score");
   ("metadata", js_or (obj_get score "metadata") (VObj []));
   ("createdAt", obj_get score "createdAt");
   ("updatedAt", obj_get score "updatedAt")].

Definition deserializeScore (data : option obj) : result obj :=
  match data with
  | None => Throw (Error "Score data is undefined")
  | Some data =>
      Ok [("id", obj_get data "id");
           ("scorerId", obj_get data "scorerId");
           ("entityId", obj_get data "entityId");
           ("entityType", obj_get data "entityType");
           ("source", obj_get data "source");
           ("runId", obj_get data "runId");
           ("traceId", obj_get data "traceId");
           ("spanId", obj_get data "spanId");
           ("score", obj_get data "score");
           ("metadata", js_or (obj_get data "metadata") (VObj []));
           ("createdAt", coerceDate (obj_get data "createdAt"));
           ("updatedAt", coerceDate (obj_get data "updatedAt"));
           ("output", js_or (obj_get data "output") (VObj []));
           ("input", js_or (obj_get data "input") (VObj []));
           ("entity", js_or (obj_get data "entity") (VObj []));
           ("scorer", js_or (obj_get data "scorer") (VObj []))]
  end.

Definition getScoreById (id : string) : M value :=
  doc <- doc_get TABLE_SCORERS id ;;
  match doc with
  | None => ret VNull
  | Some data => s <- liftR (deserializeScore (Some data)) ;; ret (VObj s)
  end.

Definition saveScore (score : obj) : M obj :=
  id <- auto_id ;;
  d <- now ;;
  let scoreData :=
    obj_set (obj_set (obj_set score "id" (VStr id)) "createdAt" d) "updatedAt" d in
  doc_set TABLE_SCORERS id (serializeScore scoreData) ;;
  ret scoreData.

Definition executePaginatedQuery (query : Query) (pagination : StoragePagination)
  : M Page :=
  let page := or_default (sp_page pagination) 1 in
  let perPage := or_default (sp_perPage pagination) 20 in
  let query := fs_orderBy query "createdAt" Desc in
  totalCount <- query_count query ;;
  let offset := (page - 1) * perPage in
  snapshot <- query_get (fs_limit (fs_offset query (Some offset)) (Some perPage)) ;;
  scores <- liftR (mapR (fun doc => deserializeScore (Some (snd doc))) snapshot) ;;
  ret {| items := scores; page := Some page; perPage := Some perPage;
         total := totalCount;
         hasMore := (offset + perPage <? totalCount) |}.

Definition getScoresByScorerId (scorerId : string)
    (entityId entityType source : option string) (pagination : StoragePagination)
  : M Page :=
  let query := fs_where (collection TABLE_SCORERS) "scorerId" OpEq (VStr scorerId) in
  let query := if truthy (opt_str entityId)
               then fs_where query "entityId" OpEq (opt_str entityId) else query in
  let query := if truthy (opt_str entityType)
               then fs_where query "entityType" OpEq (opt_str entityType) else query in
  let query := if truthy (opt_str source)
               then fs_where query "source" OpEq (opt_str source) else query in
  executePaginatedQuery query pagination.

Definition getScoresByRunId (runId : string) (pagination : StoragePagination) : M Page :=
  let query := fs_where (collection TABLE_SCORERS) "runId" OpEq (VStr runId) in
  executePaginatedQuery query pagination.

Definition getScoresByEntityId (entityId entityType : string)
    (pagination : StoragePagination) : M Page :=
  let query := fs_where (collection TABLE_SCORERS) "entityId" OpEq (VStr entityId) in
  let query := if truthy (VStr entityType)
               then fs_where query "entityType" OpEq (VStr entityType) else query in
  executePaginatedQuery query pagination.

Definition getScoresBySpan (traceId spanId : string) (pagination : StoragePagination)
  : M Page :=
  let query :=
    fs_where (fs_where (collection TABLE_SCORERS) "traceId" OpEq (VStr traceId))
      "spanId" OpEq (VStr spanId) in
  executePaginatedQuery query pagination.

End scores.
End ScoresFirestore.

(** ** domains/legacy-evals: [LegacyEvalsFirestore] *)
Module LegacyEvalsFirestore.
Section evals.
Context `{JSBuiltins} `{Tables}.

Record EvalsOptions := mkEvalsOptions {
  ev_agentName : option string;
  ev_type : option string;
  ev_page : option Z;
  ev_perPage : option Z
}.

(** [d.toISOString()], which rejects an invalid date. *)
Definition toISOString (d : value) : result value :=
  match d with
  | VDate (Some ms) => Ok (VStr (Date_toISOString ms))
  | VDate None => Throw (RangeError "Invalid time value")
  | _ => Throw (TypeError "toISOString is not a function")
  end.

Definition deserializeEval (data : option obj) : result obj :=
  match data with
  | None => Throw (Error "Eval data is undefined")
  | Some data =>
      match toISOString (coerceDate (obj_get data "createdAt")) with
      | Throw e => Throw e
      | Ok createdAt =>
          Ok [("agentName", obj_get data "agentName");
              ("input", obj_get data "input");
              ("output", obj_get data "output");
              ("result",
               js_or (js_or (obj_get data "result") (obj_get data "score")) (VObj []));
              ("metricName", js_or (obj_get data "metricName") (VStr "unknown"));
              ("instructions", js_or (obj_get data "instructions") (VStr ""));
              ("runId", js_or (obj_get data "runId") (VStr ""));
              ("globalRunId", js_or (obj_get data "globalRunId") (VStr ""));
              ("testInfo", obj_get data "testInfo");
              ("createdAt", createdAt)]
      end
  end.

Definition evals_query (agentName type : option string) : Query :=
  let query := collection TABLE_EVALS in
  let query := if truthy (opt_str agentName)
               then fs_where query "agentName" OpEq (opt_str agentName) else query in
  let query := if truthy (opt_str type)
               then fs_where query "type" OpEq (opt_str type) else query in
  fs_orderBy query "createdAt" Desc.

Definition getEvals (options : EvalsOptions) : M Page :=
  let page := or_default (ev_page options) 1 in
  let perPage := or_default (ev_perPage options) 20 in
  let query := evals_query (ev_agentName options) (ev_type options) in
  totalCount <- query_count query ;;
  let offset := (page - 1) * perPage in
  snapshot <- query_get (fs_limit (fs_offset query (Some offset)) (Some perPage)) ;;
  evals <- liftR (mapR (fun doc => deserializeEval (Some (snd doc))) snapshot) ;;
  ret {| items := evals; page := Some page; perPage := Some perPage;
         total := totalCount;
         hasMore := (offset + perPage <? totalCount) |}.

Definition getEvalsByAgentName (agentName : string) (type : option string)
  : M (list obj) :=
  let query := fs_where (collection TABLE_EVALS) "agentName" OpEq (VStr agentName) in
  let query := if truthy (opt_str type)
               then fs_where query "type" OpEq (opt_str type) else query in
  let query := fs_orderBy query "createdAt" Desc in
  snapshot <- query_get query ;;
  liftR (mapR (fun doc => deserializeEval (Some (snd doc))) snapshot).

End evals.
End LegacyEvalsFirestore.

(** ** domains/memory: [MemoryFirestore] *)
Module MemoryFirestore.
Section memory.
Context `{JSBuiltins} `{Tables}.

Record ThreadsArgs := mkThreadsArgs {
  th_resourceId : string;
  th_page : option Z;
  th_perPage : option Z;
  th_orderBy : option string;
  th_sortDirection : option string
}.

Record MessagesArgs := mkMessagesArgs {
  ms_threadId : string;
  ms_include : option (list string);
  ms_pagination : option StoragePagination
}.

(** [collection.doc(id)] needs a string. *)
Definition doc_path (id : value) : M string :=
  match id with
  | VStr s => ret s
  | _ => throw (Error "Value for argument documentPath is not a valid resource path.")
  end.

Definition serializeThread (thread : obj) : obj :=
  [("id", obj_get thread "id");
   ("resourceId", obj_get thread "resourceId");
   ("title", obj_get thread "title");
   ("metadata", js_or (obj_get thread "metadata") (VObj []));
   ("createdAt", obj_get thread "createdAt");
   ("updatedAt", obj_get thread "updatedAt")].

Definition deserializeThread (data : option obj) : result obj :=
  match data with
  | None => Throw (Error "Thread data is undefined")
  | Some data =>
      Ok [("id", obj_get data "id");
           ("resourceId", obj_get data "resourceId");
           ("title", obj_get data "title");
           ("metadata", js_or (obj_get data "metadata") (VObj []));
           ("createdAt", coerceDate (obj_get data "createdAt"));
           ("updatedAt", coerceDate (obj_get data "updatedAt"))]
  end.

Definition serializeMessage (message : obj) : obj :=
  obj_set message "createdAt" (obj_get message "createdAt").

Definition deserializeMessage (data : option obj) : result obj :=
  match data with
  | None => Throw (Error "Message data is undefined")
  | Some data =>
      Ok (obj_set data "createdAt" (coerceDate (obj_get data "createdAt")))
  end.

Definition serializeResource (resource : obj) : obj :=
  [("id", obj_get resource "id");
   ("workingMemory", js_or (obj_get resource "workingMemory") (VStr ""));
   ("metadata", js_or (obj_get resource "metadata") (VObj []));
   ("createdAt", obj_get resource "createdAt");
   ("updatedAt", obj_get resource "updatedAt")].

Definition deserializeResource (data : option obj) : result obj :=
  match data with
  | None => Throw (Error "Resource data is undefined")
  | Some data =>
      Ok [("id", obj_get data "id");
           ("workingMemory", js_or (obj_get data "workingMemory") (VStr ""));
           ("metadata", js_or (obj_get data "metadata") (VObj []));
           ("createdAt", coerceDate (obj_get data "createdAt"));
           ("updatedAt", coerceDate (obj_get data "updatedAt"))]
  end.

Definition getThreadById (threadId : string) : M value :=
  doc <- doc_get TABLE_THREADS threadId ;;
  match doc with
  | None => ret VNull
  | Some data => t <- liftR (deserializeThread (Some data)) ;; ret (VObj t)
  end.

Definition threads_query (resourceId : string) (orderBy sortDirection : string) : Query :=
  let query := fs_where (collection TABLE_THREADS) "resourceId" OpEq (VStr resourceId) in
  if truthy (VStr orderBy) && truthy (VStr sortDirection)
  then fs_orderBy query orderBy (if String.eqb sortDirection "ASC" then Asc else Desc)
  else query.

Definition getThreadsByResourceIdPaginated (args : ThreadsArgs) : M Page :=
  let resourceId := th_resourceId args in
  let page := or_default (th_page args) 1 in
  let perPage := or_default (th_perPage args) 20 in
  let orderBy := or_default (th_orderBy args) "createdAt" in
  let sortDirection := or_default (th_sortDirection args) "ASC" in
  let query := threads_query resourceId orderBy sortDirection in
  totalCount <- query_count query ;;
  let offset := (page - 1) * perPage in
  snapshot <- query_get (fs_limit (fs_offset query (Some offset)) (Some perPage)) ;;
  threads <- liftR (mapR (fun doc => deserializeThread (Some (snd doc))) snapshot) ;;
  ret {| items := threads; page := Some page; perPage := Some perPage;
         total := totalCount;
         hasMore := (offset + perPage <? totalCount) |}.

Definition saveThread (thread : obj) : M obj :=
  id <- doc_path (obj_get thread "id") ;;
  d <- now ;;
  let threadData :=
    obj_set (obj_set thread "createdAt" (js_or (obj_get thread "createdAt") d))
      "updatedAt" d in
  doc_set TABLE_THREADS id (serializeThread threadData) ;;
  ret threadData.

Definition updateThread (id title : string) (metadata : value) : M obj :=
  doc <- doc_get TABLE_THREADS id ;;
  match doc with
  | None => throw (Error ("Thread " +:+ id +:+ " not found"))
  | Some _ =>
      d <- now ;;
      let updates := [("title", VStr title); ("metadata", metadata); ("updatedAt", d)] in
      doc_update TABLE_THREADS id updates ;;
      updatedDoc <- doc_get TABLE_THREADS id ;;
      liftR (deserializeThread updatedDoc)
  end.

Definition deleteThread (threadId : string) : M unit :=
  doc_delete TABLE_THREADS threadId ;;
  let messagesQuery :=
    fs_where (collection TABLE_MESSAGES) "threadId" OpEq (VStr threadId) in
  messagesSnapshot <- query_get messagesQuery ;;
  let batch := map (fun doc => WDelete TABLE_MESSAGES (fst doc)) messagesSnapshot in
  if (0 <? length messagesSnapshot)%nat then commit batch else ret tt.

Definition messages_query (threadId : string) (include : list string) : Query :=
  let query := fs_where (collection TABLE_MESSAGES) "threadId" OpEq (VStr threadId) in
  let query := fold_left (fun q id => fs_where q "id" OpEq (VStr id)) include query in
  fs_orderBy query "createdAt" Asc.

Definition getMessages (args : MessagesArgs) : M (list obj) :=
  let query := messages_query (ms_threadId args) (or_default (ms_include args) []) in
  snapshot <- query_get query ;;
  liftR (mapR (fun doc => deserializeMessage (Some (snd doc))) snapshot).

Definition getMessagesById (messageIds : list string) : M (list obj) :=
  if (length messageIds =? 0)%nat then ret []
  else
    let batchSize := 10%nat in
    batches <- mapM
                 (fun batchIds =>
                    let query :=
                      fs_where (collection TABLE_MESSAGES) "id" OpIn
                        (VArr (map VStr batchIds)) in
                    snapshot <- query_get query ;;
                    liftR (mapR (fun doc => deserializeMessage (Some (snd doc))) snapshot))
                 (slices batchSize messageIds) ;;
    ret (concat batches).

Definition getMessagesPaginated (args : MessagesArgs) : M Page :=
  let pagination := or_default (ms_pagination args) no_pagination in
  let page := or_default (sp_page pagination) 1 in
  let perPage := or_default (sp_perPage pagination) 20 in
  let query := messages_query (ms_threadId args) (or_default (ms_include args) []) in
  totalCount <- query_count query ;;
  let offset := (page - 1) * perPage in
  snapshot <- query_get (fs_limit (fs_offset query (Some offset)) (Some perPage)) ;;
  messages <- liftR (mapR (fun doc => deserializeMessage (Some (snd doc))) snapshot) ;;
  ret {| items := messages; page := Some page; perPage := Some perPage;
         total := totalCount;
         hasMore := (offset + perPage <? totalCount) |}.

Definition saveMessages (messages : list obj) : M (list obj) :=
  if (length messages =? 0)%nat then ret []
  else
    d <- now ;;
    batch <- mapM
               (fun message =>
                  id <- doc_path (obj_get message "id") ;;
                  let messageData :=
                    obj_set message "createdAt"
                      (js_or (obj_get message "createdAt") d) in
                  ret (WSet TABLE_MESSAGES id (serializeMessage messageData)))
               messages ;;
    commit batch ;;
    ret messages.

Definition deleteMessages (messageIds : list string) : M unit :=
  if (length messageIds =? 0)%nat then ret tt
  else
    let batchSize := 500%nat in
    forM_ (slices batchSize messageIds)
      (fun batchIds => commit (map (fun id => WDelete TABLE_MESSAGES id) batchIds)).

Definition getResourceById (resourceId : string) : M value :=
  doc <- doc_get TABLE_RESOURCES resourceId ;;
  match doc with
  | None => ret VNull
  | Some data => r <- liftR (deserializeResource (Some data)) ;; ret (VObj r)
  end.

Definition saveResource (resource : obj) : M obj :=
  id <- doc_path (obj_get resource "id") ;;
  d <- now ;;
  let resourceData :=
    obj_set (obj_set resource "createdAt" (js_or (obj_get resource "createdAt") d))
      "updatedAt" d in
  doc_set TABLE_RESOURCES id (serializeResource resourceData) ;;
  ret resourceData.

Definition updateResource (resourceId : string) (workingMemory : option string)
    (metadata : value) : M obj :=
  doc <- doc_get TABLE_RESOURCES resourceId ;;
  match doc with
  | None => throw (Error ("Resource " +:+ resourceId +:+ " not found"))
  | Some _ =>
      d <- now ;;
      let updates := [("updatedAt", d)] in
      let updates := match workingMemory with
                     | Some wm => obj_set updates "workingMemory" (VStr wm)
                     | None => updates
                     end in
      let updates := match metadata with
                     | VUndef => updates
                     | _ => obj_set updates "metadata" metadata
                     end in
      doc_update TABLE_RESOURCES resourceId updates ;;
      updatedDoc <- doc_get TABLE_RESOURCES resourceId ;;
      liftR (deserializeResource updatedDoc)
  end.

(** The arguments are the resource and the sort options; a page or page
    size that comes along is not looked at. *)
Definition getThreadsByResourceId (args : ThreadsArgs) : M (list obj) :=
  let resourceId := th_resourceId args in
  let orderBy := or_default (th_orderBy args) "createdAt" in
  let sortDirection := or_default (th_sortDirection args) "ASC" in
  let query := threads_query resourceId orderBy sortDirection in
  snapshot <- query_get query ;;
  liftR (mapR (fun doc => deserializeThread (Some (snd doc))) snapshot).

End memory.
End MemoryFirestore.

(** ** domains/workflows: [WorkflowsFirestore] *)
Module WorkflowsFirestore.
Section workflows.
Context `{JSBuiltins} `{Tables}.

Record WorkflowStateOpts := mkStateOpts {
  wo_status : string;
  wo_result : value;
  wo_error : value;
  wo_suspendedPaths : value;
  wo_waitingPaths : value
}.

(** [target[k] = v].  A property put on an array, a date or a timestamp is
    no part of its value (it is neither stored nor serialised); a primitive
    takes no property. *)
Definition assign_prop (target : value) (k : string) (v : value) : M value :=
  match target with
  | VObj o => ret (VObj (obj_set o k v))
  | VArr _ | VDate _ | VTimestamp _ _ => ret target
  | _ => throw (TypeError "Cannot create property on a primitive")
  end.

Definition snapshot_id (workflowName runId : string) : string :=
  workflowName +:+ "_" +:+ runId.

Definition updateWorkflowResults (workflowName runId stepId : string)
    (result runtimeContext : value) : M value :=
  let id := snapshot_id workflowName runId in
  doc <- doc_get TABLE_WORKFLOW_SNAPSHOT id ;;
  let results :=
    match doc with
    | Some data => js_or (obj_get data "results") (VObj [])
    | None => VObj []
    end in
  results <- assign_prop results stepId result ;;
  d <- now ;;
  doc_set_merge TABLE_WORKFLOW_SNAPSHOT id
    [("workflowName", VStr workflowName);
     ("runId", VStr runId);
     ("results", results);
     ("runtimeContext", runtimeContext);
     ("updatedAt", d)] ;;
  ret results.

Definition deserializeWorkflowRunState (data : option obj) : result obj :=
  match data with
  | None => Throw (Error "Workflow run state data is undefined")
  | Some data =>
      Ok [("runId", obj_get data "runId");
           ("status", obj_get data "status");
           ("result", obj_get data "result");
           ("runtimeContext", js_or (obj_get data "runtimeContext") (VObj []));
           ("error", obj_get data "error");
           ("suspendedPaths", js_or (obj_get data "suspendedPaths") (VObj []));
           ("waitingPaths", js_or (obj_get data "waitingPaths") (VObj []));
           ("timestamp", coerceDate (obj_get data "timestamp"));
           ("value", js_or (obj_get data "value") (VObj []));
           ("context", js_or (obj_get data "context") (VObj []));
           ("serializedStepGraph", js_or (obj_get data "serializedStepGraph") (VArr []));
           ("activePaths", js_or (obj_get data "activePaths") (VArr []))]
  end.

(** [if (x !== undefined) updates.k = x]. *)
Definition set_if_defined (updates : obj) (k : string) (x : value) : obj :=
  match x with
  | VUndef => updates
  | _ => obj_set updates k x
  end.

Definition updateWorkflowState (workflowName runId : string) (opts : WorkflowStateOpts)
  : M value :=
  let id := snapshot_id workflowName runId in
  doc <- doc_get TABLE_WORKFLOW_SNAPSHOT id ;;
  match doc with
  | None => ret VUndef
  | Some _ =>
      d <- now ;;
      let updates := [("status", VStr (wo_status opts)); ("updatedAt", d)] in
      let updates := set_if_defined updates "result" (wo_result opts) in
      let updates := set_if_defined updates "error" (wo_error opts) in
      let updates := set_if_defined updates "suspendedPaths" (wo_suspendedPaths opts) in
      let updates := set_if_defined updates "waitingPaths" (wo_waitingPaths opts) in
      doc_update TABLE_WORKFLOW_SNAPSHOT id updates ;;
      updatedDoc <- doc_get TABLE_WORKFLOW_SNAPSHOT id ;;
      s <- liftR (deserializeWorkflowRunState updatedDoc) ;;
      ret (VObj s)
  end.

Definition loadWorkflowSnapshot (workflowName runId : string) : M value :=
  doc <- doc_get TABLE_WORKFLOW_SNAPSHOT (snapshot_id workflowName runId) ;;
  match doc with
  | None => ret VNull
  | Some data => s <- liftR (deserializeWorkflowRunState (Some data)) ;; ret (VObj s)
  end.

Definition persistWorkflowSnapshot (workflowName runId : string)
    (resourceId : option string) (snapshot : obj) : M unit :=
  d <- now ;;
  doc_set_merge TABLE_WORKFLOW_SNAPSHOT (snapshot_id workflowName runId)
    (obj_set
       (obj_spread [("workflowName", VStr workflowName);
                    ("resourceId", opt_str resourceId)] snapshot)
       "updatedAt" d).

(** [deserializeWorkflowRunState(data.snapshot)] reads its fields off any
    value that is not falsy; only an object has them. *)
Definition deserializeWorkflowRun (data : option obj) : result obj :=
  match data with
  | None => Throw (Error "Workflow run data is undefined")
  | Some data =>
      let snapshot := obj_get data "snapshot" in
      match deserializeWorkflowRunState
              (if truthy snapshot then Some (as_obj snapshot) else None) with
      | Throw e => Throw e
      | Ok state =>
          Ok [("runId", obj_get data "runId");
              ("workflowName", obj_get data "workflowName");
              ("resourceId", obj_get data "resourceId");
              ("snapshot", VObj state);
              ("createdAt", coerceDate (obj_get data "createdAt"));
              ("updatedAt", coerceDate (obj_get data "updatedAt"))]
      end
  end.

Record WorkflowRunsArgs := mkRunsArgs {
  wr_workflowName : option string;
  wr_fromDate : value;
  wr_toDate : value;
  wr_limit : option Z;
  wr_offset : option Z;
  wr_resourceId : option string
}.

Record WorkflowRuns := mkWorkflowRuns {
  runs : list obj;
  runs_total : Z
}.

Definition runs_query (args : WorkflowRunsArgs) : Query :=
  let query := collection TABLE_WORKFLOW_SNAPSHOT in
  let query := if truthy (opt_str (wr_workflowName args))
               then fs_where query "workflowName" OpEq (opt_str (wr_workflowName args))
               else query in
  let query := if truthy (opt_str (wr_resourceId args))
               then fs_where query "resourceId" OpEq (opt_str (wr_resourceId args))
               else query in
  let query := if truthy (wr_fromDate args)
               then fs_where query "createdAt" OpGe (wr_fromDate args) else query in
  let query := if truthy (wr_toDate args)
               then fs_where query "createdAt" OpLe (wr_toDate args) else query in
  fs_orderBy query "createdAt" Desc.

Definition getWorkflowRuns (args : WorkflowRunsArgs) : M WorkflowRuns :=
  let limit := or_default (wr_limit args) 50 in
  let offset := or_default (wr_offset args) 0 in
  let query := runs_query args in
  total <- query_count query ;;
  snapshot <- query_get (fs_limit (fs_offset query (Some offset)) (Some limit)) ;;
  runs <- liftR (mapR (fun doc => deserializeWorkflowRun (Some (snd doc))) snapshot) ;;
  ret {| runs := runs; runs_total := total |}.

Definition getWorkflowRunById (runId : string) (workflowName : option string) : M value :=
  if truthy (opt_str workflowName) then
    doc <- doc_get TABLE_WORKFLOW_SNAPSHOT
             (snapshot_id (or_default workflowName "") runId) ;;
    match doc with
    | None => ret VNull
    | Some data => r <- liftR (deserializeWorkflowRun (Some data)) ;; ret (VObj r)
    end
  else
    let query :=
      fs_limit (fs_where (collection TABLE_WORKFLOW_SNAPSHOT) "runId" OpEq (VStr runId))
        (Some 1) in
    snapshot <- query_get query ;;
    match snapshot with
    | [] => ret VNull
    | (_, data) :: _ => r <- liftR (deserializeWorkflowRun (Some data)) ;; ret (VObj r)
    end.

End workflows.
End WorkflowsFirestore.

(** ** domains/observability: [ObservabilityFirestore] *)
Module ObservabilityFirestore.
Section observability.
Context `{JSBuiltins} `{Tables}.

Record AITracesFilters := mkFilters {
  f_name : option string;
  f_spanType : option string;
  f_entityId : option string;
  f_entityType : option string
}.

Definition no_filters : AITracesFilters :=
  {| f_name := None; f_spanType := None; f_entityId := None; f_entityType := None |}.

Record AITracesPaginatedArg := mkAITracesArg {
  a_filters : option AITracesFilters;
  a_pagination : option StoragePagination
}.

Definition createAISpan (span : obj) : M unit :=
  d <- now ;;
  StoreOperationsFirestore.insert TABLE_AI_SPANS
    (obj_set span "createdAt" (js_or (obj_get span "createdAt") d)).

Definition updateAISpan (spanId traceId : string) (updates : obj) : M unit :=
  existingSpan <- StoreOperationsFirestore.load TABLE_AI_SPANS
                    [("spanId", VStr spanId); ("traceId", VStr traceId)] ;;
  if negb (truthy existingSpan) then
    throw (Error ("Span " +:+ spanId +:+ " in trace " +:+ traceId +:+ " not found"))
  else
    d <- now ;;
    let updatedSpan :=
      obj_set
        (obj_set
           (obj_set (obj_spread (as_obj existingSpan) updates) "spanId" (VStr spanId))
           "traceId" (VStr traceId))
        "updatedAt" d in
    StoreOperationsFirestore.insert TABLE_AI_SPANS updatedSpan.

Definition getAITrace (traceId : string) : M value :=
  StoreOperationsFirestore.load TABLE_TRACES [("traceId", VStr traceId)].

(** [if (x !== undefined) keys.k = x]. *)
Definition key_if_defined (keys : obj) (k : string) (x : option string) : obj :=
  match x with
  | Some s => obj_set keys k (VStr s)
  | None => keys
  end.

Definition span_keys (filters : AITracesFilters) : obj :=
  let keys := [] in
  let keys := key_if_defined keys "name" (f_name filters) in
  let keys := key_if_defined keys "spanType" (f_spanType filters) in
  let keys := key_if_defined keys "entityId" (f_entityId filters) in
  let keys := key_if_defined keys "entityType" (f_entityType filters) in
  keys.

(** [xs.slice(start, end)] with the relative and clamped indices of
    [Array.prototype.slice]. *)
Definition array_slice {A : Type} (start stop : Z) (xs : list A) : list A :=
  let len := Z.of_nat (length xs) in
  let norm i := if i <? 0 then Z.max (len + i) 0 else Z.min i len in
  slice (Z.to_nat (norm start)) (Z.to_nat (norm stop)) xs.

(** [spans.length] and [spans.slice(...)] on what [load] gave back: an array
    has both, a decoded record has no [slice] to call. *)
Definition getAITracesPaginated (args : AITracesPaginatedArg) : M Page :=
  let pagination := or_default (a_pagination args) no_pagination in
  let page := or_default (sp_page pagination) 1 in
  let perPage := or_default (sp_perPage pagination) 20 in
  let filters := or_default (a_filters args) no_filters in
  let keys := span_keys filters in
  allSpans <- StoreOperationsFirestore.load TABLE_AI_SPANS keys ;;
  let spans := js_or allSpans (VArr []) in
  let offset := (page - 1) * perPage in
  match spans with
  | VArr xs =>
      let totalCount := Z.of_nat (length xs) in
      let paginatedSpans := array_slice offset (offset + perPage) xs in
      ret {| items := map as_obj paginatedSpans;
             page := Some page; perPage := Some perPage;
             total := totalCount;
             hasMore := (offset + perPage <? totalCount) |}
  | _ => throw (TypeError "spans.slice is not a function")
  end.

Definition batchCreateAISpans (records : list obj) : M unit :=
  d <- now ;;
  StoreOperationsFirestore.batchInsert TABLE_AI_SPANS
    (map (fun span => obj_set span "createdAt" (js_or (obj_get span "createdAt") d))
       records).

Record SpanUpdate := mkSpanUpdate {
  su_traceId : string;
  su_spanId : string;
  su_updates : obj
}.

Definition batchUpdateAISpans (records : list SpanUpdate) : M unit :=
  forM_ records
    (fun r => updateAISpan (su_spanId r) (su_traceId r) (su_updates r)).

End observability.
End ObservabilityFirestore.

(** ** firestore.store: [FirestoreStore] *)
Module FirestoreStore.

Record Supports := mkSupports {
  selectByIncludeResourceScope : bool;
  resourceWorkingMemory : bool;
  hasColumn : bool;
  createTable : bool;
  deleteMessages : bool;
  aiTracing : bool;
  getScoresBySpan : bool
}.

Definition supports : Supports :=
  {| selectByIncludeResourceScope := true;
     resourceWorkingMemory := true;
     hasColumn := true;
     createTable := true;
     deleteMessages := true;
     aiTracing := true;
     getScoresBySpan := true |}.

End FirestoreStore.

(** Running an operation on a world. *)
Definition run {A : Type} (m : M A) (w : World) : result A * World := m w.

Definition world_of (db : Db) : World :=
  {| w_db := db; w_log := []; w_now := 0; w_ids := 0 |}.

Definition commits (l : list Event) : list (list Write) :=
  omap (fun ev => match ev with EvCommit ws => Some ws | _ => None end) l.

Definition queries (l : list Event) : list Query :=
  omap (fun ev => match ev with EvQuery q => Some q | _ => None end) l.

(** ** Notions the properties are stated with *)

(** The query behind [load] when [updateAISpan] looks a span up, and when
    [getAITracesPaginated] fetches by its filters. *)
Definition span_query `{Tables} (spanId traceId : string) : Query :=
  StoreOperationsFirestore.load_query TABLE_AI_SPANS
    [("spanId", VStr spanId); ("traceId", VStr traceId)].

Definition spans_query `{Tables} (args : ObservabilityFirestore.AITracesPaginatedArg)
  : Query :=
  StoreOperationsFirestore.load_query TABLE_AI_SPANS
    (ObservabilityFirestore.span_keys
       (or_default (ObservabilityFirestore.a_filters args)
          ObservabilityFirestore.no_filters)).

(** A paginated read, as one expression: the count and the window of the
    ordered matches, decoded. *)
Definition paged (db : Db) (q : Query) (p pp : Z) (decode : string * obj -> result obj)
  : result Page :=
  if negb (forallb filter_ok (q_where q)) then
    Throw (Error "Value for argument value is not a valid query constraint.")
  else if ((p - 1) * pp <? 0) || (pp <? 0) then Throw (FirestoreError "INVALID_ARGUMENT")
  else
    match mapR decode (window ((p - 1) * pp) (Some pp) (ordered db q)) with
    | Ok xs => Ok {| items := xs; page := Some p; perPage := Some pp;
                     total := Z.of_nat (length (matching db q));
                     hasMore := ((p - 1) * pp + pp <? Z.of_nat (length (matching db q))) |}
    | Throw e => Throw e
    end.

(** The page [r] answers a request for page [p] of size [pp] over [n]
    matching records. *)
Definition page_within (r : Page) (p pp : Z) (n : nat) : Prop :=
  page r = Some p /\ perPage r = Some pp /\ total r = Z.of_nat n /\
  Z.of_nat (length (items r)) <= pp /\
  (hasMore r = true <-> total r > (p - 1) * pp + pp).

(** The items of [r] are the window of a list [sorted] that holds the
    matches of [q] in the order [dir] of [field]. *)
Definition page_of_sorted (db : Db) (q : Query) (field : string) (dir : Direction)
    (p pp : Z) (decode : string * obj -> result obj) (r : Page) : Prop :=
  exists sorted : Collection,
    sorted ≡ₚ matching db q /\
    StronglySorted (doc_le field dir) sorted /\
    mapR decode (window ((p - 1) * pp) (Some pp) sorted) = Ok (items r).

(** The outcome [res] of a request for page [p] of size [pp]: a page that is
    returned is within bounds, and one is returned for [p >= 1] and
    [pp >= 0] once [ready] holds. *)
Definition answers_page (res : result Page) (p pp : Z) (n : nat) (ready : Prop) : Prop :=
  (forall r, res = Ok r -> page_within r p pp n) /\
  (ready -> 1 <= p -> 0 <= pp -> exists r, res = Ok r).

(** A list of records in descending order of a field. *)
Definition descending_by (field : string) (l : list obj) : Prop :=
  StronglySorted (fun a b => value_leb (obj_get b field) (obj_get a field) = true) l.

(** The sizes of the slices of a list of length [len]. *)
Fixpoint sizes_from (fuel size i len : nat) : list nat :=
  match fuel with
  | O => []
  | S fuel' =>
      if (i <? len)%nat
      then Nat.min size (len - i) :: sizes_from fuel' size (i + size)%nat len
      else []
  end.

(** The query [getMessagesById] issues for one group of ids, and what
    [deserializeMessage] makes of a stored message. *)
Definition in_query `{Tables} (ids : list string) : Query :=
  fs_where (collection TABLE_MESSAGES) "id" OpIn (VArr (map VStr ids)).

Definition decodeMessage `{JSBuiltins} (d : obj) : obj :=
  obj_set d "createdAt" (coerceDate (obj_get d "createdAt")).

(** The decoded matches of one group of ids. *)
Definition found `{JSBuiltins} `{Tables} (db : Db) (ids : list string) : list obj :=
  map (fun doc => decodeMessage (snd doc)) (matching db (in_query ids)).

(** The messages of a thread, as [deleteThread] asks for them. *)
Definition thread_messages_query `{Tables} (threadId : string) : Query :=
  fs_where (collection TABLE_MESSAGES) "threadId" OpEq (VStr threadId).

(** The world after a sequence of logged round trips. *)
Definition logged_all (evs : list Event) (w : World) : World :=
  fold_left (fun w ev => logged ev w) evs w.

(** The number of writes of each batch committed so far. *)
Definition write_counts (l : list Event) : list nat := map length (commits l).

(** The stored form of the date with time value [ms]. *)
Definition timestamp_of (ms : Z) : value :=
  VTimestamp (ms / 1000) ((ms mod 1000) * 1000000).

(** What [serializeRecord] assigns for one field value. *)
Definition serializeValue `{JSBuiltins} (v : value) : value :=
  if instanceof_Date v then v
  else if nullish v then VNull
  else if typeof_object v then json_roundtrip v
  else v.

(** What [deserializeRecord] assigns for one field value. *)
Definition deserializeValue `{JSBuiltins} (v : value) : value :=
  if truthy v && typeof_object v && has_prop v "_seconds"
  then VDate (num_mul (toNumber (prop v "_seconds")) (Some 1000))
  else v.

(** The id under which [saveMessages] writes a message, and the data it
    writes for it at date [d]. *)
Definition message_id (m : obj) : string :=
  match obj_get m "id" with VStr s => s | _ => "" end.

Definition message_data (d : value) (m : obj) : obj :=
  MemoryFirestore.serializeMessage
    (obj_set m "createdAt" (js_or (obj_get m "createdAt") d)).

(** Values that JSON carries as they are: null, booleans, numbers, strings,
    and arrays and objects of such values. *)
Fixpoint plain (v : value) : bool :=
  match v with
  | VNull | VBool _ | VNum _ | VStr _ => true
  | VArr xs => forallb plain xs
  | VObj fs => forallb (fun kv => let '(_, x) := kv in plain x) fs
  | _ => false
  end.

(** The field values the codec is specified for: a string, a number, a
    valid date, null, or a nested plain object without a [_seconds] key. *)
Definition supported (v : value) : bool :=
  match v with
  | VStr _ | VNum _ | VNull => true
  | VDate (Some _) => true
  | VObj fs => plain (VObj fs) && negb (obj_has fs "_seconds")
  | _ => false
  end.

(** A date cut down to whole seconds. *)
Definition truncate_to_seconds (v : value) : value :=
  match v with
  | VDate (Some ms) => VDate (Some (ms / 1000 * 1000))
  | _ => v
  end.

(** A value as the store holds it, with the keys of each map distinct: no
    undefined and no date inside. *)
Fixpoint wf_stored (v : value) : bool :=
  match v with
  | VUndef | VDate _ => false
  | VArr xs => forallb wf_stored xs
  | VObj fs =>
      forallb (fun kv => let '(_, x) := kv in wf_stored x) fs
      && bool_decide (NoDup (map fst fs))
  | _ => true
  end.

(** The sizes of the batches that empty a collection of [n] documents,
    [b] at a time. *)
Definition round_sizes (b n : nat) : list nat :=
  (repeat b (n / b) ++ (if (n mod b =? 0)%nat then [] else [n mod b]%nat))%list.

(** The columns [alterTable] adds: those that neither the stored schema nor
    any object has, and that the new schema brings. *)
Definition column_added `{JSObjects} (existing schema : obj) (c : string) : bool :=
  negb (obj_has existing c || Object_prototype_has c) && obj_has schema c.

Definition add_column `{JSObjects} (existing schema : obj) (updated : obj) (c : string)
  : obj :=
  if column_added existing schema c then obj_set updated c (obj_get schema c) else updated.

(** The documents left after deleting a list of ids. *)
Definition remove_all (ids : list string) (c : Collection) : Collection :=
  fold_left coll_remove ids c.

(** A field value the store gives back as it was written: undefined (the
    field is then absent) or a value without dates. *)
Definition kept (v : value) : bool :=
  match v with VUndef => true | _ => wf_stored v end.

(** A field after an update with [v]: the stored form of [v], or [old]
    when [v] is undefined. *)
Definition stored_or (old v : value) : value :=
  match v with VUndef => old | _ => toFirestore v end.

(** The id under which [insert] and [batchInsert] write a record that
    carries one. *)
Definition record_id (record : obj) : string :=
  match explicit_id record with Some id => id | None => "" end.

(** What [persistWorkflowSnapshot] writes. *)
Definition persisted (workflowName : string) (resourceId : option string)
    (snapshot : obj) (d : value) : obj :=
  obj_set
    (obj_spread [("workflowName", VStr workflowName); ("resourceId", opt_str resourceId)]
       snapshot)
    "updatedAt" d.

(** What [updateAISpan] hands to [insert]. *)
Definition updated_span (existing updates : obj) (spanId traceId : string) (d : value)
  : obj :=
  obj_set
    (obj_set (obj_set (obj_spread existing updates) "spanId" (VStr spanId))
       "traceId" (VStr traceId))
    "updatedAt" d.

(** A record fit for the bulk round trip: it carries an id, its keys are
    distinct and its fields are of the supported kinds. *)
Definition bulk_ready (r : obj) : Prop :=
  explicit_id r <> None /\ NoDup (keys r) /\
  forallb (fun kv => supported (snd kv)) r = true.

(** A message fit for the round trip: it carries an id, its keys are
    distinct, [createdAt] is a valid date or missing, and the other fields
    hold no dates. *)
Definition message_ready (m : obj) : Prop :=
  (exists id, obj_get m "id" = VStr id) /\ NoDup (keys m) /\
  (truthy (obj_get m "createdAt") = true ->
   exists ms, obj_get m "createdAt" = VDate (Some ms)) /\
  Forall (fun kv => fst kv = "createdAt" \/ wf_stored (snd kv) = true) m.

(** A value that holds no undefined, at any depth. *)
Fixpoint defined (v : value) : bool :=
  match v with
  | VUndef => false
  | VArr xs => forallb defined xs
  | VObj fs => forallb (fun kv => let '(_, x) := kv in defined x) fs
  | _ => true
  end.

(** The data a write carries. *)
Definition write_data (w : Write) : obj :=
  match w with
  | WSet _ _ data | WSetMerge _ _ data | WUpdate _ _ data => data
  | WDelete _ _ => []
  end.

(** A round trip that a client left at its defaults and the backend accept:
    a write whose data holds no undefined, a batch of at most 500 such
    writes; reads are always accepted. *)
Definition accepted (ev : Event) : bool :=
  match ev with
  | EvWrite w => defined (VObj (write_data w))
  | EvCommit ws =>
      (length ws <=? 500)%nat && forallb (fun w => defined (VObj (write_data w))) ws
  | _ => true
  end.

(** A log of accepted round trips.  An operation that adds only accepted
    round trips leaves this as it was: [all_accepted (w_log w')] is then
    [all_accepted (w_log w)]. *)
Definition all_accepted (l : list Event) : bool := forallb accepted l.

(** ** Example data *)

(** A thread document created at second [t]. *)
Definition thread_doc (id : string) (t : Z) : string * obj :=
  (id, [("id", VStr id); ("resourceId", VStr "r1"); ("title", VStr "chat");
        ("metadata", VObj []); ("createdAt", VTimestamp t 0);
        ("updatedAt", VTimestamp t 0)]).

Definition message_doc (threadId : string) (n : nat) : string * obj :=
  ("m" +:+ pretty n,
   [("id", VStr ("m" +:+ pretty n)); ("threadId", VStr threadId);
    ("createdAt", VTimestamp (Z.of_nat n) 0)]).

Definition span_doc (id : string) : string * obj :=
  (id, [("spanId", VStr id); ("traceId", VStr "t1"); ("name", VStr "llm")]).

Definition db_threads : Db :=
  db_put empty_db (@TABLE_THREADS example_tables)
    [thread_doc "a" 1; thread_doc "b" 3; thread_doc "c" 2].

(** Two threads of resource [r1], the second stored without [createdAt]. *)
Definition db_threads_undated : Db :=
  db_put empty_db (@TABLE_THREADS example_tables)
    [thread_doc "a" 1; ("z", [("id", VStr "z"); ("resourceId", VStr "r1")])].

(** Thread [T1] with [n] messages. *)
Definition db_messages (n : nat) : Db :=
  db_put (db_put empty_db (@TABLE_THREADS example_tables) [thread_doc "T1" 1])
    (@TABLE_MESSAGES example_tables) (map (message_doc "T1") (seq 0 n)).

Definition db_spans : Db :=
  db_put empty_db (@TABLE_AI_SPANS example_tables) [span_doc "s1"].

(** A workflow snapshot whose results hold step [a] with the given entry. *)
Definition db_workflow (entry : value) : Db :=
  db_put empty_db (@TABLE_WORKFLOW_SNAPSHOT example_tables)
    [("wf_r1", [("workflowName", VStr "wf"); ("runId", VStr "r1");
                ("results", VObj [("a", entry)])])].



(** A record of every supported kind of field, and one whose nested object
    has a [_seconds] key. *)
Definition supported_record : obj :=
  [("name", VStr "n"); ("count", VNum 3); ("when", VDate (Some 1500));
   ("gone", VNull); ("meta", VObj [("k", VStr "v"); ("n", VNum 1)])].

Definition seconds_record : obj := [("a", VObj [("_seconds", VNum 5)])].

Definition new_thread : obj :=
  [("id", VStr "t1"); ("resourceId", VStr "r1"); ("title", VStr "chat")].

Definition new_message : obj :=
  [("id", VStr "m1"); ("threadId", VStr "T1"); ("content", VStr "hi")].

Definition ids_25 : list string := map (fun n => "m" +:+ pretty n) (seq 0 25).

(** The metadata of table [t1], with one column. *)
Definition column_text : value := VObj [("type", VStr "text")].
Definition column_integer : value := VObj [("type", VStr "integer")].

Definition db_metadata : Db :=
  db_put empty_db "_metadata"
    [("t1", [("schema", VObj [("a", column_text)]); ("createdAt", VTimestamp 1 0)])].

(** Records that carry their id. *)
Definition record_r1 : obj :=
  [("id", VStr "r1"); ("count", VNum 1); ("when", VDate (Some 1500))].

Definition record_r2 : obj := [("id", VStr "r2"); ("count", VNum 2)].

Definition new_resource : obj := [("id", VStr "r1"); ("workingMemory", VStr "notes")].


(** A score with an output, and a run state. *)
Definition new_score : obj :=
  [("scorerId", VStr "s"); ("entityId", VStr "e"); ("entityType", VStr "AGENT");
   ("source", VStr "LIVE"); ("runId", VStr "r"); ("traceId", VStr "t");
   ("spanId", VStr "sp"); ("score", VNum 1);
   ("output", VObj [("text", VStr "answer")])].

Definition run_state : obj :=
  [("runId", VStr "r1"); ("status", VStr "running"); ("timestamp", VNum 1000)].

(** Two runs of workflow [wf], each with its snapshot field. *)
Definition run_doc (runId : string) (t : Z) : string * obj :=
  ("wf_" +:+ runId,
   [("workflowName", VStr "wf"); ("runId", VStr runId);
    ("snapshot", VObj [("runId", VStr runId); ("status", VStr "success")]);
    ("createdAt", VTimestamp t 0); ("updatedAt", VTimestamp t 0)]).

Definition db_runs : Db :=
  db_put empty_db (@TABLE_WORKFLOW_SNAPSHOT example_tables)
    [run_doc "r1" 1; run_doc "r2" 2].

(** Three traces, by the second of their timestamp. *)
Definition trace_doc (id : string) (t : Z) : string * obj :=
  (id, [("id", VStr id); ("name", VStr "call"); ("timestamp", VTimestamp t 0)]).

Definition db_traces : Db :=
  db_put empty_db (@TABLE_TRACES example_tables)
    [trace_doc "x" 1; trace_doc "y" 3; trace_doc "z" 2].

(** * Properties *)

(** ** Objects and collections *)

Lemma obj_get_set_eq o k v : obj_get (obj_set o k v) k = v.
Proof.
  induction o as [|[k' v'] o IH]; simpl.
  - by rewrite String.eqb_refl.
  - destruct (String.eqb k k') eqn:E; simpl; rewrite ?String.eqb_refl, ?E; done.
Qed.

Lemma obj_get_set_ne o k k' v : k <> k' -> obj_get (obj_set o k v) k' = obj_get o k'.
Proof.
  intros Hne. induction o as [|[k0 v0] o IH]; simpl.
  - destruct (String.eqb k' k) eqn:E; [apply String.eqb_eq in E; congruence | done].
  - destruct (String.eqb k k0) eqn:E; simpl.
    + apply String.eqb_eq in E; subst k0.
      destruct (String.eqb k' k) eqn:E'; [apply String.eqb_eq in E'; congruence | done].
    + destruct (String.eqb k' k0); [done | apply IH].
Qed.

Lemma obj_has_set_eq o k v : obj_has (obj_set o k v) k = true.
Proof.
  induction o as [|[k' v'] o IH]; simpl.
  - by rewrite String.eqb_refl.
  - destruct (String.eqb k k') eqn:E; simpl; rewrite ?String.eqb_refl, ?E; done.
Qed.

Lemma obj_has_set_ne o k k' v : k <> k' -> obj_has (obj_set o k v) k' = obj_has o k'.
Proof.
  intros Hne. induction o as [|[k0 v0] o IH]; simpl.
  - destruct (String.eqb k' k) eqn:E; [apply String.eqb_eq in E; congruence | done].
  - destruct (String.eqb k k0) eqn:E; simpl.
    + apply String.eqb_eq in E; subst k0.
      destruct (String.eqb k' k) eqn:E'; [apply String.eqb_eq in E'; congruence | done].
    + destruct (String.eqb k' k0); [done | apply IH].
Qed.

Lemma obj_has_In o k : obj_has o k = true <-> In k (keys o).
Proof.
  induction o as [|[k' v'] o IH]; simpl; [split; [discriminate | tauto] |].
  destruct (String.eqb k k') eqn:E.
  - apply String.eqb_eq in E. subst. tauto.
  - apply String.eqb_neq in E. rewrite IH. split; [tauto | intros [?|?]; congruence].
Qed.

Lemma obj_get_absent o k : obj_has o k = false -> obj_get o k = VUndef.
Proof.
  induction o as [|[k' v'] o IH]; simpl; [done |].
  destruct (String.eqb k k'); [discriminate | exact IH].
Qed.

Lemma coll_get_put_eq c id d : coll_get (coll_put c id d) id = Some d.
Proof.
  induction c as [|[id' d'] c IH]; simpl.
  - by rewrite String.eqb_refl.
  - destruct (String.eqb id id') eqn:E; simpl; rewrite ?String.eqb_refl, ?E; done.
Qed.

Lemma db_put_same db coll c : db_put db coll c coll = c.
Proof. unfold db_put. by rewrite String.eqb_refl. Qed.

(** ** Steps of the monad *)

Lemma bind_run {A B : Type} (m : M A) (k : A -> M B) w :
  bind m k w =
  match m w with
  | (Ok a, w') => k a w'
  | (Throw e, w') => (Throw e, w')
  end.
Proof. reflexivity. Qed.

Lemma doc_get_run coll id w :
  doc_get coll id w = (Ok (coll_get (w_db w coll) id), logged (EvGet coll id) w).
Proof. reflexivity. Qed.

Lemma query_get_run q w :
  query_get q w = (run_query (w_db w) q, logged (EvQuery q) w).
Proof. reflexivity. Qed.

Lemma query_count_run q w :
  query_count q w = (run_count (w_db w) q, logged (EvCount q) w).
Proof. reflexivity. Qed.

Lemma write_run wr w :
  write wr w =
  match apply_write (w_db w) wr with
  | Ok db => (Ok tt, with_db db (logged (EvWrite wr) w))
  | Throw e => (Throw e, logged (EvWrite wr) w)
  end.
Proof.
  unfold write, bind, log, lift, set_db. simpl.
  destruct (apply_write _ _); reflexivity.
Qed.

Lemma commit_run ws w :
  commit ws w =
  match apply_writes (w_db w) ws with
  | Ok db => (Ok tt, with_db db (logged (EvCommit ws) w))
  | Throw e => (Throw e, logged (EvCommit ws) w)
  end.
Proof.
  unfold commit, bind, log, lift, set_db. simpl.
  destruct (apply_writes _ _); reflexivity.
Qed.

(** ** Queries *)

Lemma forallb_filter_ok_eq (keys : obj) :
  forallb (fun kv => filter_ok (fst kv, OpEq, snd kv)) keys = true ->
  forallb filter_ok (map (fun kv => (fst kv, OpEq, snd kv)) keys) = true.
Proof.
  induction keys as [|kv keys IH]; [done |].
  simpl. intros Hok. apply andb_true_iff in Hok as [-> Hok]. by apply IH.
Qed.

Lemma run_query_limit db q off lim :
  q_offset q = Some off -> forallb filter_ok (q_where q) = true ->
  run_query db (fs_limit q (Some lim)) =
  if (off <? 0) || (lim <? 0) then Throw (FirestoreError "INVALID_ARGUMENT")
  else Ok (window off (Some lim) (ordered db q)).
Proof.
  intros Ho Hf. unfold run_query. cbn [fs_limit q_where q_offset q_limit].
  rewrite Hf, Ho. reflexivity.
Qed.

Section load_facts.
Context `{JSBuiltins}.

Lemma load_query_fields tableName keys :
  let q := StoreOperationsFirestore.load_query tableName keys in
  q_coll q = tableName /\ q_order q = None /\ q_offset q = Some 0 /\
  q_limit q = None /\ q_where q = map (fun kv => (fst kv, OpEq, snd kv)) keys.
Proof.
  unfold StoreOperationsFirestore.load_query.
  assert (G : forall q0,
    let q := fold_left (fun q kv => fs_where q (fst kv) OpEq (snd kv)) keys q0 in
    q_coll q = q_coll q0 /\ q_order q = q_order q0 /\ q_offset q = q_offset q0 /\
    q_limit q = q_limit q0 /\
    q_where q = (q_where q0 ++ map (fun kv => (fst kv, OpEq, snd kv)) keys)%list).
  { induction keys as [|kv keys IH]; intros q0; simpl.
    - by rewrite app_nil_r.
    - destruct (IH (fs_where q0 (fst kv) OpEq (snd kv))) as (a & b & c & d & e).
      repeat split; try assumption. rewrite e. simpl. by rewrite <- app_assoc. }
  apply (G (collection tableName)).
Qed.

(** Without an [id] key, [load] is one query limited to one document: the
    result is [null] or the first match, decoded. *)
Lemma load_by_query w tableName keys :
  truthy (obj_get keys "id") = false ->
  forallb (fun kv => filter_ok (fst kv, OpEq, snd kv)) keys = true ->
  StoreOperationsFirestore.load tableName keys w =
  (Ok (match matching (w_db w) (StoreOperationsFirestore.load_query tableName keys) with
       | [] => VNull
       | (_, data) :: _ => VObj (StoreOperationsFirestore.deserializeRecord (Some data))
       end),
   logged
     (EvQuery (fs_limit (StoreOperationsFirestore.load_query tableName keys) (Some 1))) w).
Proof.
  intros Hid Hok. unfold StoreOperationsFirestore.load. rewrite Hid.
  destruct (load_query_fields tableName keys) as (Hc & Hord & Hoff & Hlim & Hwh).
  rewrite bind_run, query_get_run.
  rewrite (run_query_limit _ _ 0 1 Hoff).
  2:{ rewrite Hwh. by apply forallb_filter_ok_eq. }
  cbn [Z.ltb Z.compare orb]. unfold ordered. rewrite Hord. unfold window.
  change (Z.to_nat 0) with 0%nat. change (Z.to_nat 1) with 1%nat. rewrite drop_0.
  destruct (matching _ _) as [|[id d] l]; reflexivity.
Qed.

End load_facts.

Section not_found.
Context `{JSBuiltins} `{Tables}.

Lemma updateThread_missing w id title metadata :
  coll_get (w_db w TABLE_THREADS) id = None ->
  run (MemoryFirestore.updateThread id title metadata) w
  = (Throw (Error ("Thread " +:+ id +:+ " not found")),
     logged (EvGet TABLE_THREADS id) w).
Proof.
  intros Hn. unfold run, MemoryFirestore.updateThread.
  rewrite bind_run, doc_get_run, Hn. reflexivity.
Qed.

Lemma updateResource_missing w id workingMemory metadata :
  coll_get (w_db w TABLE_RESOURCES) id = None ->
  run (MemoryFirestore.updateResource id workingMemory metadata) w
  = (Throw (Error ("Resource " +:+ id +:+ " not found")),
     logged (EvGet TABLE_RESOURCES id) w).
Proof.
  intros Hn. unfold run, MemoryFirestore.updateResource.
  rewrite bind_run, doc_get_run, Hn. reflexivity.
Qed.

Lemma updateAISpan_missing w spanId traceId updates :
  matching (w_db w) (span_query spanId traceId) = [] ->
  run (ObservabilityFirestore.updateAISpan spanId traceId updates) w
  = (Throw (Error ("Span " +:+ spanId +:+ " in trace " +:+ traceId +:+ " not found")),
     logged (EvQuery (fs_limit (span_query spanId traceId) (Some 1))) w).
Proof.
  intros Hn. unfold run, ObservabilityFirestore.updateAISpan.
  rewrite bind_run, load_by_query by reflexivity.
  fold (span_query spanId traceId). rewrite Hn. reflexivity.
Qed.

Lemma updateWorkflowState_missing w workflowName runId opts :
  coll_get (w_db w TABLE_WORKFLOW_SNAPSHOT)
    (WorkflowsFirestore.snapshot_id workflowName runId) = None ->
  run (WorkflowsFirestore.updateWorkflowState workflowName runId opts) w
  = (Ok VUndef,
     logged (EvGet TABLE_WORKFLOW_SNAPSHOT
               (WorkflowsFirestore.snapshot_id workflowName runId)) w).
Proof.
  intros Hn. unfold run, WorkflowsFirestore.updateWorkflowState.
  rewrite bind_run, doc_get_run, Hn. reflexivity.
Qed.

(** What it is for a span to match the lookup of [updateAISpan]. *)
Lemma value_eqb_str x s : value_eqb x (VStr s) = true <-> x = VStr s.
Proof.
  destruct x; simpl; try (split; [discriminate | congruence]).
  - rewrite String.eqb_eq. split; congruence.
  - destruct t; split; try discriminate; congruence.
Qed.

Lemma span_query_matches spanId traceId d :
  matches (span_query spanId traceId) d = true <->
  obj_get d "spanId" = VStr spanId /\ obj_get d "traceId" = VStr traceId.
Proof.
  unfold matches, span_query. simpl. rewrite !andb_true_r.
  rewrite !andb_true_iff, !value_eqb_str.
  split; [tauto |]. intros [H1 H2].
  assert (Hhas : forall k s, obj_get d k = VStr s -> obj_has d k = true).
  { intros k s E. destruct (obj_has d k) eqn:Eh; [done |].
    rewrite (obj_get_absent _ _ Eh) in E. discriminate. }
  rewrite (Hhas _ _ H1), (Hhas _ _ H2). tauto.
Qed.

(** C4 (as amended). When the target record does not exist, [updateThread],
    [updateResource] and [updateAISpan] throw an error whose message names
    the missing id and write nothing; [updateWorkflowState] returns
    [undefined] and writes nothing. *)
Theorem update_of_a_missing_record :
  (forall w id title metadata,
     coll_get (w_db w TABLE_THREADS) id = None ->
     run (MemoryFirestore.updateThread id title metadata) w
     = (Throw (Error ("Thread " +:+ id +:+ " not found")),
        logged (EvGet TABLE_THREADS id) w)) /\
  (forall w id workingMemory metadata,
     coll_get (w_db w TABLE_RESOURCES) id = None ->
     run (MemoryFirestore.updateResource id workingMemory metadata) w
     = (Throw (Error ("Resource " +:+ id +:+ " not found")),
        logged (EvGet TABLE_RESOURCES id) w)) /\
  (forall w spanId traceId updates,
     (forall id d, In (id, d) (w_db w TABLE_AI_SPANS) ->
                   ~ (obj_get d "spanId" = VStr spanId /\
                      obj_get d "traceId" = VStr traceId)) ->
     run (ObservabilityFirestore.updateAISpan spanId traceId updates) w
     = (Throw (Error ("Span " +:+ spanId +:+ " in trace " +:+ traceId +:+ " not found")),
        logged (EvQuery (fs_limit (span_query spanId traceId) (Some 1))) w)) /\
  (forall w workflowName runId opts,
     coll_get (w_db w TABLE_WORKFLOW_SNAPSHOT)
       (WorkflowsFirestore.snapshot_id workflowName runId) = None ->
     run (WorkflowsFirestore.updateWorkflowState workflowName runId opts) w
     = (Ok VUndef,
        logged (EvGet TABLE_WORKFLOW_SNAPSHOT
                  (WorkflowsFirestore.snapshot_id workflowName runId)) w)).
Proof.
  split; [exact updateThread_missing |].
  split; [exact updateResource_missing |].
  split; [| exact updateWorkflowState_missing].
  intros w spanId traceId updates Hnone. apply updateAISpan_missing.
  unfold matching.
  assert (Hc : q_coll (span_query spanId traceId) = TABLE_AI_SPANS) by reflexivity.
  rewrite Hc. clear Hc.
  induction (w_db w TABLE_AI_SPANS) as [|[id d] c IH]; [done |].
  simpl. destruct (matches (span_query spanId traceId) d) eqn:Em.
  - apply span_query_matches in Em. exfalso. apply (Hnone id d); [by left | exact Em].
  - apply IH. intros id' d' Hin. apply (Hnone id' d'). by right.
Qed.

End not_found.

(** C10. The store advertises [supports.hasColumn = true], and [hasColumn]
    throws "Method not implemented." for every table and column, leaving
    the world as it was. *)
Theorem hasColumn_advertised_not_implemented :
  FirestoreStore.hasColumn FirestoreStore.supports = true /\
  forall (table column : string) (w : World),
    run (StoreOperationsFirestore.hasColumn table column) w
    = (Throw (Error "Method not implemented."), w).
Proof. split; [reflexivity | intros; reflexivity]. Qed.

Section ai_traces.
Context `{JSBuiltins} `{Tables}.

Lemma span_keys_no_id f :
  truthy (obj_get (ObservabilityFirestore.span_keys f) "id") = false.
Proof. destruct f as [[?|] [?|] [?|] [?|]]; reflexivity. Qed.

Lemma span_keys_ok f :
  forallb (fun kv => filter_ok (fst kv, OpEq, snd kv))
    (ObservabilityFirestore.span_keys f) = true.
Proof. destruct f as [[?|] [?|] [?|] [?|]]; reflexivity. Qed.

Lemma array_slice_nil {A : Type} a b :
  @ObservabilityFirestore.array_slice A a b [] = [].
Proof. unfold ObservabilityFirestore.array_slice, slice. by rewrite drop_nil, take_nil. Qed.

Lemma getAITracesPaginated_run args w :
  let q := spans_query args in
  let pagination := or_default (ObservabilityFirestore.a_pagination args) no_pagination in
  let p := or_default (sp_page pagination) 1 in
  let pp := or_default (sp_perPage pagination) 20 in
  run (ObservabilityFirestore.getAITracesPaginated args) w =
  match matching (w_db w) q with
  | [] => (Ok {| items := []; page := Some p; perPage := Some pp; total := 0;
                 hasMore := ((p - 1) * pp + pp <? 0) |},
           logged (EvQuery (fs_limit q (Some 1))) w)
  | _ :: _ => (Throw (TypeError "spans.slice is not a function"),
               logged (EvQuery (fs_limit q (Some 1))) w)
  end.
Proof.
  intros q pagination p pp.
  unfold run, ObservabilityFirestore.getAITracesPaginated.
  rewrite bind_run, load_by_query by (apply span_keys_no_id || apply span_keys_ok).
  fold (spans_query args). fold q.
  destruct (matching (w_db w) q) as [|[id d] l]; simpl.
  - rewrite array_slice_nil. reflexivity.
  - reflexivity.
Qed.

(** C9. [getAITracesPaginated] never returns a span.  Its fetch is [load],
    one query limited to one document that yields [null] or a single
    record.  When no span matches the filters the result is the empty page
    with total 0; when some span matches, calling [slice] on the record
    throws.  So every page that is returned is empty with total 0. *)
Theorem getAITracesPaginated_never_returns_a_span args w :
  let q := spans_query args in
  let pagination := or_default (ObservabilityFirestore.a_pagination args) no_pagination in
  let p := or_default (sp_page pagination) 1 in
  let pp := or_default (sp_perPage pagination) 20 in
  (q_limit (fs_limit q (Some 1)) = Some (Some 1) /\
   queries (w_log (snd (run (ObservabilityFirestore.getAITracesPaginated args) w)))
   = (queries (w_log w) ++ [fs_limit q (Some 1)])%list) /\
  (matching (w_db w) q = [] ->
   fst (run (ObservabilityFirestore.getAITracesPaginated args) w)
   = Ok {| items := []; page := Some p; perPage := Some pp; total := 0;
           hasMore := ((p - 1) * pp + pp <? 0) |}) /\
  (matching (w_db w) q <> [] ->
   fst (run (ObservabilityFirestore.getAITracesPaginated args) w)
   = Throw (TypeError "spans.slice is not a function")) /\
  (forall r, fst (run (ObservabilityFirestore.getAITracesPaginated args) w) = Ok r ->
             items r = [] /\ total r = 0).
Proof.
  intros q pagination p pp.
  pose proof (getAITracesPaginated_run args w) as E. cbv zeta in E.
  fold q pagination p pp in E. rewrite E. split; [| split; [| split]].
  - split; [reflexivity |].
    destruct (matching (w_db w) q); simpl; unfold queries;
      rewrite omap_app; reflexivity.
  - intros ->. reflexivity.
  - intros Hne. destruct (matching (w_db w) q); [done | reflexivity].
  - intros r Hr. destruct (matching (w_db w) q); simpl in Hr;
      [injection Hr as <-; split; reflexivity | discriminate].
Qed.

End ai_traces.

(** ** Ordering *)

Lemma lex_leb_total a b : lex_leb a b = true \/ lex_leb b a = true.
Proof.
  revert b. induction a as [|x a IH]; intros [|y b]; simpl; auto.
  destruct (IH b) as [E|E]; rewrite E;
    destruct (Z.ltb_spec x y), (Z.ltb_spec y x), (Z.eqb_spec x y), (Z.eqb_spec y x);
    simpl; auto; lia.
Qed.

Lemma lex_leb_trans a b c :
  lex_leb a b = true -> lex_leb b c = true -> lex_leb a c = true.
Proof.
  revert b c.
  induction a as [|x a IH]; intros [|y b] [|z c]; simpl; auto; try discriminate.
  intros H1 H2.
  apply orb_true_iff in H1 as [H1|H1]; apply orb_true_iff in H2 as [H2|H2];
    apply orb_true_iff.
  - left. apply Z.ltb_lt in H1, H2. apply Z.ltb_lt. lia.
  - apply andb_true_iff in H2 as [H2 _]. apply Z.eqb_eq in H2. subst. auto.
  - apply andb_true_iff in H1 as [H1 _]. apply Z.eqb_eq in H1. subst. auto.
  - apply andb_true_iff in H1 as [E1 L1]. apply andb_true_iff in H2 as [E2 L2].
    apply Z.eqb_eq in E1, E2. subst. right. rewrite Z.eqb_refl. simpl. eauto.
Qed.

#[global] Instance doc_le_total field dir : Total (doc_le field dir).
Proof. intros a b. destruct dir; unfold doc_le, value_leb; apply lex_leb_total. Qed.

#[global] Instance doc_le_trans field dir : Transitive (doc_le field dir).
Proof.
  intros a b c.
  destruct dir; unfold doc_le, value_leb; intros; eapply lex_leb_trans; eauto.
Qed.

Lemma ordered_sorted db q field dir :
  q_order q = Some (field, dir) ->
  ordered db q ≡ₚ matching db q /\ StronglySorted (doc_le field dir) (ordered db q).
Proof.
  intros E. unfold ordered. rewrite E. split.
  - apply merge_sort_Permutation.
  - apply StronglySorted_merge_sort; apply _.
Qed.

Lemma ordered_In db q x : In x (ordered db q) -> In x (db (q_coll q)).
Proof.
  intros Hin.
  assert (Hm : In x (matching db q)).
  { unfold ordered in Hin. destruct (q_order q) as [[f d]|]; [| exact Hin].
    apply list_elem_of_In. apply list_elem_of_In in Hin.
    by rewrite merge_sort_Permutation in Hin. }
  unfold matching in Hm. apply filter_In in Hm. tauto.
Qed.

(** ** Paginated reads *)

Lemma mapR_length {A B : Type} (f : A -> result B) l ys :
  mapR f l = Ok ys -> length ys = length l.
Proof.
  revert ys. induction l as [|x l IH]; simpl; intros ys E.
  - by injection E as <-.
  - destruct (f x); [| discriminate]. destruct (mapR f l); [| discriminate].
    injection E as <-. simpl. f_equal. by apply IH.
Qed.

Lemma mapR_total {A B : Type} (f : A -> result B) l :
  (forall x, In x l -> exists y, f x = Ok y) -> exists ys, mapR f l = Ok ys.
Proof.
  induction l as [|x l IH]; simpl; intros Hf; [by eexists |].
  destruct (Hf x) as [y ->]; [by left |].
  destruct IH as [ys ->]; [intros; apply Hf; by right |]. by eexists.
Qed.

Lemma window_In {A : Type} off lim (l : list A) x : In x (window off lim l) -> In x l.
Proof.
  unfold window. intros Hin. apply list_elem_of_In in Hin. apply list_elem_of_In.
  destruct lim; [apply subseteq_take in Hin |]; by apply subseteq_drop in Hin.
Qed.

Lemma paginate_run q p pp decode w :
  fst ((totalCount <- query_count q ;;
        snapshot <- query_get (fs_limit (fs_offset q (Some ((p - 1) * pp))) (Some pp)) ;;
        xs <- liftR (mapR decode snapshot) ;;
        ret {| items := xs; page := Some p; perPage := Some pp; total := totalCount;
               hasMore := ((p - 1) * pp + pp <? totalCount) |}) w)
  = paged (w_db w) q p pp decode.
Proof.
  unfold paged. rewrite bind_run, query_count_run. unfold run_count.
  destruct (forallb filter_ok (q_where q)) eqn:Hf; cbn [negb]; [| reflexivity].
  rewrite bind_run, query_get_run.
  rewrite (run_query_limit _ (fs_offset q (Some ((p - 1) * pp))) ((p - 1) * pp) pp
             eq_refl Hf).
  destruct (((p - 1) * pp <? 0) || (pp <? 0)); [reflexivity |].
  rewrite bind_run. unfold liftR.
  change (ordered (w_db (logged (EvCount q) w)) (fs_offset q (Some ((p - 1) * pp))))
    with (ordered (w_db w) q).
  destruct (mapR decode _); reflexivity.
Qed.

Lemma paged_inv db q p pp decode r :
  paged db q p pp decode = Ok r ->
  0 <= (p - 1) * pp /\ 0 <= pp /\
  mapR decode (window ((p - 1) * pp) (Some pp) (ordered db q)) = Ok (items r) /\
  page r = Some p /\ perPage r = Some pp /\
  total r = Z.of_nat (length (matching db q)) /\
  hasMore r = ((p - 1) * pp + pp <? total r).
Proof.
  unfold paged. destruct (negb _); [discriminate |].
  destruct (Z.ltb_spec ((p - 1) * pp) 0); [discriminate |].
  destruct (Z.ltb_spec pp 0); [discriminate |]. cbn [orb].
  destruct (mapR decode _) as [xs|]; [| discriminate].
  intros E. injection E as <-. simpl. tauto.
Qed.

Lemma paged_within db q p pp decode r :
  paged db q p pp decode = Ok r -> page_within r p pp (length (matching db q)).
Proof.
  intros E. apply paged_inv in E as (Ho & Hp & Hm & Hpage & Hper & Ht & Hh).
  unfold page_within. repeat split; try assumption.
  - apply mapR_length in Hm. rewrite Hm. unfold window. rewrite length_take. lia.
  - rewrite Hh. intros L. apply Z.ltb_lt in L. lia.
  - rewrite Hh. intros L. apply Z.ltb_lt. lia.
Qed.

Lemma paged_returns db q p pp decode :
  forallb filter_ok (q_where q) = true ->
  (forall x, In x (db (q_coll q)) -> exists y, decode x = Ok y) ->
  1 <= p -> 0 <= pp -> exists r, paged db q p pp decode = Ok r.
Proof.
  intros Hf Hd Hp Hpp. unfold paged. rewrite Hf. cbn [negb].
  destruct (Z.ltb_spec ((p - 1) * pp) 0); [nia |].
  destruct (Z.ltb_spec pp 0); [lia |]. cbn [orb].
  destruct (mapR_total decode (window ((p - 1) * pp) (Some pp) (ordered db q))) as [ys ->].
  - intros x Hin. apply Hd. eapply ordered_In, window_In, Hin.
  - by eexists.
Qed.

Lemma paged_answers db q p pp decode (ready : Prop) :
  (ready -> forallb filter_ok (q_where q) = true /\
            forall x, In x (db (q_coll q)) -> exists y, decode x = Ok y) ->
  answers_page (paged db q p pp decode) p pp (length (matching db q)) ready.
Proof.
  intros Hr. split.
  - intros r. apply paged_within.
  - intros R. destruct (Hr R). by apply paged_returns.
Qed.

Lemma paged_sorted db q field dir p pp decode r :
  q_order q = Some (field, dir) ->
  paged db q p pp decode = Ok r -> page_of_sorted db q field dir p pp decode r.
Proof.
  intros Ho E. apply paged_inv in E as (_ & _ & Hm & _).
  destruct (ordered_sorted db q field dir Ho) as [Hperm Hs].
  exists (ordered db q). auto.
Qed.

Section paginated.
Context `{JSBuiltins} `{Tables}.

Lemma executePaginatedQuery_paged q pagination w :
  fst (run (ScoresFirestore.executePaginatedQuery q pagination) w) =
  paged (w_db w) (fs_orderBy q "createdAt" Desc)
    (or_default (sp_page pagination) 1) (or_default (sp_perPage pagination) 20)
    (fun doc => ScoresFirestore.deserializeScore (Some (snd doc))).
Proof. apply paginate_run. Qed.

Lemma getEvals_paged options w :
  fst (run (LegacyEvalsFirestore.getEvals options) w) =
  paged (w_db w)
    (LegacyEvalsFirestore.evals_query (LegacyEvalsFirestore.ev_agentName options)
       (LegacyEvalsFirestore.ev_type options))
    (or_default (LegacyEvalsFirestore.ev_page options) 1)
    (or_default (LegacyEvalsFirestore.ev_perPage options) 20)
    (fun doc => LegacyEvalsFirestore.deserializeEval (Some (snd doc))).
Proof. apply paginate_run. Qed.

Lemma getThreadsByResourceIdPaginated_paged args w :
  fst (run (MemoryFirestore.getThreadsByResourceIdPaginated args) w) =
  paged (w_db w)
    (MemoryFirestore.threads_query (MemoryFirestore.th_resourceId args)
       (or_default (MemoryFirestore.th_orderBy args) "createdAt")
       (or_default (MemoryFirestore.th_sortDirection args) "ASC"))
    (or_default (MemoryFirestore.th_page args) 1)
    (or_default (MemoryFirestore.th_perPage args) 20)
    (fun doc => MemoryFirestore.deserializeThread (Some (snd doc))).
Proof. apply paginate_run. Qed.

Lemma getMessagesPaginated_paged args w :
  fst (run (MemoryFirestore.getMessagesPaginated args) w) =
  paged (w_db w)
    (MemoryFirestore.messages_query (MemoryFirestore.ms_threadId args)
       (or_default (MemoryFirestore.ms_include args) []))
    (or_default (sp_page (or_default (MemoryFirestore.ms_pagination args) no_pagination)) 1)
    (or_default (sp_perPage (or_default (MemoryFirestore.ms_pagination args) no_pagination)) 20)
    (fun doc => MemoryFirestore.deserializeMessage (Some (snd doc))).
Proof. apply paginate_run. Qed.

Lemma getTracesPaginated_paged args w p pp :
  TracesFirestore.tr_page args = Some p -> TracesFirestore.tr_perPage args = Some pp ->
  fst (run (TracesFirestore.getTracesPaginated args) w) =
  paged (w_db w)
    (TracesFirestore.traces_query (TracesFirestore.tr_fromDate args)
       (TracesFirestore.tr_toDate args))
    p pp (fun doc => TracesFirestore.deserializeTrace (Some (snd doc))).
Proof.
  intros Hp Hpp. unfold run, TracesFirestore.getTracesPaginated. rewrite Hp, Hpp.
  apply paginate_run.
Qed.

Lemma getTracesPaginated_unspecified args w :
  TracesFirestore.tr_page args = None \/ TracesFirestore.tr_perPage args = None ->
  exists e, fst (run (TracesFirestore.getTracesPaginated args) w) = Throw e.
Proof.
  intros Hn. unfold run, TracesFirestore.getTracesPaginated.
  rewrite bind_run, query_count_run. unfold run_count.
  destruct (forallb filter_ok _) eqn:Hf; cbn [negb]; [| by eexists].
  rewrite bind_run, query_get_run.
  assert (Ho : num_mul (num_sub (TracesFirestore.tr_page args) (Some 1))
                 (TracesFirestore.tr_perPage args) = None).
  { destruct Hn as [-> | ->]; [reflexivity |].
    by destruct (num_sub _ _). }
  rewrite Ho. unfold run_query. cbn [fs_limit fs_offset q_where q_offset q_limit].
  rewrite Hf. cbn. by eexists.
Qed.

End paginated.

Section paginated_claims.
Context `{JSBuiltins} `{Tables}.

Lemma evals_query_ok a t :
  forallb filter_ok (q_where (LegacyEvalsFirestore.evals_query a t)) = true /\
  q_order (LegacyEvalsFirestore.evals_query a t) = Some ("createdAt", Desc) /\
  q_coll (LegacyEvalsFirestore.evals_query a t) = TABLE_EVALS.
Proof.
  unfold LegacyEvalsFirestore.evals_query.
  destruct a as [a|], t as [t|]; simpl;
    repeat match goal with |- context [negb ?b] => destruct (negb b) end; auto.
Qed.

Lemma threads_query_ok r f d :
  forallb filter_ok (q_where (MemoryFirestore.threads_query r f d)) = true /\
  q_coll (MemoryFirestore.threads_query r f d) = TABLE_THREADS.
Proof.
  unfold MemoryFirestore.threads_query.
  destruct (truthy (VStr f) && truthy (VStr d)); auto.
Qed.

Lemma threads_query_order r f d :
  f <> "" -> d <> "" ->
  q_order (MemoryFirestore.threads_query r f d)
  = Some (f, if String.eqb d "ASC" then Asc else Desc).
Proof.
  intros Hf Hd. unfold MemoryFirestore.threads_query. simpl.
  apply String.eqb_neq in Hf, Hd. rewrite Hf, Hd. reflexivity.
Qed.

Lemma messages_query_ok t include :
  forallb filter_ok (q_where (MemoryFirestore.messages_query t include)) = true /\
  q_order (MemoryFirestore.messages_query t include) = Some ("createdAt", Asc) /\
  q_coll (MemoryFirestore.messages_query t include) = TABLE_MESSAGES.
Proof.
  unfold MemoryFirestore.messages_query.
  set (q0 := fs_where (collection TABLE_MESSAGES) "threadId" OpEq (VStr t)).
  assert (G : forall q, forallb filter_ok (q_where q) = true ->
    let q' := fold_left (fun q id => fs_where q "id" OpEq (VStr id)) include q in
    forallb filter_ok (q_where q') = true /\ q_coll q' = q_coll q).
  { induction include as [|i l IH]; intros q Hq; simpl; [auto |].
    destruct (IH (fs_where q "id" OpEq (VStr i))) as [A B]; [| auto].
    simpl. rewrite forallb_app, Hq. reflexivity. }
  destruct (G q0 eq_refl) as [A B]. simpl. auto.
Qed.

Lemma traces_query_ok fromDate toDate :
  storable fromDate = true -> storable toDate = true ->
  forallb filter_ok (q_where (TracesFirestore.traces_query fromDate toDate)) = true.
Proof.
  intros Hf Ht. unfold TracesFirestore.traces_query.
  destruct (truthy fromDate) eqn:E1, (truthy toDate) eqn:E2; simpl; rewrite ?andb_true_r;
    rewrite ?Hf, ?Ht; try reflexivity;
    destruct fromDate, toDate; try discriminate; reflexivity.
Qed.

Lemma traces_query_order fromDate toDate :
  q_order (TracesFirestore.traces_query fromDate toDate) = Some ("timestamp", Desc) /\
  q_coll (TracesFirestore.traces_query fromDate toDate) = TABLE_TRACES.
Proof.
  unfold TracesFirestore.traces_query.
  destruct (truthy fromDate), (truthy toDate); auto.
Qed.

Lemma deserializeEval_total d s n :
  obj_get d "createdAt" = VTimestamp s n ->
  exists y, LegacyEvalsFirestore.deserializeEval (Some d) = Ok y.
Proof.
  intros E. unfold LegacyEvalsFirestore.deserializeEval. rewrite E. simpl. by eexists.
Qed.

(** The four entry points for scores run [executePaginatedQuery] on a query
    with valid filters. *)
Lemma scores_entry_points :
  (forall scorerId entityId entityType source pagination,
     exists q, forallb filter_ok (q_where q) = true /\ q_coll q = TABLE_SCORERS /\
       ScoresFirestore.getScoresByScorerId scorerId entityId entityType source pagination
       = ScoresFirestore.executePaginatedQuery q pagination) /\
  (forall runId pagination,
     exists q, forallb filter_ok (q_where q) = true /\ q_coll q = TABLE_SCORERS /\
       ScoresFirestore.getScoresByRunId runId pagination
       = ScoresFirestore.executePaginatedQuery q pagination) /\
  (forall entityId entityType pagination,
     exists q, forallb filter_ok (q_where q) = true /\ q_coll q = TABLE_SCORERS /\
       ScoresFirestore.getScoresByEntityId entityId entityType pagination
       = ScoresFirestore.executePaginatedQuery q pagination) /\
  (forall traceId spanId pagination,
     exists q, forallb filter_ok (q_where q) = true /\ q_coll q = TABLE_SCORERS /\
       ScoresFirestore.getScoresBySpan traceId spanId pagination
       = ScoresFirestore.executePaginatedQuery q pagination).
Proof.
  repeat split; intros.
  - unfold ScoresFirestore.getScoresByScorerId. eexists. split; [| split; [| reflexivity]].
    + destruct entityId, entityType, source; simpl;
        repeat match goal with |- context [negb ?b] => destruct (negb b) end; reflexivity.
    + destruct entityId, entityType, source; simpl;
        repeat match goal with |- context [negb ?b] => destruct (negb b) end; reflexivity.
  - eexists. split; [| split; [| reflexivity]]; reflexivity.
  - unfold ScoresFirestore.getScoresByEntityId. eexists. split; [| split; [| reflexivity]].
    + simpl. destruct (negb _); reflexivity.
    + simpl. destruct (negb _); reflexivity.
  - eexists. split; [| split; [| reflexivity]]; reflexivity.
Qed.

(** X26.  Scores, evals, threads and messages take page 1 and perPage 20
    when the pagination they are given leaves them unspecified; traces take
    both from the caller, and a call that leaves one unspecified returns no
    page.  For all five, a page that is returned has at most perPage items,
    reports the count of the records matching the query as total, and has
    hasMore true exactly when total > (page - 1) * perPage + perPage; and a
    page is returned whenever page >= 1 and perPage >= 0 (for evals: when
    the stored createdAt fields are timestamps; for traces: when the date
    bounds are valid dates). *)
Theorem paginated_reads_answer_the_page :
  (forall q pagination w,
     let p := or_default (sp_page pagination) 1 in
     let pp := or_default (sp_perPage pagination) 20 in
     answers_page (fst (run (ScoresFirestore.executePaginatedQuery q pagination) w)) p pp
       (length (matching (w_db w) (fs_orderBy q "createdAt" Desc)))
       (forallb filter_ok (q_where q) = true)) /\
  (forall options w,
     let p := or_default (LegacyEvalsFirestore.ev_page options) 1 in
     let pp := or_default (LegacyEvalsFirestore.ev_perPage options) 20 in
     answers_page (fst (run (LegacyEvalsFirestore.getEvals options) w)) p pp
       (length (matching (w_db w)
                  (LegacyEvalsFirestore.evals_query
                     (LegacyEvalsFirestore.ev_agentName options)
                     (LegacyEvalsFirestore.ev_type options))))
       (forall id d, In (id, d) (w_db w TABLE_EVALS) ->
                     exists s n, obj_get d "createdAt" = VTimestamp s n)) /\
  (forall args w,
     let p := or_default (MemoryFirestore.th_page args) 1 in
     let pp := or_default (MemoryFirestore.th_perPage args) 20 in
     answers_page (fst (run (MemoryFirestore.getThreadsByResourceIdPaginated args) w)) p pp
       (length (matching (w_db w)
                  (MemoryFirestore.threads_query (MemoryFirestore.th_resourceId args)
                     (or_default (MemoryFirestore.th_orderBy args) "createdAt")
                     (or_default (MemoryFirestore.th_sortDirection args) "ASC"))))
       True) /\
  (forall args w,
     let pagination := or_default (MemoryFirestore.ms_pagination args) no_pagination in
     let p := or_default (sp_page pagination) 1 in
     let pp := or_default (sp_perPage pagination) 20 in
     answers_page (fst (run (MemoryFirestore.getMessagesPaginated args) w)) p pp
       (length (matching (w_db w)
                  (MemoryFirestore.messages_query (MemoryFirestore.ms_threadId args)
                     (or_default (MemoryFirestore.ms_include args) []))))
       True) /\
  (forall args w p pp,
     TracesFirestore.tr_page args = Some p ->
     TracesFirestore.tr_perPage args = Some pp ->
     answers_page (fst (run (TracesFirestore.getTracesPaginated args) w)) p pp
       (length (matching (w_db w)
                  (TracesFirestore.traces_query (TracesFirestore.tr_fromDate args)
                     (TracesFirestore.tr_toDate args))))
       (storable (TracesFirestore.tr_fromDate args) = true /\
        storable (TracesFirestore.tr_toDate args) = true)) /\
  (forall args w,
     TracesFirestore.tr_page args = None \/ TracesFirestore.tr_perPage args = None ->
     exists e, fst (run (TracesFirestore.getTracesPaginated args) w) = Throw e).
Proof.
  repeat apply conj.
  - intros q pagination w p pp. rewrite executePaginatedQuery_paged.
    apply paged_answers. intros Hf. split; [exact Hf |].
    intros x _. by eexists.
  - intros options w p pp. rewrite getEvals_paged.
    destruct (evals_query_ok (LegacyEvalsFirestore.ev_agentName options)
                (LegacyEvalsFirestore.ev_type options)) as (Hf & _ & Hc).
    apply paged_answers. intros Hts. split; [exact Hf |].
    rewrite Hc. intros [id d] Hin. destruct (Hts id d Hin) as (s & n & E).
    by apply (deserializeEval_total d s n).
  - intros args w p pp. rewrite getThreadsByResourceIdPaginated_paged.
    apply paged_answers. intros _. split; [apply threads_query_ok |].
    intros x _. by eexists.
  - intros args w pagination p pp. rewrite getMessagesPaginated_paged.
    apply paged_answers. intros _. split; [apply messages_query_ok |].
    intros x _. by eexists.
  - intros args w p pp Hp Hpp. rewrite (getTracesPaginated_paged args w p pp Hp Hpp).
    apply paged_answers. intros [Hf Ht]. split; [by apply traces_query_ok |].
    intros x _. by eexists.
  - intros args w. apply getTracesPaginated_unspecified.
Qed.

(** C8 (as amended).  Every paginated read orders the matching records
    before it takes the page window: scores and evals descending by
    createdAt, traces descending by timestamp; threads by the caller's field
    and direction, which default to createdAt ascending; messages ascending
    by createdAt. *)
Theorem paginated_reads_order_before_the_window :
  (forall q pagination w r,
     fst (run (ScoresFirestore.executePaginatedQuery q pagination) w) = Ok r ->
     page_of_sorted (w_db w) (fs_orderBy q "createdAt" Desc) "createdAt" Desc
       (or_default (sp_page pagination) 1) (or_default (sp_perPage pagination) 20)
       (fun doc => ScoresFirestore.deserializeScore (Some (snd doc))) r) /\
  (forall options w r,
     fst (run (LegacyEvalsFirestore.getEvals options) w) = Ok r ->
     page_of_sorted (w_db w)
       (LegacyEvalsFirestore.evals_query (LegacyEvalsFirestore.ev_agentName options)
          (LegacyEvalsFirestore.ev_type options))
       "createdAt" Desc
       (or_default (LegacyEvalsFirestore.ev_page options) 1)
       (or_default (LegacyEvalsFirestore.ev_perPage options) 20)
       (fun doc => LegacyEvalsFirestore.deserializeEval (Some (snd doc))) r) /\
  (forall args w p pp r,
     TracesFirestore.tr_page args = Some p ->
     TracesFirestore.tr_perPage args = Some pp ->
     fst (run (TracesFirestore.getTracesPaginated args) w) = Ok r ->
     page_of_sorted (w_db w)
       (TracesFirestore.traces_query (TracesFirestore.tr_fromDate args)
          (TracesFirestore.tr_toDate args))
       "timestamp" Desc p pp
       (fun doc => TracesFirestore.deserializeTrace (Some (snd doc))) r) /\
  (forall args w r,
     let field := or_default (MemoryFirestore.th_orderBy args) "createdAt" in
     let direction := or_default (MemoryFirestore.th_sortDirection args) "ASC" in
     field <> "" -> direction <> "" ->
     fst (run (MemoryFirestore.getThreadsByResourceIdPaginated args) w) = Ok r ->
     page_of_sorted (w_db w)
       (MemoryFirestore.threads_query (MemoryFirestore.th_resourceId args) field direction)
       field (if String.eqb direction "ASC" then Asc else Desc)
       (or_default (MemoryFirestore.th_page args) 1)
       (or_default (MemoryFirestore.th_perPage args) 20)
       (fun doc => MemoryFirestore.deserializeThread (Some (snd doc))) r) /\
  (forall args w r,
     let pagination := or_default (MemoryFirestore.ms_pagination args) no_pagination in
     fst (run (MemoryFirestore.getMessagesPaginated args) w) = Ok r ->
     page_of_sorted (w_db w)
       (MemoryFirestore.messages_query (MemoryFirestore.ms_threadId args)
          (or_default (MemoryFirestore.ms_include args) []))
       "createdAt" Asc
       (or_default (sp_page pagination) 1) (or_default (sp_perPage pagination) 20)
       (fun doc => MemoryFirestore.deserializeMessage (Some (snd doc))) r).
Proof.
  repeat apply conj.
  - intros q pagination w r. rewrite executePaginatedQuery_paged.
    by apply paged_sorted.
  - intros options w r. rewrite getEvals_paged.
    apply paged_sorted. apply evals_query_ok.
  - intros args w p pp r Hp Hpp. rewrite (getTracesPaginated_paged args w p pp Hp Hpp).
    apply paged_sorted. apply traces_query_order.
  - intros args w r field direction Hf Hd. rewrite getThreadsByResourceIdPaginated_paged.
    apply paged_sorted. by apply threads_query_order.
  - intros args w r pagination. rewrite getMessagesPaginated_paged.
    apply paged_sorted. apply messages_query_ok.
Qed.

End paginated_claims.

(** ** Slices *)

Lemma slice_take_drop {A : Type} i n (xs : list A) :
  slice i (i + n) xs = take n (drop i xs).
Proof. unfold slice. f_equal. lia. Qed.

Lemma slices_from_concat {A : Type} fuel size i (xs : list A) :
  (0 < size)%nat -> (length xs <= i + fuel)%nat ->
  concat (slices_from fuel size i xs) = drop i xs.
Proof.
  intros Hs. revert i. induction fuel as [|fuel IH]; intros i Hf; simpl.
  - rewrite drop_ge; [done | lia].
  - destruct (Nat.ltb_spec i (length xs)).
    + simpl. rewrite IH by lia. rewrite slice_take_drop.
      rewrite <- (take_drop size (drop i xs)) at 2. by rewrite drop_drop.
    + rewrite drop_ge; [done | lia].
Qed.

Lemma slices_from_sizes {A : Type} fuel size i (xs : list A) :
  map length (slices_from fuel size i xs) = sizes_from fuel size i (length xs).
Proof.
  revert i. induction fuel as [|fuel IH]; intros i; cbn [slices_from sizes_from]; [done |].
  destruct (i <? length xs)%nat; [| done]. cbn [map]. rewrite IH. f_equal.
  rewrite slice_take_drop, length_take, length_drop. done.
Qed.

Lemma sizes_from_bound fuel size i len :
  Forall (fun n => (0 < n <= size)%nat) (sizes_from fuel size i len) \/ size = 0%nat.
Proof.
  destruct size as [|size]; [by right | left].
  revert i. induction fuel as [|fuel IH]; intros i; cbn [sizes_from]; [constructor |].
  destruct (Nat.ltb_spec i len); [| constructor].
  constructor; [lia | apply IH].
Qed.

Lemma slices_concat {A : Type} size (xs : list A) :
  (0 < size)%nat -> concat (slices size xs) = xs.
Proof. intros Hs. unfold slices. rewrite slices_from_concat; [done | done | lia]. Qed.

Lemma slices_bound {A : Type} size (xs : list A) :
  (0 < size)%nat ->
  Forall (fun c => (0 < length c <= size)%nat) (slices size xs).
Proof.
  intros Hs. unfold slices.
  destruct (sizes_from_bound (length xs) size 0 (length xs)) as [Hb | ->]; [| lia].
  rewrite <- slices_from_sizes in Hb. by apply Forall_fmap in Hb.
Qed.

Lemma slices_sizes {A : Type} size (xs : list A) :
  map length (slices size xs) = sizes_from (length xs) size 0 (length xs).
Proof. apply slices_from_sizes. Qed.

Lemma slices_count {A : Type} size (xs : list A) :
  length (slices size xs) = length (sizes_from (length xs) size 0 (length xs)).
Proof. by rewrite <- slices_sizes, length_map. Qed.

Example sizes_1200 : sizes_from 1200 500 0 1200 = [500; 500; 200]%nat.
Proof. vm_compute. reflexivity. Qed.

Example sizes_25 : sizes_from 25 10 0 25 = [10; 10; 5]%nat.
Proof. vm_compute. reflexivity. Qed.

(** ** Reading messages by id *)

Lemma logged_all_db evs w : w_db (logged_all evs w) = w_db w.
Proof. revert w. induction evs as [|ev evs IH]; intros w; simpl; [done | by rewrite IH]. Qed.

Lemma logged_all_log evs w : w_log (logged_all evs w) = (w_log w ++ evs)%list.
Proof.
  revert w. induction evs as [|ev evs IH]; intros w; simpl.
  - by rewrite app_nil_r.
  - rewrite IH. simpl. by rewrite <- app_assoc.
Qed.

Lemma queries_of_logged {A : Type} (f : A -> Query) (l : list A) :
  queries (map (fun c => EvQuery (f c)) l) = map f l.
Proof.
  induction l as [|c l IH]; [done |].
  change (queries (map (fun c => EvQuery (f c)) (c :: l)))
    with (f c :: queries (map (fun c => EvQuery (f c)) l)).
  by rewrite IH.
Qed.

Lemma storable_strs ids : storable (VArr (map VStr ids)) = true.
Proof. simpl. induction ids as [|i ids IH]; simpl; auto. Qed.

Section by_id.
Context `{JSBuiltins} `{Tables}.

Lemma run_query_in db ids : run_query db (in_query ids) = Ok (matching db (in_query ids)).
Proof.
  unfold run_query, in_query. cbn [fs_where collection q_where q_offset q_limit app forallb filter_ok].
  rewrite storable_strs. simpl. unfold window. by rewrite drop_0.
Qed.

Lemma mapR_deserializeMessage (docs : Collection) :
  mapR (fun doc => MemoryFirestore.deserializeMessage (Some (snd doc))) docs
  = Ok (map (fun doc => decodeMessage (snd doc)) docs).
Proof. induction docs as [|d docs IH]; [done |]. cbn [mapR]. by rewrite IH. Qed.

Lemma getMessagesById_chunks chunks w :
  mapM (fun batchIds =>
          snapshot <- query_get (in_query batchIds) ;;
          liftR (mapR (fun doc => MemoryFirestore.deserializeMessage (Some (snd doc)))
                   snapshot)) chunks w
  = (Ok (map (found (w_db w)) chunks),
     logged_all (map (fun c => EvQuery (in_query c)) chunks) w).
Proof.
  revert w. induction chunks as [|c chunks IH]; intros w; [reflexivity |].
  cbn [mapM]. rewrite !bind_run, query_get_run, run_query_in.
  unfold liftR. rewrite mapR_deserializeMessage. rewrite bind_run, IH. reflexivity.
Qed.

Lemma getMessagesById_run ids w :
  run (MemoryFirestore.getMessagesById ids) w
  = (Ok (concat (map (found (w_db w)) (slices 10 ids))),
     logged_all (map (fun c => EvQuery (in_query c)) (slices 10 ids)) w).
Proof.
  unfold run, MemoryFirestore.getMessagesById.
  destruct ids as [|i ids]; [reflexivity |].
  cbn [length Nat.eqb]. rewrite bind_run.
  pose proof (getMessagesById_chunks (slices 10 (i :: ids)) w) as E.
  unfold in_query in E. rewrite E. reflexivity.
Qed.

Lemma in_query_matches ids d :
  matches (in_query ids) d = true <-> exists s, In s ids /\ obj_get d "id" = VStr s.
Proof.
  unfold matches, in_query. simpl. rewrite !andb_true_r, andb_true_iff.
  rewrite existsb_exists. split.
  - intros (_ & y & Hy & Ey). apply in_map_iff in Hy as (s & <- & Hs).
    simpl in Ey. apply value_eqb_str in Ey. eauto.
  - intros (s & Hs & E). split.
    + destruct (obj_has d "id") eqn:Eh; [done |].
      rewrite (obj_get_absent _ _ Eh) in E. discriminate.
    + exists (VStr s). split; [by apply in_map |]. simpl. by apply value_eqb_str.
Qed.

Lemma found_In db ids m :
  In m (found db ids) <->
  exists id d, In (id, d) (db TABLE_MESSAGES) /\
               (exists s, In s ids /\ obj_get d "id" = VStr s) /\ m = decodeMessage d.
Proof.
  unfold found, matching. rewrite in_map_iff. split.
  - intros ([id d] & <- & Hin). apply filter_In in Hin as [Hin Hm].
    apply in_query_matches in Hm. exists id, d. auto.
  - intros (id & d & Hin & Hs & ->). exists (id, d). split; [done |].
    apply filter_In. split; [exact Hin | by apply in_query_matches].
Qed.

(** C6.  [getMessagesById] cuts the ids into successive groups of at most
    10, issues one [in] query per group, in order, and returns the
    concatenation of the groups' decoded matches.  For 25 ids that is
    exactly 3 queries.  The result holds exactly the stored messages whose
    id is among the ids asked for. *)
Theorem getMessagesById_queries_by_groups_of_ten ids w :
  let chunks := slices 10 ids in
  run (MemoryFirestore.getMessagesById ids) w
  = (Ok (concat (map (found (w_db w)) chunks)),
     logged_all (map (fun c => EvQuery (in_query c)) chunks) w) /\
  Forall (fun c => (0 < length c <= 10)%nat) chunks /\
  concat chunks = ids /\
  queries (w_log (snd (run (MemoryFirestore.getMessagesById ids) w)))
  = (queries (w_log w) ++ map in_query chunks)%list /\
  (length ids = 25%nat -> length chunks = 3%nat) /\
  (forall m,
     In m (concat (map (found (w_db w)) chunks)) <->
     exists id d, In (id, d) (w_db w TABLE_MESSAGES) /\
                  (exists s, In s ids /\ obj_get d "id" = VStr s) /\
                  m = decodeMessage d).
Proof.
  intros chunks. rewrite getMessagesById_run. fold chunks.
  assert (Hc : concat chunks = ids) by (apply slices_concat; lia).
  repeat apply conj.
  - reflexivity.
  - apply slices_bound. lia.
  - exact Hc.
  - cbn [snd]. rewrite logged_all_log. unfold queries. rewrite omap_app. f_equal.
    apply queries_of_logged.
  - intros Hl. unfold chunks. rewrite slices_count, Hl. reflexivity.
  - intros m. rewrite in_concat. split.
    + intros (l & Hl & Hm). apply in_map_iff in Hl as (c & <- & Hcin).
      apply found_In in Hm as (id & d & Hin & (s & Hs & E) & ->).
      exists id, d. split; [done |]. split; [| done]. exists s. split; [| done].
      rewrite <- Hc. apply in_concat. eauto.
    + intros (id & d & Hin & (s & Hs & E) & ->).
      rewrite <- Hc in Hs. apply in_concat in Hs as (c & Hcin & Hsc).
      exists (found (w_db w) c). split; [by apply in_map |].
      apply found_In. exists id, d. eauto.
Qed.

End by_id.

(** ** Batches *)

Lemma commits_app l1 l2 : commits (l1 ++ l2) = (commits l1 ++ commits l2)%list.
Proof. unfold commits. apply omap_app. Qed.

Lemma commits_logged ev w :
  commits (w_log (logged ev w))
  = (commits (w_log w) ++ match ev with EvCommit ws => [ws] | _ => [] end)%list.
Proof. unfold logged. simpl. rewrite commits_app. by destruct ev. Qed.

Lemma commit_log ws w :
  w_log (snd (commit ws w)) = (w_log w ++ [EvCommit ws])%list.
Proof. rewrite commit_run. destruct (apply_writes _ _); reflexivity. Qed.

Lemma apply_deletes db coll ids :
  exists db', apply_writes db (map (fun id => WDelete coll id) ids) = Ok db'.
Proof.
  revert db. induction ids as [|i ids IH]; intros db; simpl; [by eexists | apply IH].
Qed.

(** A loop that commits one batch per slice, each batch built without
    touching the log. *)
Lemma forM_commit_log {A : Type} (build : list A -> M (list Write)) chunks w :
  (forall c w0, w_log (snd (build c w0)) = w_log w0) ->
  (forall c w0 ws, fst (build c w0) = Ok ws -> length ws = length c) ->
  let w' := snd (forM_ chunks (fun c => batch <- build c ;; commit batch) w) in
  exists batches,
    commits (w_log w') = (commits (w_log w) ++ batches)%list /\
    map length batches `prefix_of` map length chunks /\
    (fst (forM_ chunks (fun c => batch <- build c ;; commit batch) w) = Ok tt ->
     map length batches = map length chunks).
Proof.
  intros Hlog Hlen. revert w. induction chunks as [|c chunks IH]; intros w.
  - exists []. simpl. rewrite app_nil_r. repeat split; done.
  - cbn [forM_]. rewrite !bind_run.
    pose proof (Hlog c w) as Hl. pose proof (Hlen c w) as Hn.
    destruct (build c w) as [[ws|e] w1] eqn:Eb; simpl in Hl, Hn.
    + rewrite commit_run.
      destruct (apply_writes (w_db w1) ws) as [db|e] eqn:Ea.
      * destruct (IH (with_db db (logged (EvCommit ws) w1))) as (bs & Hc & Hp & Hok).
        exists (ws :: bs). cbn zeta in *. rewrite Hc. simpl.
        unfold commits at 1. rewrite Hl. rewrite omap_app. simpl.
        rewrite <- app_assoc. repeat split; try done.
        -- rewrite (Hn ws eq_refl). by apply prefix_cons.
        -- intros E. rewrite (Hn ws eq_refl). f_equal. by apply Hok.
      * exists [ws]. simpl. rewrite Hl, commits_app. repeat split; try done.
        rewrite (Hn ws eq_refl). apply prefix_cons, prefix_nil.
    + exists []. simpl. rewrite app_nil_r, Hl. repeat split; try done.
      apply prefix_nil.
Qed.

Lemma prefix_bound (l1 l2 : list nat) (n : nat) :
  l1 `prefix_of` l2 -> Forall (fun k => (0 < k <= n)%nat) l2 ->
  Forall (fun k => (0 < k <= n)%nat) l1.
Proof. intros [k ->] Hf. by apply Forall_app in Hf as [? _]. Qed.

Lemma mapM_log {A B : Type} (f : A -> M B) l w :
  (forall x w0, w_log (snd (f x w0)) = w_log w0) ->
  w_log (snd (mapM f l w)) = w_log w.
Proof.
  intros Hf. revert w. induction l as [|x l IH]; intros w; [done |].
  cbn [mapM]. rewrite bind_run. pose proof (Hf x w) as Hx.
  destruct (f x w) as [[y|e] w1]; simpl in Hx; [| done].
  rewrite bind_run. pose proof (IH w1) as Hl.
  destruct (mapM f l w1) as [[ys|e] w2]; simpl in *; congruence.
Qed.

Lemma mapM_length {A B : Type} (f : A -> M B) l w ys :
  fst (mapM f l w) = Ok ys -> length ys = length l.
Proof.
  revert w ys. induction l as [|x l IH]; intros w ys; cbn [mapM].
  - intros E. by injection E as <-.
  - rewrite bind_run. destruct (f x w) as [[y|e] w1]; [| discriminate].
    rewrite bind_run. pose proof (IH w1) as Hl.
    destruct (mapM f l w1) as [[ys'|e] w2]; [| discriminate].
    simpl. intros E. injection E as <-. simpl. f_equal. by apply Hl.
Qed.

Section batches.
Context `{JSBuiltins} `{Tables}.

Lemma batchInsert_commits tableName records w :
  let res := run (StoreOperationsFirestore.batchInsert tableName records) w in
  exists batches,
    commits (w_log (snd res)) = (commits (w_log w) ++ batches)%list /\
    Forall (fun ws => (0 < length ws <= 500)%nat) batches /\
    (fst res = Ok tt ->
     map length batches = sizes_from (length records) 500 0 (length records)).
Proof.
  unfold run, StoreOperationsFirestore.batchInsert.
  edestruct (forM_commit_log
    (fun batchRecords => mapM
       (fun record =>
          match explicit_id record with
          | Some id => ret (WSet tableName id (StoreOperationsFirestore.serializeRecord record))
          | None => id <- auto_id ;; ret (WSet tableName id (StoreOperationsFirestore.serializeRecord record))
          end) batchRecords) (slices 500 records) w) as (bs & Hc & Hp & Hok).
  - intros c w0. apply mapM_log. intros x w1. by destruct (explicit_id x).
  - intros c w0 ws. apply mapM_length.
  - exists bs. cbv zeta. split; [exact Hc |]. split.
    + assert (Hb : Forall (fun k => (0 < k <= 500)%nat) (map length bs)).
      { eapply prefix_bound; [exact Hp |].
        apply Forall_fmap. apply (slices_bound 500 records). lia. }
      by apply Forall_fmap in Hb.
    + intros E. rewrite (Hok E). apply slices_sizes.
Qed.

Lemma batchTraceInsert_commits records w :
  let res := run (TracesFirestore.batchTraceInsert records) w in
  exists batches,
    commits (w_log (snd res)) = (commits (w_log w) ++ batches)%list /\
    Forall (fun ws => (0 < length ws <= 500)%nat) batches /\
    (fst res = Ok tt ->
     map length batches = sizes_from (length records) 500 0 (length records)).
Proof.
  unfold run, TracesFirestore.batchTraceInsert.
  destruct records as [|r0 records]; [exists []; simpl; by rewrite app_nil_r |].
  cbn [length Nat.eqb].
  edestruct (forM_commit_log
    (fun batchRecords => mapM
       (fun record =>
          id <- (if truthy (obj_get record "id")
                 then match obj_get record "id" with
                      | VStr s => ret s
                      | _ => throw (TypeError "document path must be a string")
                      end
                 else auto_id) ;;
          data <- TracesFirestore.serializeTrace record ;;
          ret (WSet TABLE_TRACES id data)) batchRecords)
    (slices 500 (r0 :: records)) w) as (bs & Hc & Hp & Hok).
  - intros c w0. apply mapM_log. intros x w1.
    destruct (truthy (obj_get x "id")); [destruct (obj_get x "id") |]; reflexivity.
  - intros c w0 ws. apply mapM_length.
  - exists bs. cbv zeta. split; [exact Hc |]. split.
    + assert (Hb : Forall (fun k => (0 < k <= 500)%nat) (map length bs)).
      { eapply prefix_bound; [exact Hp |].
        apply Forall_fmap. apply (slices_bound 500 (r0 :: records)). lia. }
      by apply Forall_fmap in Hb.
    + intros E. rewrite (Hok E). exact (slices_sizes 500 (r0 :: records)).
Qed.

Lemma deleteMessages_chunks chunks w :
  exists w',
    forM_ chunks (fun batchIds => commit (map (fun id => WDelete TABLE_MESSAGES id) batchIds)) w
    = (Ok tt, w') /\
    commits (w_log w')
    = (commits (w_log w) ++ map (map (fun id => WDelete TABLE_MESSAGES id)) chunks)%list.
Proof.
  revert w. induction chunks as [|c chunks IH]; intros w.
  - exists w. simpl. by rewrite app_nil_r.
  - cbn [forM_]. rewrite bind_run, commit_run.
    destruct (apply_deletes (w_db w) TABLE_MESSAGES c) as [db ->].
    destruct (IH (with_db db (logged (EvCommit (map (fun id => WDelete TABLE_MESSAGES id) c)) w)))
      as (w' & -> & Hc).
    exists w'. split; [done |]. rewrite Hc. simpl. rewrite commits_app. simpl.
    by rewrite <- app_assoc.
Qed.

Lemma deleteMessages_commits messageIds w :
  let res := run (MemoryFirestore.deleteMessages messageIds) w in
  fst res = Ok tt /\
  commits (w_log (snd res))
  = (commits (w_log w)
     ++ map (map (fun id => WDelete TABLE_MESSAGES id)) (slices 500 messageIds))%list.
Proof.
  unfold run, MemoryFirestore.deleteMessages.
  destruct messageIds as [|i ids]; [simpl; by rewrite app_nil_r |].
  cbn [length Nat.eqb].
  destruct (deleteMessages_chunks (slices 500 (i :: ids)) w) as (w' & -> & Hc). auto.
Qed.

(** [deleteThread] puts every message of the thread into one batch. *)
Lemma deleteThread_commits threadId w :
  let db1 := db_put (w_db w) TABLE_THREADS (coll_remove (w_db w TABLE_THREADS) threadId) in
  let msgs := matching db1 (thread_messages_query threadId) in
  commits (w_log (snd (run (MemoryFirestore.deleteThread threadId) w)))
  = (commits (w_log w)
     ++ match msgs with
        | [] => []
        | _ => [map (fun doc => WDelete TABLE_MESSAGES (fst doc)) msgs]
        end)%list.
Proof.
  intros db1 msgs. unfold run, MemoryFirestore.deleteThread.
  rewrite bind_run. unfold doc_delete. rewrite write_run. cbn [apply_write].
  rewrite bind_run, query_get_run.
  unfold run_query. cbn [fs_where collection q_where q_offset q_limit app forallb filter_ok storable negb].
  cbn [Z.ltb Z.compare orb]. unfold ordered, window.
  cbn [q_order fs_where collection]. change (Z.to_nat 0) with 0%nat. rewrite drop_0.
  change (matching _ _) with msgs.
  destruct msgs as [|m msgs'].
  - simpl. rewrite commits_app, commits_app. simpl. by rewrite !app_nil_r.
  - cbn [andb negb length]. change (0 <? S (length msgs'))%nat with true. cbv iota.
    rewrite commit_log. cbn [w_log logged with_db].
    rewrite !commits_app. simpl. by rewrite !app_nil_r.
Qed.

End batches.


(** ** What a write stores *)

Lemma toFirestore_doc_cons k x o :
  toFirestore_doc ((k, x) :: o) =
  match x with
  | VUndef => toFirestore_doc o
  | _ => (k, toFirestore x) :: toFirestore_doc o
  end.
Proof. unfold toFirestore_doc. simpl. by destruct x. Qed.

Lemma toFirestore_doc_has o k :
  obj_has (toFirestore_doc o) k = true -> obj_has o k = true.
Proof.
  induction o as [|[k' x] o IH]; [done |].
  rewrite toFirestore_doc_cons. simpl.
  destruct x; simpl; destruct (String.eqb k k'); auto.
Qed.

Lemma obj_get_toFirestore_doc o k :
  NoDup (keys o) -> obj_get (toFirestore_doc o) k = toFirestore (obj_get o k).
Proof.
  induction o as [|[k' x] o IH]; intros Hnd; [done |].
  apply NoDup_cons in Hnd as [Hk Hnd]. rewrite toFirestore_doc_cons. simpl.
  destruct (String.eqb k k') eqn:E.
  - apply String.eqb_eq in E. subst k'.
    destruct x; simpl; rewrite ?String.eqb_refl; try reflexivity.
    apply obj_get_absent. destruct (obj_has (toFirestore_doc o) k) eqn:Eh; [| done].
    apply toFirestore_doc_has, obj_has_In in Eh. apply list_elem_of_In in Eh. done.
  - destruct x; simpl; rewrite ?E; by apply IH.
Qed.

Lemma obj_has_toFirestore_doc o k :
  NoDup (keys o) ->
  obj_has (toFirestore_doc o) k
  = obj_has o k && negb (match obj_get o k with VUndef => true | _ => false end).
Proof.
  induction o as [|[k' x] o IH]; intros Hnd; [done |].
  apply NoDup_cons in Hnd as [Hk Hnd]. rewrite toFirestore_doc_cons. simpl.
  destruct (String.eqb k k') eqn:E.
  - apply String.eqb_eq in E. subst k'.
    destruct x; simpl; rewrite ?String.eqb_refl; try reflexivity.
    destruct (obj_has (toFirestore_doc o) k) eqn:Eh; [| done].
    apply toFirestore_doc_has, obj_has_In in Eh. apply list_elem_of_In in Eh. done.
  - destruct x; simpl; rewrite ?E; by apply IH.
Qed.

Lemma storable_get o k : storable (VObj o) = true -> storable (obj_get o k) = true.
Proof.
  simpl. induction o as [|[k' x] o IH]; simpl; [done |].
  intros Hs. apply andb_true_iff in Hs as [Hx Ho].
  destruct (String.eqb k k'); auto.
Qed.

Lemma storable_set o k v :
  storable (VObj o) = true -> storable v = true -> storable (VObj (obj_set o k v)) = true.
Proof.
  simpl. intros Ho Hv. induction o as [|[k' x] o IH]; simpl; [by rewrite Hv |].
  simpl in Ho. apply andb_true_iff in Ho as [Hx Ho].
  destruct (String.eqb k k'); simpl; rewrite ?Hv, ?Hx; auto.
Qed.

Lemma storable_js_or a b : storable a = true -> storable b = true -> storable (js_or a b) = true.
Proof. unfold js_or. by destruct (truthy a). Qed.

Lemma keys_obj_set o k v :
  keys (obj_set o k v) = if obj_has o k then keys o else (keys o ++ [k])%list.
Proof.
  induction o as [|[k' x] o IH]; simpl; [done |].
  destruct (String.eqb k k') eqn:E; simpl.
  - apply String.eqb_eq in E. by subst.
  - rewrite IH. by destruct (obj_has o k).
Qed.

Lemma NoDup_obj_set o k v : NoDup (keys o) -> NoDup (keys (obj_set o k v)).
Proof.
  intros Hnd. rewrite keys_obj_set. destruct (obj_has o k) eqn:E; [done |].
  apply NoDup_app. repeat split; [done | | apply NoDup_singleton].
  intros x Hx Hx'. apply list_elem_of_singleton in Hx'. subst x.
  apply list_elem_of_In, obj_has_In in Hx. congruence.
Qed.

Lemma now_run w : now w = (Ok (VDate (Some (w_now w))), w).
Proof. reflexivity. Qed.

(** The write of one document, and what can be read back. *)
Lemma doc_set_run coll id data w :
  storable (VObj data) = true ->
  doc_set coll id data w =
  (Ok tt, with_db (db_put (w_db w) coll (coll_put (w_db w coll) id (toFirestore_doc data)))
            (logged (EvWrite (WSet coll id data)) w)).
Proof. intros Hs. unfold doc_set. rewrite write_run. cbn [apply_write]. by rewrite Hs. Qed.

Lemma auto_id_run w :
  auto_id w = (Ok ("auto-" +:+ pretty (w_ids w)),
               {| w_db := w_db w; w_log := w_log w; w_now := w_now w;
                  w_ids := S (w_ids w) |}).
Proof. reflexivity. Qed.

Lemma obj_set_absent o k v : obj_has o k = false -> obj_set o k v = (o ++ [(k, v)])%list.
Proof.
  induction o as [|[k' x] o IH]; simpl; [done |].
  destruct (String.eqb k k'); [discriminate |]. intros E. by rewrite IH.
Qed.

Lemma obj_has_app (o1 o2 : obj) k :
  obj_has (o1 ++ o2)%list k = obj_has o1 k || obj_has o2 k.
Proof.
  induction o1 as [|[k' x] o1 IH]; simpl; [done |]. by destruct (String.eqb k k').
Qed.

(** Assigning the fields of a record one by one into a fresh object gives
    the record with each value mapped. *)
Lemma fold_obj_set_map (f : value -> value) (r acc : obj) :
  NoDup (keys r) -> (forall k, In k (keys r) -> obj_has acc k = false) ->
  fold_left (fun acc kv => obj_set acc (fst kv) (f (snd kv))) r acc
  = (acc ++ map (fun kv => (fst kv, f (snd kv))) r)%list.
Proof.
  revert acc. induction r as [|[k x] r IH]; intros acc Hnd Hacc; simpl.
  - by rewrite app_nil_r.
  - apply NoDup_cons in Hnd as [Hk Hnd].
    rewrite obj_set_absent by (apply Hacc; by left).
    rewrite IH; [by rewrite <- app_assoc | done |].
    intros k' Hk'. rewrite obj_has_app. rewrite Hacc by (by right). simpl.
    destruct (String.eqb k' k) eqn:E; [| done].
    apply String.eqb_eq in E. subst. apply list_elem_of_In in Hk'. done.
Qed.

Lemma obj_get_map (f : value -> value) (r : obj) k :
  obj_get (map (fun kv => (fst kv, f (snd kv))) r) k
  = if obj_has r k then f (obj_get r k) else VUndef.
Proof.
  induction r as [|[k' x] r IH]; simpl; [done |]. by destruct (String.eqb k k').
Qed.

Lemma obj_has_map (f : value -> value) (r : obj) k :
  obj_has (map (fun kv => (fst kv, f (snd kv))) r) k = obj_has r k.
Proof.
  induction r as [|[k' x] r IH]; simpl; [done |]. by destruct (String.eqb k k').
Qed.

Lemma keys_map (f : value -> value) (r : obj) :
  keys (map (fun kv => (fst kv, f (snd kv))) r) = keys r.
Proof. unfold keys. rewrite map_map. reflexivity. Qed.

(** ** Writes that hold no undefined *)

Lemma defined_get o k :
  defined (VObj o) = true -> obj_has o k = true -> defined (obj_get o k) = true.
Proof.
  simpl. induction o as [|[k' x] o IH]; simpl; [done |].
  intros Hd. apply andb_true_iff in Hd as [Hx Ho].
  destruct (String.eqb k k'); auto.
Qed.

Lemma defined_set o k v :
  defined (VObj o) = true -> defined v = true -> defined (VObj (obj_set o k v)) = true.
Proof.
  simpl. intros Ho Hv. induction o as [|[k' x] o IH]; simpl; [by rewrite Hv |].
  simpl in Ho. apply andb_true_iff in Ho as [Hx Ho].
  destruct (String.eqb k k'); simpl; rewrite ?Hv, ?Hx; auto.
Qed.

Lemma defined_js_or a b :
  (truthy a = true -> defined a = true) -> defined b = true -> defined (js_or a b) = true.
Proof. unfold js_or. destruct (truthy a); auto. Qed.

(** A field behind [||]: what the object holds, or the default. *)
Lemma defined_get_or o k b :
  defined (VObj o) = true -> defined b = true -> defined (js_or (obj_get o k) b) = true.
Proof.
  intros Ho Hb. apply defined_js_or; [| done]. intros Ht.
  destruct (obj_has o k) eqn:Eh; [by apply defined_get |].
  by rewrite (obj_get_absent _ _ Eh) in Ht.
Qed.

Lemma defined_spread (base over : obj) :
  defined (VObj base) = true -> defined (VObj over) = true ->
  defined (VObj (obj_spread base over)) = true.
Proof.
  unfold obj_spread. revert base. induction over as [|[k v] over IH]; intros base Hb Ho; [done |].
  cbn [fold_left fst snd]. cbn [defined forallb] in Ho.
  apply andb_true_iff in Ho as [Hv Ho]. apply IH; [| exact Ho].
  by apply defined_set.
Qed.

Lemma wf_stored_defined v : wf_stored v = true -> defined v = true.
Proof.
  induction v as [| | b | n | s | t | s n | xs IH | fs IH] using value_nested_ind;
    try reflexivity; try discriminate.
  - simpl. intros Hp. induction IH as [|x xs Hx _ IHxs]; [done |].
    simpl in *. apply andb_true_iff in Hp as [Hpx Hpxs]. by rewrite Hx, IHxs.
  - simpl. intros Hw. apply andb_true_iff in Hw as [Hf _].
    induction IH as [|[k x] fs Hx _ IHfs]; [done |].
    simpl in *. apply andb_true_iff in Hf as [Hwx Hf]. by rewrite Hx, IHfs.
Qed.

Lemma all_accepted_app l1 l2 :
  all_accepted (l1 ++ l2) = all_accepted l1 && all_accepted l2.
Proof. apply forallb_app. Qed.

(** One more accepted round trip leaves a log as acceptable as it was. *)
Lemma all_accepted_logged ev w :
  accepted ev = true -> all_accepted (w_log (logged ev w)) = all_accepted (w_log w).
Proof.
  intros Ha. cbn [w_log logged]. rewrite all_accepted_app. cbn [all_accepted forallb].
  by rewrite Ha, !andb_true_r.
Qed.

Section stamps.
Context `{JSBuiltins} `{Tables}.

Lemma saveThread_stamps thread w id :
  obj_get thread "id" = VStr id -> storable (VObj thread) = true ->
  defined (VObj thread) = true ->
  defined (obj_get thread "resourceId") = true ->
  defined (obj_get thread "title") = true ->
  let d := VDate (Some (w_now w)) in
  let createdAt := js_or (obj_get thread "createdAt") d in
  exists w' data,
    run (MemoryFirestore.saveThread thread) w
    = (Ok (obj_set (obj_set thread "createdAt" createdAt) "updatedAt" d), w') /\
    coll_get (w_db w' TABLE_THREADS) id = Some data /\
    obj_get data "createdAt" = toFirestore createdAt /\
    obj_get data "updatedAt" = timestamp_of (w_now w) /\
    all_accepted (w_log w') = all_accepted (w_log w).
Proof.
  intros Hid Hs Hdef Hdr Hdt d createdAt. unfold run, MemoryFirestore.saveThread.
  rewrite Hid. cbn [MemoryFirestore.doc_path]. rewrite bind_run. cbn [ret].
  rewrite bind_run, now_run, bind_run. fold d. fold createdAt.
  set (threadData := obj_set (obj_set thread "createdAt" createdAt) "updatedAt" d).
  assert (Hsd : storable (VObj threadData) = true).
  { apply storable_set; [| done]. apply storable_set; [done |].
    apply storable_js_or; [by apply storable_get | done]. }
  assert (Hg : forall k, k <> "createdAt" -> k <> "updatedAt" ->
                         obj_get threadData k = obj_get thread k).
  { intros k H1 H2. unfold threadData. by rewrite !obj_get_set_ne by congruence. }
  assert (Hacc : defined (VObj (MemoryFirestore.serializeThread threadData)) = true).
  { unfold MemoryFirestore.serializeThread. cbn [defined forallb].
    rewrite (Hg "id"), (Hg "resourceId"), (Hg "title"), (Hg "metadata") by done.
    rewrite Hid, Hdr, Hdt. rewrite (defined_get_or thread "metadata") by done.
    unfold threadData. rewrite obj_get_set_eq, obj_get_set_ne by done.
    rewrite obj_get_set_eq. unfold createdAt.
    by rewrite (defined_get_or thread "createdAt"). }
  rewrite doc_set_run.
  2:{ unfold MemoryFirestore.serializeThread. cbn [storable forallb].
      rewrite !(storable_get _ _ Hsd). rewrite storable_js_or by (by apply storable_get || done).
      reflexivity. }
  eexists _, _. split; [reflexivity |]. cbn [w_db with_db]. rewrite db_put_same, coll_get_put_eq.
  split; [reflexivity |].
  rewrite !obj_get_toFirestore_doc by (apply (bool_decide_unpack _); vm_compute; exact I).
  cbn [MemoryFirestore.serializeThread obj_get String.eqb Ascii.eqb Bool.eqb].
  unfold threadData. rewrite obj_get_set_eq, obj_get_set_ne by done. rewrite obj_get_set_eq.
  split; [reflexivity |]. split; [reflexivity |].
  cbn [w_log with_db]. by apply all_accepted_logged.
Qed.

Lemma saveResource_stamps resource w id :
  obj_get resource "id" = VStr id -> storable (VObj resource) = true ->
  defined (VObj resource) = true ->
  let d := VDate (Some (w_now w)) in
  let createdAt := js_or (obj_get resource "createdAt") d in
  exists w' data,
    run (MemoryFirestore.saveResource resource) w
    = (Ok (obj_set (obj_set resource "createdAt" createdAt) "updatedAt" d), w') /\
    coll_get (w_db w' TABLE_RESOURCES) id = Some data /\
    obj_get data "createdAt" = toFirestore createdAt /\
    obj_get data "updatedAt" = timestamp_of (w_now w) /\
    all_accepted (w_log w') = all_accepted (w_log w).
Proof.
  intros Hid Hs Hdef d createdAt. unfold run, MemoryFirestore.saveResource.
  rewrite Hid. cbn [MemoryFirestore.doc_path]. rewrite bind_run. cbn [ret].
  rewrite bind_run, now_run, bind_run. fold d. fold createdAt.
  set (resourceData := obj_set (obj_set resource "createdAt" createdAt) "updatedAt" d).
  assert (Hsd : storable (VObj resourceData) = true).
  { apply storable_set; [| done]. apply storable_set; [done |].
    apply storable_js_or; [by apply storable_get | done]. }
  assert (Hg : forall k, k <> "createdAt" -> k <> "updatedAt" ->
                         obj_get resourceData k = obj_get resource k).
  { intros k H1 H2. unfold resourceData. by rewrite !obj_get_set_ne by congruence. }
  assert (Hacc : defined (VObj (MemoryFirestore.serializeResource resourceData)) = true).
  { unfold MemoryFirestore.serializeResource. cbn [defined forallb].
    rewrite (Hg "id"), (Hg "workingMemory"), (Hg "metadata") by done.
    rewrite Hid. rewrite (defined_get_or resource "workingMemory") by done.
    rewrite (defined_get_or resource "metadata") by done.
    unfold resourceData. rewrite obj_get_set_eq, obj_get_set_ne by done.
    rewrite obj_get_set_eq. unfold createdAt.
    by rewrite (defined_get_or resource "createdAt"). }
  rewrite doc_set_run.
  2:{ unfold MemoryFirestore.serializeResource. cbn [storable forallb].
      rewrite !(storable_get _ _ Hsd).
      rewrite !storable_js_or by (by apply storable_get || done). reflexivity. }
  eexists _, _. split; [reflexivity |]. cbn [w_db with_db].
  rewrite db_put_same, coll_get_put_eq. split; [reflexivity |].
  rewrite !obj_get_toFirestore_doc by (apply (bool_decide_unpack _); vm_compute; exact I).
  cbn [MemoryFirestore.serializeResource obj_get String.eqb Ascii.eqb Bool.eqb].
  unfold resourceData. rewrite obj_get_set_eq, obj_get_set_ne by done.
  rewrite obj_get_set_eq. split; [reflexivity |]. split; [reflexivity |].
  cbn [w_log with_db]. by apply all_accepted_logged.
Qed.

Lemma saveScore_stamps score w :
  storable (VObj score) = true -> defined (VObj score) = true ->
  Forall (fun k => defined (obj_get score k) = true)
    ["scorerId"; "entityId"; "entityType"; "source"; "runId"; "traceId"; "spanId";
     "score"] ->
  let id := "auto-" +:+ pretty (w_ids w) in
  let d := VDate (Some (w_now w)) in
  exists w' data,
    run (ScoresFirestore.saveScore score) w
    = (Ok (obj_set (obj_set (obj_set score "id" (VStr id)) "createdAt" d) "updatedAt" d),
       w') /\
    coll_get (w_db w' TABLE_SCORERS) id = Some data /\
    obj_get data "createdAt" = timestamp_of (w_now w) /\
    obj_get data "updatedAt" = timestamp_of (w_now w) /\
    all_accepted (w_log w') = all_accepted (w_log w).
Proof.
  intros Hs Hdef Hk id d. unfold run, ScoresFirestore.saveScore.
  rewrite bind_run, auto_id_run, bind_run, now_run, bind_run.
  cbn [w_now]. fold id. fold d.
  set (scoreData := obj_set (obj_set (obj_set score "id" (VStr id)) "createdAt" d)
                      "updatedAt" d).
  assert (Hsd : storable (VObj scoreData) = true).
  { repeat (apply storable_set; [| done]). done. }
  assert (Hg : forall k, k <> "id" -> k <> "createdAt" -> k <> "updatedAt" ->
                         obj_get scoreData k = obj_get score k).
  { intros k H1 H2 H3. unfold scoreData. by rewrite !obj_get_set_ne by congruence. }
  assert (Hacc : defined (VObj (ScoresFirestore.serializeScore scoreData)) = true).
  { unfold ScoresFirestore.serializeScore. cbn [defined forallb].
    rewrite (Hg "scorerId"), (Hg "entityId"), (Hg "entityType"), (Hg "source"),
      (Hg "runId"), (Hg "traceId"), (Hg "spanId"), (Hg "score"), (Hg "metadata") by done.
    repeat (apply Forall_cons in Hk as [-> Hk]).
    rewrite (defined_get_or score "metadata") by done.
    unfold scoreData. rewrite obj_get_set_eq.
    rewrite (obj_get_set_ne _ "updatedAt" "createdAt") by done. rewrite obj_get_set_eq.
    rewrite (obj_get_set_ne _ "updatedAt" "id"), (obj_get_set_ne _ "createdAt" "id") by done.
    by rewrite obj_get_set_eq. }
  rewrite doc_set_run.
  2:{ unfold ScoresFirestore.serializeScore. cbn [storable forallb].
      rewrite !(storable_get _ _ Hsd).
      rewrite !storable_js_or by (by apply storable_get || done). reflexivity. }
  eexists _, _. split; [reflexivity |]. cbn [w_db with_db].
  rewrite db_put_same, coll_get_put_eq. split; [reflexivity |].
  rewrite !obj_get_toFirestore_doc by (apply (bool_decide_unpack _); vm_compute; exact I).
  cbn [ScoresFirestore.serializeScore obj_get String.eqb Ascii.eqb Bool.eqb].
  unfold scoreData. rewrite obj_get_set_eq, obj_get_set_ne by done.
  rewrite obj_get_set_eq. split; [reflexivity |]. split; [reflexivity |].
  cbn [w_log with_db]. by rewrite all_accepted_logged.
Qed.

End stamps.

Lemma coll_get_put_ne c id id' d : id <> id' -> coll_get (coll_put c id d) id' = coll_get c id'.
Proof.
  intros Hne. induction c as [|[i x] c IH]; simpl.
  - destruct (String.eqb id' id) eqn:E; [apply String.eqb_eq in E; congruence | done].
  - destruct (String.eqb id i) eqn:E; simpl.
    + apply String.eqb_eq in E; subst i.
      destruct (String.eqb id' id) eqn:E'; [apply String.eqb_eq in E'; congruence | done].
    + destruct (String.eqb id' i); [done | apply IH].
Qed.

(** A batch of [set] writes into one collection. *)
Lemma apply_sets db coll (ws : list (string * obj)) :
  Forall (fun w => storable (VObj (snd w)) = true) ws ->
  exists db',
    apply_writes db (map (fun w => WSet coll (fst w) (snd w)) ws) = Ok db' /\
    db' coll = fold_left (fun c w => coll_put c (fst w) (toFirestore_doc (snd w))) ws (db coll).
Proof.
  revert db. induction ws as [|[id data] ws IH]; intros db Hs; [by eexists |].
  apply Forall_cons in Hs as [Hd Hs]. cbn [map apply_writes apply_write fst snd].
  simpl in Hd. cbn [storable]. rewrite Hd.
  destruct (IH (db_put db coll (coll_put (db coll) id (toFirestore_doc data))) Hs)
    as (db' & -> & E).
  exists db'. split; [done |]. rewrite E, db_put_same. reflexivity.
Qed.

Lemma coll_get_fold_other (ws : list (string * obj)) c id :
  ~ In id (map fst ws) ->
  coll_get (fold_left (fun c w => coll_put c (fst w) (toFirestore_doc (snd w))) ws c) id
  = coll_get c id.
Proof.
  revert c. induction ws as [|[i d] ws IH]; intros c Hn; [done |].
  simpl. rewrite IH by (intros ?; apply Hn; by right).
  apply coll_get_put_ne. intros ->. apply Hn. by left.
Qed.

Lemma coll_get_fold (ws : list (string * obj)) c id data :
  NoDup (map fst ws) -> In (id, data) ws ->
  coll_get (fold_left (fun c w => coll_put c (fst w) (toFirestore_doc (snd w))) ws c) id
  = Some (toFirestore_doc data).
Proof.
  revert c. induction ws as [|[i d] ws IH]; intros c Hnd Hin; [done |].
  simpl in Hnd. apply NoDup_cons in Hnd as [Hi Hnd]. simpl.
  destruct Hin as [E | Hin].
  - injection E as -> ->. rewrite coll_get_fold_other.
    + apply coll_get_put_eq.
    + intros Hin. apply Hi. by apply list_elem_of_In.
  - by apply IH.
Qed.

Section stamps2.
Context `{JSBuiltins} `{Tables}.

Lemma message_data_fields d m :
  obj_get (message_data d m) "createdAt" = js_or (obj_get m "createdAt") d /\
  obj_get (message_data d m) "updatedAt" = obj_get m "updatedAt" /\
  obj_has (message_data d m) "updatedAt" = obj_has m "updatedAt".
Proof.
  unfold message_data, MemoryFirestore.serializeMessage.
  rewrite !obj_get_set_eq, !obj_get_set_ne, !obj_has_set_ne by done. done.
Qed.

Lemma message_data_keys d m : NoDup (keys m) -> NoDup (keys (message_data d m)).
Proof. intros Hnd. unfold message_data, MemoryFirestore.serializeMessage. by do 2 apply NoDup_obj_set. Qed.

Lemma message_data_storable d m :
  storable (VObj m) = true -> storable d = true -> storable (VObj (message_data d m)) = true.
Proof.
  intros Hm Hd. unfold message_data, MemoryFirestore.serializeMessage.
  assert (Hc : storable (js_or (obj_get m "createdAt") d) = true).
  { apply storable_js_or; [by apply storable_get | done]. }
  apply storable_set; [by apply storable_set |]. by rewrite obj_get_set_eq.
Qed.

Lemma message_data_defined d m :
  defined (VObj m) = true -> defined d = true -> defined (VObj (message_data d m)) = true.
Proof.
  intros Hm Hd. unfold message_data, MemoryFirestore.serializeMessage.
  assert (Hc : defined (js_or (obj_get m "createdAt") d) = true)
    by (by apply defined_get_or).
  apply defined_set; [by apply defined_set |]. by rewrite obj_get_set_eq.
Qed.


Lemma saveMessages_batch messages w :
  Forall (fun m => exists id, obj_get m "id" = VStr id) messages ->
  mapM (fun message =>
          id <- MemoryFirestore.doc_path (obj_get message "id") ;;
          ret (WSet TABLE_MESSAGES id
                 (MemoryFirestore.serializeMessage
                    (obj_set message "createdAt"
                       (js_or (obj_get message "createdAt") (VDate (Some (w_now w))))))))
    messages w
  = (Ok (map (fun m => WSet TABLE_MESSAGES (message_id m)
                         (message_data (VDate (Some (w_now w))) m)) messages), w).
Proof.
  induction 1 as [|m messages [id Hid] Hall IH]; [reflexivity |].
  cbn [mapM]. rewrite bind_run, bind_run. rewrite Hid. cbn [MemoryFirestore.doc_path ret].
  rewrite bind_run, IH. cbn [ret map].
  change (message_id m) with (match obj_get m "id" with VStr s => s | _ => "" end).
  rewrite Hid. reflexivity.
Qed.

Lemma saveMessages_stamps messages w :
  messages <> [] -> (length messages <= 500)%nat ->
  Forall (fun m => exists id, obj_get m "id" = VStr id) messages ->
  Forall (fun m => storable (VObj m) = true) messages ->
  Forall (fun m => defined (VObj m) = true) messages ->
  NoDup (map message_id messages) ->
  let d := VDate (Some (w_now w)) in
  exists w',
    run (MemoryFirestore.saveMessages messages) w = (Ok messages, w') /\
    commits (w_log w')
    = (commits (w_log w)
       ++ [map (fun m => WSet TABLE_MESSAGES (message_id m) (message_data d m)) messages])%list /\
    all_accepted (w_log w') = all_accepted (w_log w) /\
    forall m, In m messages -> NoDup (keys m) ->
      exists data,
        coll_get (w_db w' TABLE_MESSAGES) (message_id m) = Some data /\
        obj_get data "createdAt" = toFirestore (js_or (obj_get m "createdAt") d) /\
        obj_get data "updatedAt" = toFirestore (obj_get m "updatedAt") /\
        (obj_has m "updatedAt" = false -> obj_has data "updatedAt" = false).
Proof.
  intros Hne Hlen Hids Hst Hdef Hnd d. unfold run, MemoryFirestore.saveMessages.
  destruct messages as [|m0 ms]; [done |]. cbn [length Nat.eqb].
  rewrite bind_run, now_run, bind_run. fold d.
  pose proof (saveMessages_batch (m0 :: ms) w Hids) as Eb. fold d in Eb. rewrite Eb.
  rewrite bind_run, commit_run.
  set (batch := map (fun m => WSet TABLE_MESSAGES (message_id m) (message_data d m))
                  (m0 :: ms)).
  assert (Hacc : accepted (EvCommit batch) = true).
  { cbn [accepted]. apply andb_true_iff. split.
    - unfold batch. rewrite length_map. by apply Nat.leb_le.
    - apply forallb_forall. intros wr Hin. unfold batch in Hin.
      apply in_map_iff in Hin as (m & <- & Hin).
      cbn [write_data]. apply message_data_defined; [| done].
      rewrite Forall_forall in Hdef. apply Hdef. by apply list_elem_of_In. }
  set (ws := map (fun m => (message_id m, message_data d m)) (m0 :: ms)).
  assert (Ews : batch = map (fun w => WSet TABLE_MESSAGES (fst w) (snd w)) ws).
  { unfold batch, ws. by rewrite map_map. }
  rewrite Ews.
  destruct (apply_sets (w_db w) TABLE_MESSAGES ws) as (db' & -> & Edb).
  { unfold ws. apply Forall_fmap. eapply Forall_impl; [exact Hst |].
    intros m Hm. simpl. by apply message_data_storable. }
  eexists. split; [reflexivity |]. rewrite <- Ews. split; [| split].
  - cbn [w_log w_db with_db logged]. rewrite commits_app. reflexivity.
  - cbn [w_log with_db]. by apply all_accepted_logged.
  - cbn [w_log w_db with_db logged].
    intros m Hin Hk. exists (toFirestore_doc (message_data d m)).
    destruct (message_data_fields d m) as (Ec & Eu & Eh).
    rewrite Edb. split.
    + apply coll_get_fold.
      * unfold ws. by rewrite map_map.
      * unfold ws. apply in_map_iff. by exists m.
    + rewrite !obj_get_toFirestore_doc by (by apply message_data_keys).
      rewrite Ec, Eu. split; [done |]. split; [done |].
      intros Hno. rewrite obj_has_toFirestore_doc by (by apply message_data_keys).
      by rewrite Eh, Hno.
Qed.

End stamps2.

Lemma fold_left_pointwise {A B : Type} (f g : A -> B -> A) l a :
  (forall a b, f a b = g a b) -> fold_left f l a = fold_left g l a.
Proof.
  intros E. revert a. induction l as [|b l IH]; intros a; simpl; [done |].
  by rewrite E, IH.
Qed.

Section codec_facts.
Context `{JSBuiltins}.

Lemma storable_json v : storable (json_roundtrip v) = true.
Proof.
  induction v as [| | b | n | s | t | s n | xs IH | fs IH] using value_nested_ind;
    try reflexivity.
  - by destruct t.
  - simpl. induction IH as [|x xs Hx _ IHxs]; simpl; [done |]. by rewrite Hx, IHxs.
  - simpl. induction IH as [|[k x] fs Hx _ IHfs]; simpl; [done |].
    simpl in Hx. destruct x; simpl; rewrite ?IHfs; try reflexivity;
      try (simpl in Hx; rewrite Hx; reflexivity).
Qed.

Lemma storable_serializeValue v : storable v = true -> storable (serializeValue v) = true.
Proof.
  intros Hs. unfold serializeValue.
  destruct (instanceof_Date v); [done |].
  destruct (nullish v); [done |].
  destruct (typeof_object v); [apply storable_json | done].
Qed.

Lemma serializeRecord_map record :
  NoDup (keys record) ->
  StoreOperationsFirestore.serializeRecord record
  = map (fun kv => (fst kv, serializeValue (snd kv))) record.
Proof.
  intros Hnd. unfold StoreOperationsFirestore.serializeRecord.
  rewrite (fold_left_pointwise _
             (fun acc kv => obj_set acc (fst kv) (serializeValue (snd kv)))).
  - by rewrite fold_obj_set_map.
  - intros acc [k v]. unfold serializeValue. simpl.
    destruct (instanceof_Date v); [done |].
    destruct (nullish v); [done |]. by destruct (typeof_object v).
Qed.

Lemma serializeRecord_storable record :
  NoDup (keys record) -> storable (VObj record) = true ->
  storable (VObj (StoreOperationsFirestore.serializeRecord record)) = true.
Proof.
  intros Hnd Hs. rewrite serializeRecord_map by done. simpl in *.
  clear Hnd. induction record as [|[k v] r IH]; simpl in *; [done |].
  apply andb_true_iff in Hs as [Hv Hr]. rewrite storable_serializeValue by done. auto.
Qed.

Lemma defined_json v : defined (json_roundtrip v) = true.
Proof.
  induction v as [| | b | n | s | t | s n | xs IH | fs IH] using value_nested_ind;
    try reflexivity.
  - by destruct t.
  - simpl. induction IH as [|x xs Hx _ IHxs]; simpl; [done |]. by rewrite Hx, IHxs.
  - simpl. induction IH as [|[k x] fs Hx _ IHfs]; simpl; [done |].
    simpl in Hx. destruct x; simpl; rewrite ?IHfs; try reflexivity;
      try (simpl in Hx; rewrite Hx; reflexivity).
Qed.


Lemma defined_serializeValue v : defined (serializeValue v) = true.
Proof.
  unfold serializeValue.
  destruct v; try reflexivity; cbn [instanceof_Date nullish typeof_object];
    apply defined_json.
Qed.


Lemma serializeRecord_defined record :
  NoDup (keys record) ->
  defined (VObj (StoreOperationsFirestore.serializeRecord record)) = true.
Proof.
  intros Hnd. rewrite serializeRecord_map by done. simpl.
  clear Hnd. induction record as [|[k v] r IH]; simpl; [done |].
  by rewrite defined_serializeValue.
Qed.

End codec_facts.

Section stamps3.
Context `{JSBuiltins} `{Tables}.

Lemma createAISpan_stamps span w :
  NoDup (keys span) -> storable (VObj span) = true ->
  let d := VDate (Some (w_now w)) in
  let span' := obj_set span "createdAt" (js_or (obj_get span "createdAt") d) in
  let docid := match explicit_id span' with
               | Some id => id
               | None => "auto-" +:+ pretty (w_ids w)
               end in
  exists w' data,
    run (ObservabilityFirestore.createAISpan span) w = (Ok tt, w') /\
    coll_get (w_db w' TABLE_AI_SPANS) docid = Some data /\
    obj_get data "createdAt"
    = toFirestore (serializeValue (js_or (obj_get span "createdAt") d)) /\
    (truthy (obj_get span "createdAt") = false ->
     obj_get data "createdAt" = timestamp_of (w_now w)) /\
    obj_get data "updatedAt"
    = (if obj_has span "updatedAt"
       then toFirestore (serializeValue (obj_get span "updatedAt")) else VUndef) /\
    (obj_has span "updatedAt" = false -> obj_has data "updatedAt" = false) /\
    all_accepted (w_log w') = all_accepted (w_log w).
Proof.
  intros Hnd Hs d span' docid.
  assert (Hnd' : NoDup (keys span')) by (by apply NoDup_obj_set).
  assert (Hs' : storable (VObj span') = true).
  { apply storable_set; [done |]. apply storable_js_or; [by apply storable_get | done]. }
  assert (Hrun : exists w',
    run (ObservabilityFirestore.createAISpan span) w = (Ok tt, w') /\
    coll_get (w_db w' TABLE_AI_SPANS) docid
    = Some (toFirestore_doc (StoreOperationsFirestore.serializeRecord span')) /\
    all_accepted (w_log w') = all_accepted (w_log w)).
  { unfold run, ObservabilityFirestore.createAISpan, StoreOperationsFirestore.insert.
    rewrite bind_run, now_run. fold d. fold span'. unfold docid.
    destruct (explicit_id span') as [id|].
    - rewrite doc_set_run by (by apply serializeRecord_storable).
      eexists. split; [reflexivity |]. cbn [w_db with_db].
      rewrite db_put_same, coll_get_put_eq. split; [done |].
      cbn [w_log with_db]. apply all_accepted_logged.
      cbn [accepted write_data]. by apply serializeRecord_defined.
    - unfold coll_add. rewrite bind_run, auto_id_run.
      rewrite doc_set_run by (by apply serializeRecord_storable).
      eexists. split; [reflexivity |]. cbn [w_db with_db].
      rewrite db_put_same, coll_get_put_eq. split; [done |].
      cbn [w_log with_db]. rewrite all_accepted_logged; [done |].
      cbn [accepted write_data]. by apply serializeRecord_defined. }
  destruct Hrun as (w' & Erun & Eget & Eacc).
  exists w', (toFirestore_doc (StoreOperationsFirestore.serializeRecord span')).
  split; [done |]. split; [done |].
  assert (Hk : NoDup (keys (StoreOperationsFirestore.serializeRecord span'))).
  { rewrite serializeRecord_map by done. by rewrite keys_map. }
  rewrite !obj_get_toFirestore_doc, obj_has_toFirestore_doc by done.
  rewrite serializeRecord_map by done. rewrite !obj_get_map, obj_has_map.
  unfold span'. rewrite obj_has_set_eq, obj_get_set_eq.
  rewrite obj_has_set_ne, obj_get_set_ne by done.
  split; [done |]. split.
  - intros Hf. unfold js_or. rewrite Hf. reflexivity.
  - split; [by destruct (obj_has span "updatedAt") |].
    split; [| exact Eacc]. intros ->. reflexivity.
Qed.

(** C7 (as amended).  For a record that holds no undefined value where its
    serializer writes one (a thread with its title and resourceId, a score
    with its eight plain fields), and for at most 500 messages at a time:
    saving a thread or a resource stores createdAt (the caller's, or the
    current time when the caller supplied none) and stores the current time
    as updatedAt.  Saving a score stores the current time as both.  Saving
    messages and creating a span store createdAt in the same way, but do not
    assign updatedAt: what is stored is what the caller supplied, and
    nothing when the caller supplied nothing.  Each of these writes is one
    that a client left at its defaults and the backend accept. *)
Theorem writes_stamp_creation_and_update_times :
  (forall thread w id,
     obj_get thread "id" = VStr id -> storable (VObj thread) = true ->
     defined (VObj thread) = true ->
     defined (obj_get thread "resourceId") = true ->
     defined (obj_get thread "title") = true ->
     let d := VDate (Some (w_now w)) in
     let createdAt := js_or (obj_get thread "createdAt") d in
     exists w' data,
       run (MemoryFirestore.saveThread thread) w
       = (Ok (obj_set (obj_set thread "createdAt" createdAt) "updatedAt" d), w') /\
       coll_get (w_db w' TABLE_THREADS) id = Some data /\
       obj_get data "createdAt" = toFirestore createdAt /\
       obj_get data "updatedAt" = timestamp_of (w_now w) /\
       all_accepted (w_log w') = all_accepted (w_log w)) /\
  (forall resource w id,
     obj_get resource "id" = VStr id -> storable (VObj resource) = true ->
     defined (VObj resource) = true ->
     let d := VDate (Some (w_now w)) in
     let createdAt := js_or (obj_get resource "createdAt") d in
     exists w' data,
       run (MemoryFirestore.saveResource resource) w
       = (Ok (obj_set (obj_set resource "createdAt" createdAt) "updatedAt" d), w') /\
       coll_get (w_db w' TABLE_RESOURCES) id = Some data /\
       obj_get data "createdAt" = toFirestore createdAt /\
       obj_get data "updatedAt" = timestamp_of (w_now w) /\
       all_accepted (w_log w') = all_accepted (w_log w)) /\
  (forall score w,
     storable (VObj score) = true -> defined (VObj score) = true ->
     Forall (fun k => defined (obj_get score k) = true)
       ["scorerId"; "entityId"; "entityType"; "source"; "runId"; "traceId"; "spanId";
        "score"] ->
     let id := "auto-" +:+ pretty (w_ids w) in
     let d := VDate (Some (w_now w)) in
     exists w' data,
       run (ScoresFirestore.saveScore score) w
       = (Ok (obj_set (obj_set (obj_set score "id" (VStr id)) "createdAt" d)
                "updatedAt" d), w') /\
       coll_get (w_db w' TABLE_SCORERS) id = Some data /\
       obj_get data "createdAt" = timestamp_of (w_now w) /\
       obj_get data "updatedAt" = timestamp_of (w_now w) /\
       all_accepted (w_log w') = all_accepted (w_log w)) /\
  (forall messages w,
     messages <> [] -> (length messages <= 500)%nat ->
     Forall (fun m => exists id, obj_get m "id" = VStr id) messages ->
     Forall (fun m => storable (VObj m) = true) messages ->
     Forall (fun m => defined (VObj m) = true) messages ->
     NoDup (map message_id messages) ->
     let d := VDate (Some (w_now w)) in
     exists w',
       run (MemoryFirestore.saveMessages messages) w = (Ok messages, w') /\
       commits (w_log w')
       = (commits (w_log w)
          ++ [map (fun m => WSet TABLE_MESSAGES (message_id m) (message_data d m))
                messages])%list /\
       all_accepted (w_log w') = all_accepted (w_log w) /\
       forall m, In m messages -> NoDup (keys m) ->
         exists data,
           coll_get (w_db w' TABLE_MESSAGES) (message_id m) = Some data /\
           obj_get data "createdAt" = toFirestore (js_or (obj_get m "createdAt") d) /\
           obj_get data "updatedAt" = toFirestore (obj_get m "updatedAt") /\
           (obj_has m "updatedAt" = false -> obj_has data "updatedAt" = false)) /\
  (forall span w,
     NoDup (keys span) -> storable (VObj span) = true ->
     let d := VDate (Some (w_now w)) in
     let span' := obj_set span "createdAt" (js_or (obj_get span "createdAt") d) in
     let docid := match explicit_id span' with
                  | Some id => id
                  | None => "auto-" +:+ pretty (w_ids w)
                  end in
     exists w' data,
       run (ObservabilityFirestore.createAISpan span) w = (Ok tt, w') /\
       coll_get (w_db w' TABLE_AI_SPANS) docid = Some data /\
       obj_get data "createdAt"
       = toFirestore (serializeValue (js_or (obj_get span "createdAt") d)) /\
       (truthy (obj_get span "createdAt") = false ->
        obj_get data "createdAt" = timestamp_of (w_now w)) /\
       obj_get data "updatedAt"
       = (if obj_has span "updatedAt"
          then toFirestore (serializeValue (obj_get span "updatedAt")) else VUndef) /\
       (obj_has span "updatedAt" = false -> obj_has data "updatedAt" = false) /\
       all_accepted (w_log w') = all_accepted (w_log w)).
Proof.
  split; [exact saveThread_stamps |].
  split; [exact saveResource_stamps |].
  split; [exact saveScore_stamps |].
  split; [exact saveMessages_stamps | exact createAISpan_stamps].
Qed.

End stamps3.

(** ** The codec of generic records *)

Lemma toFirestore_plain v : plain v = true -> toFirestore v = v.
Proof.
  induction v as [| | b | n | s | t | s n | xs IH | fs IH] using value_nested_ind;
    try reflexivity; try discriminate.
  - simpl. intros Hp. f_equal.
    induction IH as [|x xs Hx _ IHxs]; [done |].
    simpl in Hp. apply andb_true_iff in Hp as [Hpx Hpxs].
    rewrite (Hx Hpx), (IHxs Hpxs). by destruct x.
  - simpl. intros Hp. f_equal.
    induction IH as [|[k x] fs Hx _ IHfs]; [done |].
    simpl in Hp, Hx. apply andb_true_iff in Hp as [Hpx Hpfs].
    rewrite (Hx Hpx), (IHfs Hpfs). by destruct x.
Qed.

Lemma toFirestore_doc_defined (o : obj) :
  Forall (fun kv => snd kv <> VUndef) o ->
  toFirestore_doc o = map (fun kv => (fst kv, toFirestore (snd kv))) o.
Proof.
  induction 1 as [|[k x] o Hx _ IH]; [done |].
  rewrite toFirestore_doc_cons, IH. simpl in *. by destruct x.
Qed.

Lemma forallb_Forall_true {A : Type} (f : A -> bool) l :
  forallb f l = true -> Forall (fun x => f x = true) l.
Proof.
  induction l as [|x l IH]; simpl; [constructor |].
  intros E. apply andb_true_iff in E as [Hx Hl]. constructor; auto.
Qed.

Section codec.
Context `{JSBuiltins}.

Lemma json_plain v : plain v = true -> json_roundtrip v = v.
Proof.
  induction v as [| | b | n | s | t | s n | xs IH | fs IH] using value_nested_ind;
    try reflexivity; try discriminate.
  - simpl. intros Hp. f_equal.
    induction IH as [|x xs Hx _ IHxs]; [done |].
    simpl in Hp. apply andb_true_iff in Hp as [Hpx Hpxs].
    simpl. by rewrite (Hx Hpx), (IHxs Hpxs).
  - simpl. intros Hp. f_equal.
    induction IH as [|[k x] fs Hx _ IHfs]; [done |].
    simpl in Hp, Hx. apply andb_true_iff in Hp as [Hpx Hpfs].
    rewrite (Hx Hpx), (IHfs Hpfs). by destruct x.
Qed.

Lemma deserializeRecord_map data :
  NoDup (keys data) ->
  StoreOperationsFirestore.deserializeRecord (Some data)
  = map (fun kv => (fst kv, deserializeValue (snd kv))) data.
Proof.
  intros Hnd. unfold StoreOperationsFirestore.deserializeRecord.
  rewrite (fold_left_pointwise _
             (fun acc kv => obj_set acc (fst kv) (deserializeValue (snd kv)))).
  - by rewrite fold_obj_set_map.
  - intros acc [k v]. unfold deserializeValue. simpl.
    by destruct (truthy v && typeof_object v && has_prop v "_seconds").
Qed.

Lemma serializeValue_supported v : supported v = true -> serializeValue v = v.
Proof.
  intros Hs.
  destruct v as [| | b | n | s | [ms|] | s n | xs | fs]; try discriminate; try reflexivity.
  apply andb_true_iff in Hs as [Hp _].
  unfold serializeValue. simpl instanceof_Date. simpl nullish. simpl typeof_object.
  cbv iota. by apply json_plain.
Qed.

Lemma deserializeValue_supported v : supported v = true -> deserializeValue v = v.
Proof.
  intros Hs.
  destruct v as [| | b | n | s | [ms|] | s n | xs | fs]; try discriminate; try reflexivity;
    try (unfold deserializeValue; simpl; by destruct (negb _)).
  apply andb_true_iff in Hs as [_ Hn]. apply negb_true_iff in Hn.
  unfold deserializeValue. simpl. by rewrite Hn.
Qed.

Lemma deserializeValue_stored v :
  supported v = true -> deserializeValue (toFirestore v) = truncate_to_seconds v.
Proof.
  intros Hs.
  destruct v as [| | b | n | s | [ms|] | s n | xs | fs]; try discriminate; try reflexivity;
    try (unfold deserializeValue; simpl; by destruct (negb _)).
  pose proof Hs as Hs'. apply andb_true_iff in Hs' as [Hp _].
  rewrite (toFirestore_plain _ Hp). by apply deserializeValue_supported.
Qed.

Lemma map_fields_id (f : value -> value) (x : obj) :
  Forall (fun kv => f (snd kv) = snd kv) x ->
  map (fun kv => (fst kv, f (snd kv))) x = x.
Proof. induction 1 as [|[k v] x Hv _ IH]; simpl in *; [done |]. by rewrite Hv, IH. Qed.

(** C5 (as amended).  For every record whose field values are strings,
    numbers, valid dates, nulls or nested plain objects without a [_seconds]
    key (plain: made of nulls, booleans, numbers, strings, arrays and
    objects of these), decoding the encoded record gives the record back;
    and decoding what the store keeps of the encoded record gives it back
    with each date cut down to whole seconds. *)
Theorem codec_round_trip (x : obj) :
  NoDup (keys x) ->
  forallb (fun kv => supported (snd kv)) x = true ->
  StoreOperationsFirestore.deserializeRecord
    (Some (StoreOperationsFirestore.serializeRecord x)) = x /\
  StoreOperationsFirestore.deserializeRecord
    (Some (toFirestore_doc (StoreOperationsFirestore.serializeRecord x)))
  = map (fun kv => (fst kv, truncate_to_seconds (snd kv))) x.
Proof.
  intros Hnd Hsup. apply forallb_Forall_true in Hsup.
  assert (Hser : StoreOperationsFirestore.serializeRecord x = x).
  { rewrite serializeRecord_map by done. apply map_fields_id.
    eapply Forall_impl; [exact Hsup |]. intros [k v] Hv.
    by apply serializeValue_supported. }
  rewrite Hser. split.
  - rewrite deserializeRecord_map by done. apply map_fields_id.
    eapply Forall_impl; [exact Hsup |]. intros [k v] Hv.
    by apply deserializeValue_supported.
  - rewrite toFirestore_doc_defined.
    2:{ eapply Forall_impl; [exact Hsup |]. intros [k v] Hv E. simpl in *. by subst. }
    rewrite deserializeRecord_map by (by rewrite keys_map).
    rewrite map_map. simpl. clear Hnd Hser.
    induction Hsup as [|[k v] x Hv _ IH]; [done |]. simpl.
    rewrite IH. by rewrite deserializeValue_stored.
Qed.

End codec.

(** ** Merging into a stored document *)

Lemma merge_fix_fold l acc :
  (fix go (acc : obj) (l : list (string * value)) : obj :=
     match l with
     | [] => acc
     | (k, v) :: l' => go (obj_set acc k (merge_value (obj_get acc k) v)) l'
     end) acc l
  = merge_obj acc l.
Proof.
  revert acc. induction l as [|[k v] l IH]; intros acc; [reflexivity |].
  unfold merge_obj in *. cbn [fold_left fst snd]. rewrite <- IH. reflexivity.
Qed.

Lemma merge_value_obj old kv fs :
  merge_value old (VObj (kv :: fs)) = VObj (merge_obj (as_obj old) (kv :: fs)).
Proof.
  change (merge_value old (VObj (kv :: fs)))
    with (VObj ((fix go (acc : obj) (l : list (string * value)) : obj :=
                   match l with
                   | [] => acc
                   | (k, v) :: l' => go (obj_set acc k (merge_value (obj_get acc k) v)) l'
                   end) (as_obj old) (kv :: fs))).
  by rewrite merge_fix_fold.
Qed.


Lemma merge_obj_cons old k v new :
  merge_obj old ((k, v) :: new) = merge_obj (obj_set old k (merge_value (obj_get old k) v)) new.
Proof. reflexivity. Qed.

Lemma merge_obj_get old new t :
  NoDup (keys new) ->
  obj_get (merge_obj old new) t
  = if obj_has new t then merge_value (obj_get old t) (obj_get new t) else obj_get old t.
Proof.
  revert old. induction new as [|[k v] new IH]; intros old Hnd; [done |].
  simpl in Hnd. apply NoDup_cons in Hnd as [Hk Hnd].
  rewrite merge_obj_cons, IH by done. simpl.
  destruct (String.eqb t k) eqn:E.
  - apply String.eqb_eq in E. subst k.
    destruct (obj_has new t) eqn:Eh.
    + apply obj_has_In, list_elem_of_In in Eh. done.
    + by rewrite obj_get_set_eq.
  - apply String.eqb_neq in E. rewrite obj_get_set_ne by done. reflexivity.
Qed.


Lemma obj_get_In (o : obj) k v : NoDup (keys o) -> In (k, v) o -> obj_get o k = v.
Proof.
  induction o as [|[k' v'] o IH]; intros Hnd Hin; [done |].
  simpl in Hnd. apply NoDup_cons in Hnd as [Hk Hnd]. simpl.
  destruct Hin as [E | Hin].
  - injection E as -> ->. by rewrite String.eqb_refl.
  - destruct (String.eqb k k') eqn:E; [| by apply IH].
    apply String.eqb_eq in E. subst k'. exfalso. apply Hk.
    apply list_elem_of_In. apply in_map_iff. by exists (k, v).
Qed.


Lemma wf_stored_obj fs :
  wf_stored (VObj fs) = true ->
  Forall (fun kv => wf_stored (snd kv) = true) fs /\ NoDup (keys fs).
Proof.
  simpl. intros E. apply andb_true_iff in E as [Hf Hn]. split.
  - apply forallb_Forall_true in Hf. eapply Forall_impl; [exact Hf |]. by intros [k x].
  - apply bool_decide_eq_true in Hn. exact Hn.
Qed.

Lemma wf_stored_get fs k :
  wf_stored (VObj fs) = true -> obj_has fs k = true -> wf_stored (obj_get fs k) = true.
Proof.
  intros Hw. apply wf_stored_obj in Hw as [Hf _].
  induction Hf as [|[k' x] fs Hx _ IH]; simpl; [done |].
  destruct (String.eqb k k'); auto.
Qed.

Lemma toFirestore_wf v : wf_stored v = true -> toFirestore v = v.
Proof.
  induction v as [| | b | n | s | t | s n | xs IH | fs IH] using value_nested_ind;
    try reflexivity; try discriminate.
  - simpl. intros Hp. f_equal.
    induction IH as [|x xs Hx _ IHxs]; [done |].
    simpl in Hp. apply andb_true_iff in Hp as [Hpx Hpxs].
    rewrite (Hx Hpx), (IHxs Hpxs). by destruct x.
  - intros Hw. apply wf_stored_obj in Hw as [Hf _]. simpl. f_equal.
    induction IH as [|[k x] fs Hx _ IHfs]; [done |].
    apply Forall_cons in Hf as [Hwx Hf]. simpl in Hx, Hwx.
    rewrite (Hx Hwx), (IHfs Hf). by destruct x.
Qed.

Lemma storable_wf v : wf_stored v = true -> storable v = true.
Proof.
  induction v as [| | b | n | s | t | s n | xs IH | fs IH] using value_nested_ind;
    try reflexivity; try discriminate.
  - simpl. intros Hp. induction IH as [|x xs Hx _ IHxs]; [done |].
    simpl in *. apply andb_true_iff in Hp as [Hpx Hpxs]. by rewrite Hx, IHxs.
  - intros Hw. apply wf_stored_obj in Hw as [Hf _]. simpl.
    induction IH as [|[k x] fs Hx _ IHfs]; [done |].
    apply Forall_cons in Hf as [Hwx Hf]. simpl in *. by rewrite Hx, IHfs.
Qed.


Lemma merge_value_fresh old v :
  as_obj old = [] -> wf_stored v = true -> merge_value old v = v.
Proof.
  revert old.
  induction v as [| | b | n | s | t | s n | xs IH | fs IH] using value_nested_ind;
    intros old Ho Hw; try reflexivity.
  destruct fs as [|kv fs]; [done |].
  rewrite merge_value_obj, Ho. f_equal.
  apply wf_stored_obj in Hw as [Hf Hnd].
  set (o := kv :: fs) in *.
  assert (G : forall l acc, NoDup (keys l) -> (forall x, In x l -> In x o) ->
               (forall k, In k (keys l) -> obj_has acc k = false) ->
               merge_obj acc l = (acc ++ l)%list).
  { induction l as [|[k x] l IHl]; intros acc Hndl Hsub Hacc; [by rewrite app_nil_r |].
    simpl in Hndl. apply NoDup_cons in Hndl as [Hk Hndl].
    rewrite merge_obj_cons.
    assert (Hin : In (k, x) o) by (apply Hsub; by left).
    assert (Hm : merge_value (obj_get acc k) x = x).
    { rewrite Forall_forall in IH. apply (IH (k, x)); [by apply list_elem_of_In | |].
      - rewrite obj_get_absent; [done |]. apply Hacc. by left.
      - rewrite Forall_forall in Hf. apply (Hf (k, x)). by apply list_elem_of_In. }
    rewrite Hm, obj_set_absent by (apply Hacc; by left).
    rewrite IHl; [by rewrite <- app_assoc | done | |].
    - intros y Hy. apply Hsub. by right.
    - intros k' Hk'. rewrite obj_has_app, Hacc by (by right). simpl.
      destruct (String.eqb k' k) eqn:E; [| done].
      apply String.eqb_eq in E. subst. apply list_elem_of_In in Hk'. done. }
  apply (G o []); [done | done | done].
Qed.

Lemma NoDup_keys_toFirestore_doc o : NoDup (keys o) -> NoDup (keys (toFirestore_doc o)).
Proof.
  induction o as [|[k x] o IH]; intros Hnd; [done |].
  simpl in Hnd. apply NoDup_cons in Hnd as [Hk Hnd]. rewrite toFirestore_doc_cons.
  assert (Hc : NoDup (keys ((k, toFirestore x) :: toFirestore_doc o))).
  { simpl. apply NoDup_cons. split; [| by apply IH].
    intros Hin. apply Hk. apply list_elem_of_In. apply obj_has_In.
    apply toFirestore_doc_has. apply obj_has_In. by apply list_elem_of_In. }
  destruct x; auto.
Qed.


Lemma wf_stored_set o k v :
  wf_stored (VObj o) = true -> wf_stored v = true -> wf_stored (VObj (obj_set o k v)) = true.
Proof.
  intros Ho Hv. pose proof (wf_stored_obj _ Ho) as [_ Hnd].
  simpl in Ho. apply andb_true_iff in Ho as [Hf _]. simpl.
  apply andb_true_iff. split.
  - clear Hnd. induction o as [|[k' x] o IH]; simpl; [by rewrite Hv |].
    simpl in Hf. apply andb_true_iff in Hf as [Hx Hf].
    destruct (String.eqb k k'); simpl; rewrite ?Hv, ?Hx, ?Hf; auto.
  - apply bool_decide_eq_true. by apply (NoDup_obj_set o k v).
Qed.

Lemma doc_set_merge_run coll id data w :
  storable (VObj data) = true ->
  doc_set_merge coll id data w =
  (Ok tt,
   with_db (db_put (w_db w) coll
              (coll_put (w_db w coll) id
                 (merge_obj (match coll_get (w_db w coll) id with
                             | Some d => d
                             | None => []
                             end) (toFirestore_doc data))))
     (logged (EvWrite (WSetMerge coll id data)) w)).
Proof.
  intros Hs. unfold doc_set_merge. rewrite write_run. cbn [apply_write]. by rewrite Hs.
Qed.

Section workflow.
Context `{JSBuiltins} `{Tables}.


End workflow.

(** * More of the adapter

    The table operations, the whole-list reads, the workflow runs and the
    batch update of spans, and how the operations of each domain compose. *)

(** ** Collections, objects and lists *)

Lemma matching_collection db t : matching db (collection t) = db t.
Proof.
  unfold matching, collection, matches. simpl.
  induction (db t) as [|x l IH]; simpl; [done | by rewrite IH].
Qed.

Lemma run_query_first db t n :
  run_query db (fs_limit (collection t) (Some (Z.of_nat n))) = Ok (take n (db t)).
Proof.
  assert (Ho : ordered db (fs_limit (collection t) (Some (Z.of_nat n))) = db t).
  { unfold ordered. cbn [q_order fs_limit collection].
    change (matching db _) with (matching db (collection t)).
    apply matching_collection. }
  unfold run_query. rewrite Ho. cbn [q_where q_offset q_limit fs_limit collection forallb negb].
  cbn [Z.ltb Z.compare orb].
  destruct (Z.of_nat n <? 0) eqn:E; [apply Z.ltb_lt in E; lia |].
  unfold window. change (Z.to_nat 0) with 0%nat. by rewrite drop_0, Nat2Z.id.
Qed.

(** Deleting the first [k] documents of a collection, in their order. *)
Lemma apply_deletes_first db t k :
  exists db',
    apply_writes db (map (fun doc => WDelete t (fst doc)) (take k (db t))) = Ok db' /\
    db' t = drop k (db t) /\ forall t', t' <> t -> db' t' = db t'.
Proof.
  revert db. induction k as [|k IH]; intros db.
  - simpl. eexists. split; [done |]. split; [by rewrite drop_0 | done].
  - destruct (db t) as [|[id d] c] eqn:E.
    + simpl. exists db. by rewrite E.
    + simpl. rewrite E. simpl. rewrite String.eqb_refl.
      destruct (IH (db_put db t c)) as (db' & Ha & Hb & Hc).
      rewrite db_put_same in Ha, Hb.
      exists db'. split; [exact Ha |]. split; [exact Hb |].
      intros t' Hne. rewrite (Hc t' Hne). unfold db_put.
      destruct (String.eqb t' t) eqn:E'; [apply String.eqb_eq in E'; congruence | done].
Qed.

Lemma queries_app l1 l2 : queries (l1 ++ l2) = (queries l1 ++ queries l2)%list.
Proof. unfold queries. apply omap_app. Qed.

Lemma write_counts_app l1 l2 :
  write_counts (l1 ++ l2) = (write_counts l1 ++ write_counts l2)%list.
Proof. unfold write_counts. by rewrite commits_app, map_app. Qed.

Lemma round_sizes_small b n : (n < b)%nat ->
  round_sizes b n = if (n =? 0)%nat then [] else [n].
Proof.
  intros Hlt. unfold round_sizes.
  rewrite Nat.div_small, Nat.mod_small by done. reflexivity.
Qed.

Lemma round_sizes_step b n : (0 < b)%nat -> (b <= n)%nat ->
  round_sizes b n = b :: round_sizes b (n - b) /\ (n / b = S ((n - b) / b))%nat.
Proof.
  intros Hb Hle. unfold round_sizes.
  assert (E : n = (n - b + 1 * b)%nat) by lia.
  assert (Hd : (n / b = S ((n - b) / b))%nat).
  { rewrite E at 1. rewrite Nat.div_add by lia. lia. }
  assert (Hm : (n mod b = (n - b) mod b)%nat).
  { rewrite E at 1. by rewrite Nat.Div0.mod_add. }
  rewrite Hd, Hm. done.
Qed.

Lemma coll_get_remove_eq c id :
  NoDup (map fst c) -> coll_get (coll_remove c id) id = None.
Proof.
  induction c as [|[id' d] c IH]; simpl; [done |].
  intros Hnd. apply NoDup_cons in Hnd as [Hni Hnd].
  destruct (String.eqb id id') eqn:E.
  - apply String.eqb_eq in E. subst id'.
    clear IH. induction c as [|[i2 d2] c IH]; simpl; [done |].
    destruct (String.eqb id i2) eqn:E2.
    + apply String.eqb_eq in E2. subst. exfalso. apply Hni. simpl. by left.
    + apply IH.
      * intros Hin. apply Hni. simpl. by right.
      * by apply NoDup_cons in Hnd as [_ ?].
  - simpl. rewrite E. by apply IH.
Qed.

Lemma coll_get_remove_ne c id id' :
  id <> id' -> coll_get (coll_remove c id) id' = coll_get c id'.
Proof.
  intros Hne. induction c as [|[i d] c IH]; simpl; [done |].
  destruct (String.eqb id i) eqn:E.
  - apply String.eqb_eq in E. subst i.
    destruct (String.eqb id' id) eqn:E'; [apply String.eqb_eq in E'; congruence | done].
  - simpl. destruct (String.eqb id' i); [done | exact IH].
Qed.

Lemma db_put_other db coll c t : t <> coll -> db_put db coll c t = db t.
Proof.
  intros Hne. unfold db_put.
  destruct (String.eqb t coll) eqn:E; [apply String.eqb_eq in E; congruence | done].
Qed.

Lemma apply_deletes_run db t ids :
  exists db',
    apply_writes db (map (fun id => WDelete t id) ids) = Ok db' /\
    db' t = remove_all ids (db t) /\ forall t', t' <> t -> db' t' = db t'.
Proof.
  revert db. induction ids as [|i ids IH]; intros db; simpl.
  - by exists db.
  - destruct (IH (db_put db t (coll_remove (db t) i))) as (db' & Ha & Hb & Hc).
    exists db'. split; [exact Ha |]. rewrite db_put_same in Hb. split; [exact Hb |].
    intros t' Hne. rewrite (Hc t' Hne). by apply db_put_other.
Qed.

Lemma remove_all_cons_notin ids i d c :
  ~ In i ids -> remove_all ids ((i, d) :: c) = (i, d) :: remove_all ids c.
Proof.
  revert c. induction ids as [|j ids IH]; intros c Hni; [done |].
  unfold remove_all in *. cbn [fold_left coll_remove].
  destruct (String.eqb j i) eqn:E.
  - apply String.eqb_eq in E. subst. exfalso. apply Hni. by left.
  - apply IH. intros Hin. apply Hni. by right.
Qed.

Lemma remove_all_filter (P : string * obj -> bool) c :
  NoDup (map fst c) ->
  remove_all (map fst (List.filter P c)) c = List.filter (fun kd => negb (P kd)) c.
Proof.
  induction c as [|[i d] c IH]; [done |].
  intros Hnd. apply NoDup_cons in Hnd as [Hni Hnd]. cbn [List.filter].
  destruct (P (i, d)) eqn:E; cbn [negb map fst].
  - unfold remove_all. cbn [fold_left coll_remove]. rewrite String.eqb_refl.
    by apply IH.
  - rewrite remove_all_cons_notin.
    + by rewrite IH.
    + intros Hin. apply Hni. apply list_elem_of_In.
      apply in_map_iff in Hin as ([i' d'] & <- & Hin).
      apply filter_In in Hin as [Hin _]. apply in_map_iff. by exists (i', d').
Qed.

Lemma NoDup_coll_remove c id : NoDup (map fst c) -> NoDup (map fst (coll_remove c id)).
Proof.
  induction c as [|[i d] c IH]; simpl; [done |].
  intros Hnd. apply NoDup_cons in Hnd as [Hni Hnd].
  destruct (String.eqb id i); [done |]. simpl. apply NoDup_cons. split; [| by apply IH].
  intros Hin. apply Hni. clear -Hin.
  induction c as [|[j e] c IH]; simpl in *; [by apply elem_of_nil in Hin |].
  destruct (String.eqb id j).
  - by apply list_elem_of_further.
  - simpl in Hin. apply elem_of_cons in Hin as [->|Hin]; [apply list_elem_of_here |].
    apply list_elem_of_further. by apply IH.
Qed.

Lemma coll_get_remove_all ids c id :
  NoDup (map fst c) ->
  coll_get (remove_all ids c) id = if bool_decide (id ∈ ids) then None else coll_get c id.
Proof.
  revert c. induction ids as [|i ids IH]; intros c Hnd; [done |].
  unfold remove_all in *. cbn [fold_left]. rewrite IH by by apply NoDup_coll_remove.
  destruct (decide (id = i)) as [->|Hne].
  - rewrite (bool_decide_eq_true_2 (i ∈ i :: ids)) by apply list_elem_of_here.
    destruct (bool_decide (i ∈ ids)); [done | by apply coll_get_remove_eq].
  - assert (Hiff : bool_decide (id ∈ i :: ids) = bool_decide (id ∈ ids)).
    { apply bool_decide_ext. rewrite elem_of_cons. tauto. }
    rewrite Hiff. destruct (bool_decide (id ∈ ids)); [done |].
    apply coll_get_remove_ne. congruence.
Qed.

Lemma remove_all_app ids1 ids2 c :
  remove_all (ids1 ++ ids2) c = remove_all ids2 (remove_all ids1 c).
Proof. unfold remove_all. apply fold_left_app. Qed.

Lemma coll_put_fresh c id d : coll_get c id = None -> coll_put c id d = (c ++ [(id, d)])%list.
Proof.
  induction c as [|[i e] c IH]; simpl; [done |].
  destruct (String.eqb id i); [discriminate |]. intros Hn. by rewrite IH.
Qed.

Lemma forM_app {A : Type} (l1 l2 : list A) (f : A -> M unit) w :
  forM_ (l1 ++ l2) f w =
  match forM_ l1 f w with
  | (Ok _, w1) => forM_ l2 f w1
  | (Throw e, w1) => (Throw e, w1)
  end.
Proof.
  revert w. induction l1 as [|x l1 IH]; intros w; [done |].
  cbn [app forM_]. rewrite !bind_run. destruct (f x w) as [[[]|e] w0]; [apply IH | done].
Qed.

Lemma coll_get_In c id d : coll_get c id = Some d -> In (id, d) c.
Proof.
  induction c as [|[i e] c IH]; simpl; [discriminate |].
  destruct (String.eqb_spec id i) as [->|Hne].
  - intros [= ->]. by left.
  - intros E. right. by apply IH.
Qed.

Lemma obj_set_set o k v v' : obj_set (obj_set o k v) k v' = obj_set o k v'.
Proof.
  induction o as [|[k0 x] o IH]; simpl.
  - by rewrite String.eqb_refl.
  - destruct (String.eqb k k0) eqn:E; simpl; rewrite ?String.eqb_refl, ?E; [done |].
    by rewrite IH.
Qed.

Lemma map_obj_set (f : value -> value) o k v :
  map (fun kv => (fst kv, f (snd kv))) (obj_set o k v)
  = obj_set (map (fun kv => (fst kv, f (snd kv))) o) k (f v).
Proof.
  induction o as [|[k0 x] o IH]; simpl; [done |].
  destruct (String.eqb k k0); simpl; [done | by rewrite IH].
Qed.

(** Rewriting a field of a record whose other fields [f] leaves alone. *)
Lemma obj_set_map_others (f : value -> value) (o : obj) k v :
  NoDup (keys o) ->
  Forall (fun kv => fst kv = k \/ f (snd kv) = snd kv) o ->
  obj_set (map (fun kv => (fst kv, f (snd kv))) o) k v = obj_set o k v.
Proof.
  induction o as [|[k0 x] o IH]; simpl; [done |].
  intros Hnd Hall. apply NoDup_cons in Hnd as [Hni Hnd].
  apply Forall_cons in Hall as [Hx Hall]. simpl in Hx.
  destruct (String.eqb_spec k k0) as [->|Hne].
  - f_equal. apply map_fields_id. rewrite Forall_forall in Hall |- *.
    intros [k1 y] Hin. destruct (Hall _ Hin) as [E|E]; [| exact E].
    simpl in E. subst k1. exfalso. apply Hni.
    apply list_elem_of_In. apply in_map_iff. exists (k0, y).
    split; [done |]. by apply list_elem_of_In.
  - destruct Hx as [E|E]; [congruence |]. rewrite E. f_equal. by apply IH.
Qed.

Lemma Forall_obj_set (P : value -> Prop) (o : obj) k v :
  NoDup (keys o) -> P v ->
  Forall (fun kv => fst kv = k \/ P (snd kv)) o ->
  Forall (fun kv => P (snd kv)) (obj_set o k v).
Proof.
  intros Hnd Hv. induction o as [|[k0 x] o IH]; intros Ho; simpl.
  - by constructor.
  - apply NoDup_cons in Hnd as [Hni Hnd]. apply Forall_cons in Ho as [Hx Ho].
    destruct (String.eqb_spec k k0) as [->|Hne].
    + constructor; [done |]. rewrite Forall_forall in Ho |- *.
      intros [k1 y] Hin. destruct (Ho _ Hin) as [E|E]; [| exact E].
      simpl in E. subst k1. exfalso. apply Hni.
      apply list_elem_of_In. apply in_map_iff. exists (k0, y).
      split; [done |]. by apply list_elem_of_In.
    + constructor; [| by apply IH]. simpl in *. destruct Hx; [congruence | done].
Qed.

Lemma doc_update_run coll id updates d w :
  storable (VObj updates) = true -> coll_get (w_db w coll) id = Some d ->
  doc_update coll id updates w =
  (Ok tt,
   with_db (db_put (w_db w) coll
              (coll_put (w_db w coll) id (obj_spread d (toFirestore_doc updates))))
     (logged (EvWrite (WUpdate coll id updates)) w)).
Proof.
  intros Hs Hd. unfold doc_update. rewrite write_run. cbn [apply_write].
  by rewrite Hs, Hd.
Qed.

Lemma obj_spread_nil (o : obj) : NoDup (keys o) -> obj_spread [] o = o.
Proof.
  intros Hnd. unfold obj_spread.
  rewrite (fold_obj_set_map (fun v => v) o []) by done.
  simpl. apply (map_fields_id (fun v => v)). by apply Forall_forall.
Qed.

Lemma foldM_pure {A B : Type} (f : B -> A -> M B) (g : B -> A -> B) l b w :
  (forall b x w, f b x w = (Ok (g b x), w)) ->
  foldM f l b w = (Ok (fold_left g l b), w).
Proof.
  intros Hf. revert b. induction l as [|x l IH]; intros b; simpl; [done |].
  rewrite bind_run, Hf. apply IH.
Qed.

Lemma obj_get_spread (base over : obj) k :
  NoDup (keys over) ->
  obj_get (obj_spread base over) k
  = if obj_has over k then obj_get over k else obj_get base k.
Proof.
  unfold obj_spread. revert base. induction over as [|[k' v] over IH]; intros base Hnd; [done |].
  apply NoDup_cons in Hnd as [Hni Hnd]. cbn [fold_left fst snd].
  rewrite IH by done. cbn [obj_has obj_get].
  destruct (String.eqb k k') eqn:E.
  - apply String.eqb_eq in E. subst k'.
    assert (Hh : obj_has over k = false).
    { destruct (obj_has over k) eqn:Eh; [| done]. apply obj_has_In in Eh.
      exfalso. apply Hni. by apply list_elem_of_In. }
    rewrite Hh. apply obj_get_set_eq.
  - apply String.eqb_neq in E. destruct (obj_has over k); [done |].
    apply obj_get_set_ne. congruence.
Qed.

Lemma obj_has_spread (base over : obj) k :
  obj_has (obj_spread base over) k = obj_has base k || obj_has over k.
Proof.
  unfold obj_spread. revert base. induction over as [|[k' v] over IH]; intros base.
  - simpl. by rewrite orb_false_r.
  - cbn [fold_left fst snd obj_has]. rewrite IH.
    destruct (String.eqb_spec k k') as [->|Hne].
    + by rewrite obj_has_set_eq, orb_true_r.
    + rewrite obj_has_set_ne by congruence. reflexivity.
Qed.

Lemma storable_spread (base over : obj) :
  storable (VObj base) = true -> storable (VObj over) = true ->
  storable (VObj (obj_spread base over)) = true.
Proof.
  unfold obj_spread. revert base. induction over as [|[k v] over IH]; intros base Hb Ho; [done |].
  cbn [fold_left fst snd]. cbn [storable forallb] in Ho.
  apply andb_true_iff in Ho as [Hv Ho]. apply IH; [| exact Ho].
  by apply storable_set.
Qed.

Lemma NoDup_spread (base over : obj) :
  NoDup (keys base) -> NoDup (keys (obj_spread base over)).
Proof.
  unfold obj_spread. revert base. induction over as [|[k v] over IH]; intros base Hb; [done |].
  cbn [fold_left fst snd]. apply IH. by apply NoDup_obj_set.
Qed.

Lemma kept_toFirestore v : kept v = true -> toFirestore v = v.
Proof. destruct v; try done; apply toFirestore_wf. Qed.

Lemma kept_storable v : kept v = true -> storable v = true.
Proof. destruct v; try done; apply storable_wf. Qed.

Lemma updated_get (data updates : obj) k :
  NoDup (keys updates) ->
  obj_get (obj_spread data (toFirestore_doc updates)) k
  = stored_or (obj_get data k) (obj_get updates k).
Proof.
  intros Hnd. rewrite obj_get_spread by by apply NoDup_keys_toFirestore_doc.
  rewrite obj_has_toFirestore_doc, obj_get_toFirestore_doc by done.
  destruct (obj_has updates k) eqn:Eh.
  - by destruct (obj_get updates k).
  - by rewrite (obj_get_absent _ _ Eh).
Qed.

(** A field of a document written with merge where none was stored. *)
Lemma fresh_merge_get (x : obj) k :
  NoDup (keys x) -> kept (obj_get x k) = true ->
  obj_get (merge_obj [] (toFirestore_doc x)) k = obj_get x k.
Proof.
  intros Hnd Hk. rewrite merge_obj_get by by apply NoDup_keys_toFirestore_doc.
  rewrite obj_has_toFirestore_doc, obj_get_toFirestore_doc by done.
  destruct (obj_has x k) eqn:Eh.
  - destruct (obj_get x k) eqn:Ev; try done;
      cbn [negb andb obj_get]; rewrite <- Ev in *;
      (rewrite (kept_toFirestore _ Hk); apply merge_value_fresh; [done |];
       rewrite Ev in *; exact Hk).
  - by rewrite (obj_get_absent _ _ Eh).
Qed.

Lemma truthy_str s : s <> "" -> truthy (VStr s) = true.
Proof.
  intros Hne. simpl. destruct (String.eqb s "") eqn:E; [| done].
  apply String.eqb_eq in E. congruence.
Qed.

Lemma plain_storable v : plain v = true -> storable v = true.
Proof.
  induction v using value_nested_ind; simpl; try done.
  - intros Hp. apply forallb_Forall_true in Hp. apply forallb_forall.
    intros x Hx. rewrite Forall_forall in H, Hp.
    apply H; [by apply list_elem_of_In | apply Hp; by apply list_elem_of_In].
  - intros Hp. apply forallb_Forall_true in Hp. apply forallb_forall.
    intros [k x] Hx. rewrite Forall_forall in H, Hp.
    apply (H (k, x)); [by apply list_elem_of_In |].
    apply (Hp (k, x)). by apply list_elem_of_In.
Qed.

Lemma supported_storable v : supported v = true -> storable v = true.
Proof.
  destruct v as [| | | | |[t|]| | |fs]; simpl; try done.
  intros Hs. apply andb_true_iff in Hs as [Hp _]. by apply (plain_storable (VObj fs)).
Qed.

Lemma mapR_cons_inv {A B : Type} (f : A -> result B) x l ys :
  mapR f (x :: l) = Ok ys ->
  exists y ys', f x = Ok y /\ mapR f l = Ok ys' /\ ys = y :: ys'.
Proof.
  simpl. destruct (f x) as [y|]; [| discriminate].
  destruct (mapR f l) as [zs|]; [| discriminate].
  intros E. injection E as <-. by exists y, zs.
Qed.

Lemma mapR_drop {A B : Type} (f : A -> result B) k l ys :
  mapR f l = Ok ys -> mapR f (drop k l) = Ok (drop k ys).
Proof.
  revert l ys. induction k as [|k IH]; intros l ys E; [by rewrite !drop_0 |].
  destruct l as [|x l].
  - simpl in E. injection E as <-. done.
  - apply mapR_cons_inv in E as (y & ys' & _ & E & ->). simpl. by apply IH.
Qed.

Lemma mapR_take {A B : Type} (f : A -> result B) k l ys :
  mapR f l = Ok ys -> mapR f (take k l) = Ok (take k ys).
Proof.
  revert l ys. induction k as [|k IH]; intros l ys E; [done |].
  destruct l as [|x l].
  - simpl in E. injection E as <-. done.
  - apply mapR_cons_inv in E as (y & ys' & Ey & E & ->). simpl.
    by rewrite Ey, (IH _ _ E).
Qed.

Lemma mapR_window {A B : Type} (f : A -> result B) l ys off lim :
  mapR f l = Ok ys -> mapR f (window off lim l) = Ok (window off lim ys).
Proof.
  intros E. unfold window. destruct lim; [apply mapR_take |]; by apply mapR_drop.
Qed.

Lemma mapR_In {A B : Type} (f : A -> result B) l ys y :
  mapR f l = Ok ys -> In y ys -> exists x, In x l /\ f x = Ok y.
Proof.
  revert ys. induction l as [|x l IH]; intros ys E Hin.
  - simpl in E. injection E as <-. destruct Hin.
  - apply mapR_cons_inv in E as (y0 & ys' & Ey & E & ->).
    destruct Hin as [<-|Hin]; [exists x; split; [by left | done] |].
    destruct (IH _ E Hin) as (x' & Hx & Ex). exists x'. split; [by right | done].
Qed.

Lemma ordered_In_matching db q x : In x (ordered db q) <-> In x (matching db q).
Proof.
  unfold ordered. destruct (q_order q) as [[f d]|]; [| done].
  rewrite <- !list_elem_of_In. by rewrite merge_sort_Permutation.
Qed.

Lemma ordered_length db q : length (ordered db q) = length (matching db q).
Proof.
  unfold ordered. destruct (q_order q) as [[f d]|]; [| done].
  apply Permutation_length, merge_sort_Permutation.
Qed.

(** A page, when the whole list decodes: the window of the decoded list. *)
Lemma paged_window db q p pp decode all :
  forallb filter_ok (q_where q) = true ->
  mapR decode (ordered db q) = Ok all -> 1 <= p -> 0 <= pp ->
  exists r,
    paged db q p pp decode = Ok r /\
    items r = window ((p - 1) * pp) (Some pp) all /\
    total r = Z.of_nat (length all).
Proof.
  intros Hf Hall Hp Hpp. unfold paged. rewrite Hf. cbn [negb].
  destruct (Z.ltb_spec ((p - 1) * pp) 0); [nia |].
  destruct (Z.ltb_spec pp 0); [lia |]. cbn [orb].
  rewrite (mapR_window _ _ _ _ _ Hall). eexists. split; [reflexivity |]. simpl.
  split; [done |]. by rewrite (mapR_length _ _ _ Hall), ordered_length.
Qed.

(** A read of the whole list: the query as it is, then the decoder. *)
Lemma listed_run q (decode : string * obj -> result obj) w all :
  q_offset q = Some 0 -> q_limit q = None ->
  fst ((snapshot <- query_get q ;; liftR (mapR decode snapshot)) w) = Ok all ->
  forallb filter_ok (q_where q) = true /\ mapR decode (ordered (w_db w) q) = Ok all.
Proof.
  intros Ho Hl. rewrite bind_run, query_get_run. unfold run_query. rewrite Ho, Hl.
  destruct (forallb filter_ok (q_where q)); cbn [negb]; [| discriminate].
  cbn [Z.ltb Z.compare orb]. unfold window. change (Z.to_nat 0) with 0%nat.
  rewrite drop_0. unfold liftR. cbn [fst]. auto.
Qed.

(** ** Tables: create, alter, clear, drop *)

Section tables.
Context `{JSBuiltins} `{JSObjects}.

Lemma deleteQueryBatch_run t b w :
  let q := fs_limit (collection t) (Some (Z.of_nat b)) in
  let c := w_db w t in
  exists w',
    StoreOperationsFirestore.deleteQueryBatch t b w = (Ok (Nat.min b (length c)), w') /\
    w_db w' t = drop b c /\ (forall t', t' <> t -> w_db w' t' = w_db w t') /\
    w_now w' = w_now w /\ w_ids w' = w_ids w /\
    w_log w' = (w_log w ++ EvQuery q ::
                  (if (Nat.min b (length c) =? 0)%nat then []
                   else [EvCommit (map (fun doc => WDelete t (fst doc)) (take b c))]))%list.
Proof.
  intros q c. unfold StoreOperationsFirestore.deleteQueryBatch.
  rewrite bind_run, query_get_run, run_query_first. fold c.
  rewrite length_take.
  destruct (Nat.min b (length c) =? 0)%nat eqn:E.
  - apply Nat.eqb_eq in E. rewrite E.
    eexists. split; [reflexivity |]. simpl.
    assert (Hd : drop b c = c).
    { destruct (Nat.min_spec b (length c)) as [[_ Hm]|[_ Hm]]; rewrite Hm in E.
      - subst b. apply drop_0.
      - destruct c; [by rewrite drop_nil | discriminate]. }
    rewrite Hd. repeat split; done.
  - rewrite bind_run, commit_run. cbn [w_db logged].
    destruct (apply_deletes_first (w_db w) t b) as (db' & Ha & Hb & Hc).
    fold c in Ha, Hb. rewrite Ha.
    eexists. split; [reflexivity |]. simpl. repeat split; try done.
    by rewrite <- app_assoc.
Qed.

Lemma clearTable_rounds_run t b fuel w :
  (0 < b)%nat -> (length (w_db w t) / b < fuel)%nat ->
  let q := fs_limit (collection t) (Some (Z.of_nat b)) in
  let n := length (w_db w t) in
  exists w',
    StoreOperationsFirestore.clearTable_rounds fuel t b w = (Ok tt, w') /\
    w_db w' t = [] /\ (forall t', t' <> t -> w_db w' t' = w_db w t') /\
    w_now w' = w_now w /\ w_ids w' = w_ids w /\
    write_counts (w_log w') = (write_counts (w_log w) ++ round_sizes b n)%list /\
    queries (w_log w') = (queries (w_log w) ++ repeat q (S (n / b)))%list.
Proof.
  intros Hb. revert w. induction fuel as [|fuel IH]; intros w Hf q n; [lia |].
  assert (Hn : length (w_db w t) = n) by reflexivity. clearbody n. rewrite Hn in Hf.
  cbn [StoreOperationsFirestore.clearTable_rounds]. rewrite bind_run.
  destruct (deleteQueryBatch_run t b w) as (w1 & Hr & Hdb & Hoth & Hnow & Hids & Hlog).
  rewrite Hr. rewrite Hn in Hlog. fold q in Hlog. rewrite Hn.
  destruct (Nat.leb_spec b (Nat.min b n)) as [Hle|Hlt].
  - assert (Hbn : (b <= n)%nat) by lia.
    destruct (round_sizes_step b n Hb Hbn) as [Hrs Hdiv].
    assert (Hlen : length (w_db w1 t) = (n - b)%nat).
    { rewrite Hdb, length_drop. lia. }
    destruct (IH w1) as (w' & Hr' & Hdb' & Hoth' & Hnow' & Hids' & Hwc & Hq).
    { rewrite Hlen. lia. }
    exists w'. split; [exact Hr' |]. split; [exact Hdb' |].
    split; [intros t' Hne; by rewrite Hoth', Hoth |].
    split; [congruence |]. split; [congruence |].
    rewrite Hlen in Hwc, Hq. fold q in Hq.
    assert (Hmin : (Nat.min b n =? 0)%nat = false) by (apply Nat.eqb_neq; lia).
    rewrite Hmin in Hlog. split.
    + rewrite Hwc, Hlog, write_counts_app, Hrs, <- app_assoc. f_equal.
      unfold write_counts. simpl. rewrite length_map, length_take. f_equal. lia.
    + rewrite Hq, Hlog, queries_app, Hdiv, <- app_assoc. reflexivity.
  - assert (Hnb : (n < b)%nat) by lia.
    exists w1. split; [reflexivity |]. split.
    { rewrite Hdb. apply drop_ge. lia. }
    split; [exact Hoth |]. split; [exact Hnow |]. split; [exact Hids |].
    rewrite Hlog, write_counts_app, queries_app, round_sizes_small by done.
    rewrite Nat.div_small by done.
    replace (Nat.min b n) with n by lia.
    destruct (n =? 0)%nat eqn:E; split; try reflexivity.
    unfold write_counts. simpl. rewrite length_map, length_take.
    f_equal. f_equal. lia.
Qed.

Lemma clearTable_run t w :
  exists w',
    StoreOperationsFirestore.clearTable t w = (Ok tt, w') /\
    w_db w' t = [] /\ (forall t', t' <> t -> w_db w' t' = w_db w t').
Proof.
  unfold StoreOperationsFirestore.clearTable.
  destruct (clearTable_rounds_run t 500 (S (length (w_db w t))) w)
    as (w' & Hr & Hdb & Hoth & _).
  { lia. }
  { apply Nat.lt_succ_r. apply Nat.Div0.div_le_upper_bound. lia. }
  by exists w'.
Qed.

(** X1.  [clearTable] leaves the table empty and the other tables as they were.
    It deletes in batches of at most 500, and asks for the next batch once
    more than the number of full batches. *)
Theorem clearTable_empties_the_table t w :
  let n := length (w_db w t) in
  exists w',
    run (StoreOperationsFirestore.clearTable t) w = (Ok tt, w') /\
    w_db w' t = [] /\ (forall t', t' <> t -> w_db w' t' = w_db w t') /\
    write_counts (w_log w') = (write_counts (w_log w) ++ round_sizes 500 n)%list /\
    length (queries (w_log w')) = (length (queries (w_log w)) + n / 500 + 1)%nat.
Proof.
  intros n. unfold run, StoreOperationsFirestore.clearTable.
  destruct (clearTable_rounds_run t 500 (S (length (w_db w t))) w)
    as (w' & Hr & Hdb & Hoth & _ & _ & Hwc & Hq).
  { lia. }
  { apply Nat.lt_succ_r. apply Nat.Div0.div_le_upper_bound. lia. }
  exists w'. split; [exact Hr |]. split; [exact Hdb |]. split; [exact Hoth |].
  split; [exact Hwc |]. rewrite Hq, length_app, repeat_length. fold n. lia.
Qed.

(** X2.  [dropTable] leaves the table empty and without metadata; the metadata
    of the other tables and the other collections stay as they were. *)
Theorem dropTable_removes_table_and_metadata t w :
  NoDup (map fst (w_db w "_metadata")) ->
  exists w',
    run (StoreOperationsFirestore.dropTable t) w = (Ok tt, w') /\
    w_db w' t = [] /\
    coll_get (w_db w' "_metadata") t = None /\
    (t <> "_metadata" -> forall t', t' <> t ->
       coll_get (w_db w' "_metadata") t' = coll_get (w_db w "_metadata") t') /\
    (forall c, c <> t -> c <> "_metadata" -> w_db w' c = w_db w c).
Proof.
  intros Hnd. unfold run, StoreOperationsFirestore.dropTable.
  destruct (clearTable_run t w) as (w1 & Hr & Hdb & Hoth).
  rewrite bind_run, Hr.
  unfold doc_delete. rewrite write_run. cbn [apply_write].
  eexists. split; [reflexivity |]. cbn [w_db with_db logged].
  destruct (String.eqb_spec t "_metadata") as [->|Hne].
  - rewrite db_put_same, Hdb. simpl. repeat split; try done.
    intros c Hc _. by rewrite db_put_other, Hoth.
  - rewrite db_put_other by done. rewrite db_put_same.
    rewrite (Hoth "_metadata") by congruence.
    split; [exact Hdb |]. split; [by apply coll_get_remove_eq |].
    split; [intros _ t' Ht'; apply coll_get_remove_ne; congruence |].
    intros c Hc Hm. by rewrite db_put_other, Hoth.
Qed.

Lemma add_columns_get existing schema cols updated k :
  obj_get (fold_left (add_column existing schema) cols updated) k
  = if bool_decide (k ∈ cols) && column_added existing schema k
    then obj_get schema k else obj_get updated k.
Proof.
  revert updated. induction cols as [|c cols IH]; intros updated; [done |].
  cbn [fold_left]. rewrite IH.
  destruct (decide (k = c)) as [->|Hne].
  - rewrite (bool_decide_eq_true_2 (c ∈ c :: cols)) by apply list_elem_of_here.
    unfold add_column. destruct (column_added existing schema c) eqn:E.
    + rewrite andb_true_r. simpl. rewrite obj_get_set_eq. by destruct (bool_decide _).
    + by rewrite !andb_false_r.
  - assert (Hiff : bool_decide (k ∈ c :: cols) = bool_decide (k ∈ cols)).
    { apply bool_decide_ext. rewrite elem_of_cons. tauto. }
    rewrite Hiff. destruct (bool_decide (k ∈ cols) && column_added existing schema k); [done |].
    unfold add_column. destruct (column_added existing schema c); [| done].
    apply obj_get_set_ne. congruence.
Qed.

Lemma add_columns_wf existing schema cols updated :
  wf_stored (VObj schema) = true -> wf_stored (VObj updated) = true ->
  wf_stored (VObj (fold_left (add_column existing schema) cols updated)) = true.
Proof.
  intros Hs. revert updated. induction cols as [|c cols IH]; intros updated Hu; [done |].
  cbn [fold_left]. apply IH. unfold add_column, column_added.
  destruct (obj_has schema c) eqn:E; rewrite ?andb_false_r; [| done].
  destruct (negb _); [| done]. simpl.
  apply wf_stored_set; [done |]. by apply wf_stored_get.
Qed.

Lemma alterTable_step existing schema updated c w :
  (present <- liftR (js_in c (VObj existing)) ;;
   if present then ret updated
   else
     wanted <- liftR (js_in c (VObj schema)) ;;
     if wanted then ret (obj_set updated c (obj_get schema c)) else ret updated) w
  = (Ok (add_column existing schema updated c), w).
Proof.
  unfold add_column, column_added, bind, liftR, ret. cbn [js_in].
  destruct (obj_has existing c); [done |].
  destruct (Object_prototype_has c); [done |].
  by destruct (obj_has schema c).
Qed.

Lemma alterTable_run t schema cols w data existing :
  coll_get (w_db w "_metadata") t = Some data ->
  js_or (obj_get data "schema") (VObj []) = VObj existing ->
  wf_stored (VObj existing) = true -> wf_stored (VObj schema) = true ->
  exists w' data' schema',
    run (StoreOperationsFirestore.alterTable t schema cols) w = (Ok tt, w') /\
    coll_get (w_db w' "_metadata") t = Some data' /\
    obj_get data' "schema" = VObj schema' /\
    (forall c, obj_get schema' c
               = if bool_decide (c ∈ cols) && column_added existing schema c
                 then obj_get schema c else obj_get existing c) /\
    obj_get data' "updatedAt" = timestamp_of (w_now w) /\
    (forall k, k <> "schema" -> k <> "updatedAt" -> obj_get data' k = obj_get data k).
Proof.
  intros Hd Hex Hwe Hws.
  destruct (wf_stored_obj _ Hwe) as [_ Hnd].
  set (updated := fold_left (add_column existing schema) cols existing).
  assert (Hwu : wf_stored (VObj updated) = true) by by apply add_columns_wf.
  unfold run, StoreOperationsFirestore.alterTable.
  rewrite bind_run, doc_get_run, Hd. cbv zeta. rewrite Hex.
  cbn [own_entries]. rewrite obj_spread_nil by done.
  rewrite bind_run.
  rewrite (foldM_pure _ (add_column existing schema)).
  2:{ intros b x w0. apply alterTable_step. }
  fold updated. rewrite bind_run, now_run.
  rewrite (doc_update_run _ _ _ data).
  2:{ apply (storable_set [("schema", VObj updated)] "updatedAt"); [| done].
      apply (storable_set [] "schema"); [done |]. by apply storable_wf. }
  2:{ exact Hd. }
  rewrite !toFirestore_doc_cons. cbn [toFirestore].
  change (toFirestore_doc []) with (@nil (string * value)).
  pose proof (toFirestore_wf _ Hwu) as Htf. cbn [toFirestore] in Htf. rewrite Htf.
  eexists _, _, updated. split; [reflexivity |].
  cbn [w_db with_db logged]. rewrite db_put_same, coll_get_put_eq.
  split; [reflexivity |]. unfold obj_spread. cbn [fold_left fst snd].
  split; [by rewrite obj_get_set_ne, obj_get_set_eq |].
  split; [intros c; apply add_columns_get |].
  split; [by rewrite obj_get_set_eq |].
  intros k Hk1 Hk2. rewrite !obj_get_set_ne by congruence. reflexivity.
Qed.

(** X3.  Without metadata [alterTable] writes nothing.  With metadata whose
    schema is a map (or missing), it adds the listed columns that the stored
    schema lacks and the new schema has, keeps every stored column as it is,
    stamps [updatedAt] and leaves the other fields alone. *)
Theorem alterTable_adds_the_missing_columns t schema cols w :
  (coll_get (w_db w "_metadata") t = None ->
   run (StoreOperationsFirestore.alterTable t schema cols) w
   = (Ok tt, logged (EvGet "_metadata" t) w)) /\
  (forall data existing,
     coll_get (w_db w "_metadata") t = Some data ->
     js_or (obj_get data "schema") (VObj []) = VObj existing ->
     wf_stored (VObj existing) = true -> wf_stored (VObj schema) = true ->
     exists w' data' schema',
       run (StoreOperationsFirestore.alterTable t schema cols) w = (Ok tt, w') /\
       coll_get (w_db w' "_metadata") t = Some data' /\
       obj_get data' "schema" = VObj schema' /\
       (forall c, obj_get schema' c
                  = if bool_decide (c ∈ cols) && column_added existing schema c
                    then obj_get schema c else obj_get existing c) /\
       obj_get data' "updatedAt" = timestamp_of (w_now w) /\
       (forall k, k <> "schema" -> k <> "updatedAt" -> obj_get data' k = obj_get data k)).
Proof.
  split.
  - intros Hn. unfold run, StoreOperationsFirestore.alterTable.
    rewrite bind_run, doc_get_run, Hn. reflexivity.
  - intros data existing. apply alterTable_run.
Qed.

(** X4.  [createTable] replaces whatever metadata the table had by the schema
    and the time of the call; [alterTable] after it extends that schema by
    the listed columns it lacks, and keeps the creation time. *)
Theorem createTable_then_alterTable t schema schema2 cols w :
  wf_stored (VObj schema) = true -> wf_stored (VObj schema2) = true ->
  exists w' data schema',
    run (StoreOperationsFirestore.createTable t schema ;;
         StoreOperationsFirestore.alterTable t schema2 cols) w = (Ok tt, w') /\
    coll_get (w_db w' "_metadata") t = Some data /\
    obj_get data "schema" = VObj schema' /\
    (forall c, obj_get schema' c
               = if bool_decide (c ∈ cols) && column_added schema schema2 c
                 then obj_get schema2 c else obj_get schema c) /\
    obj_get data "createdAt" = timestamp_of (w_now w) /\
    obj_get data "updatedAt" = timestamp_of (w_now w) /\
    (forall k, k <> "schema" -> k <> "createdAt" -> k <> "updatedAt" ->
       obj_get data k = VUndef).
Proof.
  intros Hw1 Hw2. unfold run. rewrite bind_run.
  unfold StoreOperationsFirestore.createTable. rewrite bind_run, now_run.
  rewrite doc_set_run.
  2:{ apply (storable_set [("schema", VObj schema)] "createdAt"); [| done].
      apply (storable_set [] "schema"); [done |]. by apply storable_wf. }
  rewrite !toFirestore_doc_cons. cbn [toFirestore].
  change (toFirestore_doc []) with (@nil (string * value)).
  pose proof (toFirestore_wf _ Hw1) as Htf. cbn [toFirestore] in Htf. rewrite Htf.
  set (d1 := [("schema", VObj schema);
              ("createdAt", VTimestamp (w_now w / 1000) (w_now w mod 1000 * 1000000))]).
  set (w1 := with_db _ _).
  destruct (alterTable_run t schema2 cols w1 d1 schema)
    as (w' & data' & schema' & Hr & Hg & Hs & Hc & Hu & Ho); try done.
  { unfold w1. cbn [w_db with_db logged]. by rewrite db_put_same, coll_get_put_eq. }
  unfold run in Hr. rewrite Hr. exists w', data', schema'.
  split; [done |]. split; [done |]. split; [done |]. split; [done |].
  split; [by rewrite Ho |]. split; [exact Hu |].
  intros k K1 K2 K3. rewrite Ho by done. unfold d1. cbn [obj_get].
  destruct (String.eqb_spec k "schema"); [done |].
  by destruct (String.eqb_spec k "createdAt").
Qed.

End tables.

(** ** Records: insert, bulk insert and load *)

Section records.
Context `{JSBuiltins}.

Lemma serializeRecord_supported (x : obj) :
  NoDup (keys x) -> Forall (fun kv => supported (snd kv) = true) x ->
  StoreOperationsFirestore.serializeRecord x = x.
Proof.
  intros Hnd Hsup. rewrite serializeRecord_map by done. apply map_fields_id.
  eapply Forall_impl; [exact Hsup |]. intros [k v] Hv. by apply serializeValue_supported.
Qed.

Lemma deserializeRecord_stored (x : obj) :
  NoDup (keys x) -> Forall (fun kv => supported (snd kv) = true) x ->
  StoreOperationsFirestore.deserializeRecord (Some (toFirestore_doc x))
  = map (fun kv => (fst kv, truncate_to_seconds (snd kv))) x.
Proof.
  intros Hnd Hsup. rewrite toFirestore_doc_defined.
  2:{ eapply Forall_impl; [exact Hsup |]. intros [k v] Hv E. simpl in *. by subst. }
  rewrite deserializeRecord_map by (by rewrite keys_map).
  rewrite map_map. simpl. clear Hnd.
  induction Hsup as [|[k v] x Hv _ IH]; [done |]. simpl.
  rewrite IH. by rewrite deserializeValue_stored.
Qed.

Lemma supported_record_storable (x : obj) :
  forallb (fun kv => supported (snd kv)) x = true -> storable (VObj x) = true.
Proof.
  intros Hsup. apply forallb_Forall_true in Hsup. simpl. apply forallb_forall.
  intros [k v] Hin. rewrite Forall_forall in Hsup.
  apply supported_storable. apply (Hsup (k, v)). by apply list_elem_of_In.
Qed.

(** X5.  A record written by [insert] under its own id is what [load] by that
    id gives back, with each date cut down to whole seconds; what the id
    held before does not matter. *)
Theorem insert_then_load t (record : obj) i w :
  obj_get record "id" = VStr i -> i <> "" ->
  NoDup (keys record) -> forallb (fun kv => supported (snd kv)) record = true ->
  exists w',
    run (StoreOperationsFirestore.insert t record ;;
         StoreOperationsFirestore.load t [("id", VStr i)]) w
    = (Ok (VObj (map (fun kv => (fst kv, truncate_to_seconds (snd kv))) record)), w') /\
    w_db w' t = coll_put (w_db w t) i (toFirestore_doc record).
Proof.
  intros Hid Hne Hnd Hsup. apply forallb_Forall_true in Hsup.
  assert (Hst : storable (VObj record) = true).
  { simpl. apply forallb_forall. intros [k v] Hin. rewrite Forall_forall in Hsup.
    apply supported_storable. apply (Hsup (k, v)). by apply list_elem_of_In. }
  unfold run. rewrite bind_run. unfold StoreOperationsFirestore.insert, explicit_id.
  rewrite Hid, truthy_str by done.
  rewrite serializeRecord_supported by done.
  rewrite doc_set_run by done.
  unfold StoreOperationsFirestore.load. cbn [obj_get String.eqb Ascii.eqb Bool.eqb].
  rewrite truthy_str by done.
  rewrite bind_run, doc_get_run. cbn [w_db with_db logged].
  rewrite db_put_same, coll_get_put_eq.
  rewrite deserializeRecord_stored by done.
  eexists. split; [reflexivity |]. cbn [w_db with_db logged]. by rewrite db_put_same.
Qed.

Lemma batchInsert_batch t (c : list obj) w :
  Forall bulk_ready c ->
  mapM (fun record =>
          match explicit_id record with
          | Some id => ret (WSet t id (StoreOperationsFirestore.serializeRecord record))
          | None =>
              id <- auto_id ;;
              ret (WSet t id (StoreOperationsFirestore.serializeRecord record))
          end) c w
  = (Ok (map (fun r => WSet t (record_id r) r) c), w).
Proof.
  induction 1 as [|r c (Hid & Hnd & Hsup) Hall IH]; [reflexivity |].
  cbn [mapM map]. rewrite bind_run. unfold record_id at 1.
  destruct (explicit_id r) as [i|]; [| by destruct Hid]. cbn [ret].
  rewrite bind_run, IH. cbn [ret].
  rewrite serializeRecord_supported; [done | done | by apply forallb_Forall_true].
Qed.

Lemma batchInsert_chunks t (chunks : list (list obj)) w :
  Forall (Forall bulk_ready) chunks ->
  exists w',
    forM_ chunks
      (fun batchRecords =>
         batch <- mapM
                    (fun record =>
                       match explicit_id record with
                       | Some id =>
                           ret (WSet t id (StoreOperationsFirestore.serializeRecord record))
                       | None =>
                           id <- auto_id ;;
                           ret (WSet t id (StoreOperationsFirestore.serializeRecord record))
                       end)
                    batchRecords ;;
         commit batch) w = (Ok tt, w') /\
    w_db w' t = fold_left (fun c w => coll_put c (fst w) (toFirestore_doc (snd w)))
                  (map (fun r => (record_id r, r)) (concat chunks)) (w_db w t).
Proof.
  revert w. induction chunks as [|c chunks IH]; intros w Hall; [by exists w |].
  apply Forall_cons in Hall as [Hc Hall].
  cbn [forM_]. rewrite bind_run, bind_run, batchInsert_batch by done.
  rewrite commit_run.
  set (ws := map (fun r => (record_id r, r)) c).
  assert (Ews : map (fun r => WSet t (record_id r) r) c
                = map (fun w => WSet t (fst w) (snd w)) ws).
  { unfold ws. by rewrite map_map. }
  rewrite Ews.
  destruct (apply_sets (w_db w) t ws) as (db' & -> & Edb).
  { unfold ws. apply Forall_fmap. eapply Forall_impl; [exact Hc |].
    intros r (_ & _ & Hs). simpl. by apply supported_record_storable. }
  destruct (IH (with_db db' (logged (EvCommit (map (fun w => WSet t (fst w) (snd w)) ws)) w))
              Hall) as (w' & -> & Hd).
  exists w'. split; [done |]. rewrite Hd. cbn [w_db with_db logged concat].
  rewrite Edb, map_app, fold_left_app. reflexivity.
Qed.

Lemma explicit_id_truthy r i : explicit_id r = Some i -> truthy (VStr i) = true /\ obj_get r "id" = VStr i.
Proof.
  unfold explicit_id. destruct (obj_get r "id"); try discriminate.
  destruct (truthy (VStr s)) eqn:E; [| discriminate]. intros [= ->]. done.
Qed.

(** X6.  After [batchInsert] of records that carry distinct ids, [load] by the
    id of any of them gives the record back, with each date cut down to
    whole seconds; documents under other ids are as before. *)
Theorem batchInsert_then_load t records w :
  Forall bulk_ready records ->
  NoDup (map record_id records) ->
  exists w',
    run (StoreOperationsFirestore.batchInsert t records) w = (Ok tt, w') /\
    (forall r, In r records ->
       run (StoreOperationsFirestore.load t [("id", VStr (record_id r))]) w'
       = (Ok (VObj (map (fun kv => (fst kv, truncate_to_seconds (snd kv))) r)),
          logged (EvGet t (record_id r)) w')) /\
    (forall i, ~ In i (map record_id records) ->
       coll_get (w_db w' t) i = coll_get (w_db w t) i).
Proof.
  intros Hall Hnd. unfold run, StoreOperationsFirestore.batchInsert. cbv zeta.
  destruct (batchInsert_chunks t (slices 500 records) w) as (w' & Hr & Hdb).
  { assert (Hc : concat (slices 500 records) = records) by (apply slices_concat; lia).
    rewrite <- Hc in Hall. clear Hc.
    induction (slices 500 records) as [|c cs IH]; [constructor |].
    cbn [concat] in Hall. apply Forall_app in Hall as [H1 H2].
    constructor; [done | by apply IH]. }
  rewrite slices_concat in Hdb by lia.
  exists w'. split; [exact Hr |]. split.
  - intros r Hin.
    assert (Hready : bulk_ready r).
    { rewrite Forall_forall in Hall. apply Hall. by apply list_elem_of_In. }
    destruct Hready as (Hid & Hk & Hsup).
    destruct (explicit_id r) as [i|] eqn:Ei; [| by destruct Hid].
    assert (Eid : record_id r = i) by (unfold record_id; by rewrite Ei).
    destruct (explicit_id_truthy _ _ Ei) as [Ht _].
    unfold StoreOperationsFirestore.load. rewrite Eid.
    cbn [obj_get String.eqb Ascii.eqb Bool.eqb]. rewrite Ht.
    rewrite bind_run, doc_get_run, Hdb.
    rewrite (coll_get_fold _ _ i r).
    + rewrite deserializeRecord_stored; [done | done | by apply forallb_Forall_true].
    + by rewrite map_map.
    + apply in_map_iff. exists r. by rewrite Eid.
  - intros i Hni. rewrite Hdb. apply coll_get_fold_other. by rewrite map_map.
Qed.

End records.

(** ** Reads and writes of one record *)

Section one_record.
Context `{JSBuiltins} `{Tables}.

(** X7.  Reading a thread, a resource or a score by an id under which nothing
    is stored gives [null], and asks the store once, for that document. *)
Theorem reads_of_a_missing_id_return_null w :
  (forall threadId,
     coll_get (w_db w TABLE_THREADS) threadId = None ->
     run (MemoryFirestore.getThreadById threadId) w
     = (Ok VNull, logged (EvGet TABLE_THREADS threadId) w)) /\
  (forall resourceId,
     coll_get (w_db w TABLE_RESOURCES) resourceId = None ->
     run (MemoryFirestore.getResourceById resourceId) w
     = (Ok VNull, logged (EvGet TABLE_RESOURCES resourceId) w)) /\
  (forall id,
     coll_get (w_db w TABLE_SCORERS) id = None ->
     run (ScoresFirestore.getScoreById id) w
     = (Ok VNull, logged (EvGet TABLE_SCORERS id) w)).
Proof.
  repeat apply conj.
  - intros threadId Hn. unfold run, MemoryFirestore.getThreadById.
    by rewrite bind_run, doc_get_run, Hn.
  - intros resourceId Hn. unfold run, MemoryFirestore.getResourceById.
    by rewrite bind_run, doc_get_run, Hn.
  - intros id Hn. unfold run, ScoresFirestore.getScoreById.
    by rewrite bind_run, doc_get_run, Hn.
Qed.

(** X24.  Loading a workflow snapshot, reading a workflow run by name and id,
    and [load] by a non-empty id give [null] when no document is stored
    under the id, and ask the store once, for that document. *)
Theorem loads_of_a_missing_id_return_null w :
  (forall workflowName runId,
     let id := WorkflowsFirestore.snapshot_id workflowName runId in
     coll_get (w_db w TABLE_WORKFLOW_SNAPSHOT) id = None ->
     run (WorkflowsFirestore.loadWorkflowSnapshot workflowName runId) w
     = (Ok VNull, logged (EvGet TABLE_WORKFLOW_SNAPSHOT id) w) /\
     (workflowName <> "" ->
      run (WorkflowsFirestore.getWorkflowRunById runId (Some workflowName)) w
      = (Ok VNull, logged (EvGet TABLE_WORKFLOW_SNAPSHOT id) w))) /\
  (forall tableName id,
     id <> "" -> coll_get (w_db w tableName) id = None ->
     run (StoreOperationsFirestore.load tableName [("id", VStr id)]) w
     = (Ok VNull, logged (EvGet tableName id) w)).
Proof.
  split.
  - intros workflowName runId id Hn. split.
    + unfold run, WorkflowsFirestore.loadWorkflowSnapshot. fold id.
      by rewrite bind_run, doc_get_run, Hn.
    + intros Hne. unfold run, WorkflowsFirestore.getWorkflowRunById. cbn [opt_str or_default].
      assert (Ht : truthy (VStr workflowName) = true).
      { simpl. apply String.eqb_neq in Hne. by rewrite Hne. }
      rewrite Ht. fold id. by rewrite bind_run, doc_get_run, Hn.
  - intros tableName id Hne Hn. unfold run, StoreOperationsFirestore.load.
    cbn [obj_get String.eqb Ascii.eqb Bool.eqb].
    assert (Ht : truthy (VStr id) = true).
    { simpl. apply String.eqb_neq in Hne. by rewrite Hne. }
    rewrite Ht. by rewrite bind_run, doc_get_run, Hn.
Qed.

Lemma coerceDate_stored_date ms :
  coerceDate (toFirestore (VDate (Some ms))) = VDate (Some ms).
Proof.
  unfold coerceDate, toDate_opt, js_or. cbn [toFirestore truthy]. do 2 f_equal.
  rewrite Z.div_add_l by lia. change (500000 / 1000000) with 0.
  pose proof (Z.div_mod ms 1000). lia.
Qed.

Lemma stored_metadata m :
  (truthy m = true -> wf_stored m = true) ->
  js_or (toFirestore (js_or m (VObj []))) (VObj []) = js_or m (VObj []) /\
  storable (js_or m (VObj [])) = true.
Proof.
  intros Hm. unfold js_or. destruct (truthy m) eqn:E.
  - rewrite (toFirestore_wf _ (Hm eq_refl)), E.
    split; [done |]. by apply storable_wf, Hm.
  - done.
Qed.

Lemma stored_createdAt c now :
  (truthy c = true -> exists ms, c = VDate (Some ms)) ->
  coerceDate (toFirestore (js_or c (VDate (Some now)))) = js_or c (VDate (Some now)) /\
  storable (js_or c (VDate (Some now))) = true.
Proof.
  intros Hc. unfold js_or. destruct (truthy c) eqn:E.
  - destruct (Hc eq_refl) as [ms ->]. split; [apply coerceDate_stored_date | done].
  - split; [apply coerceDate_stored_date | done].
Qed.

Lemma stored_workingMemory m :
  (truthy m = true -> wf_stored m = true) ->
  js_or (toFirestore (js_or m (VStr ""))) (VStr "") = js_or m (VStr "") /\
  storable (js_or m (VStr "")) = true.
Proof.
  intros Hm. unfold js_or. destruct (truthy m) eqn:E.
  - rewrite (toFirestore_wf _ (Hm eq_refl)), E.
    split; [done |]. by apply storable_wf, Hm.
  - done.
Qed.

(** X8.  Reading a thread back after [saveThread] gives its six fields as they
    were saved, for a thread that has a resourceId and a title: metadata
    defaulted to the empty map, [createdAt] (the caller's date, or the time
    of the call) and [updatedAt] (the time of the call) to the millisecond.
    The document written holds no undefined. *)
Theorem saveThread_then_getThreadById thread i w :
  obj_get thread "id" = VStr i ->
  wf_stored (obj_get thread "resourceId") = true ->
  wf_stored (obj_get thread "title") = true ->
  (truthy (obj_get thread "metadata") = true ->
   wf_stored (obj_get thread "metadata") = true) ->
  (truthy (obj_get thread "createdAt") = true ->
   exists ms, obj_get thread "createdAt" = VDate (Some ms)) ->
  let d := VDate (Some (w_now w)) in
  exists w',
    run (MemoryFirestore.saveThread thread ;; MemoryFirestore.getThreadById i) w
    = (Ok (VObj [("id", VStr i);
                 ("resourceId", obj_get thread "resourceId");
                 ("title", obj_get thread "title");
                 ("metadata", js_or (obj_get thread "metadata") (VObj []));
                 ("createdAt", js_or (obj_get thread "createdAt") d);
                 ("updatedAt", d)]), w') /\
    all_accepted (w_log w') = all_accepted (w_log w).
Proof.
  intros Hid Hr Ht Hm Hc d.
  destruct (stored_metadata _ Hm) as [Em Sm].
  destruct (stored_createdAt _ (w_now w) Hc) as [Ec Sc]. fold d in Ec, Sc.
  unfold run. rewrite bind_run. unfold MemoryFirestore.saveThread.
  rewrite Hid. cbn [MemoryFirestore.doc_path]. rewrite bind_run. cbn [ret].
  rewrite bind_run, now_run, bind_run. fold d.
  set (threadData := obj_set (obj_set thread "createdAt" _) "updatedAt" d).
  assert (Hser : MemoryFirestore.serializeThread threadData
                 = [("id", VStr i);
                    ("resourceId", obj_get thread "resourceId");
                    ("title", obj_get thread "title");
                    ("metadata", js_or (obj_get thread "metadata") (VObj []));
                    ("createdAt", js_or (obj_get thread "createdAt") d);
                    ("updatedAt", d)]).
  { unfold MemoryFirestore.serializeThread, threadData.
    rewrite obj_get_set_eq. rewrite !(obj_get_set_ne _ "updatedAt") by done.
    rewrite obj_get_set_eq. rewrite !(obj_get_set_ne _ "createdAt") by done.
    by rewrite Hid. }
  rewrite Hser. set (L := [("id", VStr i); _; _; _; _; _]).
  assert (HL : storable (VObj L) = true).
  { unfold L. cbn [storable forallb].
    rewrite (storable_wf _ Hr), (storable_wf _ Ht), Sm, Sc. reflexivity. }
  assert (HdL : defined (VObj L) = true).
  { unfold L. cbn [defined forallb].
    rewrite (wf_stored_defined _ Hr), (wf_stored_defined _ Ht).
    rewrite !defined_js_or; [done | | done | | done].
    - intros E. by destruct (Hc E) as [ms ->].
    - intros E. by apply wf_stored_defined, Hm. }
  rewrite doc_set_run by done. cbn [ret].
  unfold MemoryFirestore.getThreadById. rewrite bind_run, doc_get_run.
  cbn [w_db with_db logged]. rewrite db_put_same, coll_get_put_eq.
  rewrite bind_run. unfold liftR, MemoryFirestore.deserializeThread.
  assert (HnL : NoDup (keys L)) by (apply (bool_decide_unpack _); vm_compute; exact I).
  rewrite !obj_get_toFirestore_doc by done.
  unfold L. cbn [obj_get String.eqb Ascii.eqb Bool.eqb].
  rewrite (toFirestore_wf _ Hr), (toFirestore_wf _ Ht), Em, Ec.
  pose proof (coerceDate_stored_date (w_now w)) as Ed. fold d in Ed. rewrite Ed.
  eexists. split; [reflexivity |].
  rewrite all_accepted_logged by done. cbn [w_log with_db].
  by rewrite all_accepted_logged.
Qed.

(** X9.  [updateThread] on a stored thread, with metadata that holds no
    undefined, replaces the title and the metadata, stamps [updatedAt], and
    leaves every other stored field as it was; it returns the thread as
    stored.  The update written holds no undefined. *)
Theorem updateThread_changes_title_metadata_updatedAt id title metadata data w :
  coll_get (w_db w TABLE_THREADS) id = Some data ->
  storable metadata = true -> defined metadata = true ->
  let d := VDate (Some (w_now w)) in
  let metadata' := toFirestore metadata in
  exists w' data',
    run (MemoryFirestore.updateThread id title metadata) w
    = (Ok [("id", obj_get data "id");
           ("resourceId", obj_get data "resourceId");
           ("title", VStr title);
           ("metadata", js_or metadata' (VObj []));
           ("createdAt", coerceDate (obj_get data "createdAt"));
           ("updatedAt", d)], w') /\
    coll_get (w_db w' TABLE_THREADS) id = Some data' /\
    obj_get data' "title" = VStr title /\
    obj_get data' "metadata" = metadata' /\
    obj_get data' "updatedAt" = timestamp_of (w_now w) /\
    (forall k, k <> "title" -> k <> "metadata" -> k <> "updatedAt" ->
       obj_get data' k = obj_get data k) /\
    all_accepted (w_log w') = all_accepted (w_log w).
Proof.
  intros Hd Hs Hdef d metadata'.
  set (updates := [("title", VStr title); ("metadata", metadata); ("updatedAt", d)]).
  assert (Hnd : NoDup (keys updates)) by (apply (bool_decide_unpack _); vm_compute; exact I).
  assert (Hsu : storable (VObj updates) = true).
  { unfold updates. cbn [storable forallb]. by rewrite Hs. }
  assert (Hdu : defined (VObj updates) = true).
  { unfold updates. cbn [defined forallb]. by rewrite Hdef. }
  unfold run, MemoryFirestore.updateThread.
  rewrite bind_run, doc_get_run, Hd. rewrite bind_run, now_run.
  change (w_now (logged _ w)) with (w_now w). fold d. fold updates.
  rewrite bind_run, (doc_update_run _ _ _ data) by done.
  rewrite bind_run, doc_get_run. cbn [w_db with_db logged].
  rewrite db_put_same, coll_get_put_eq.
  set (data' := obj_spread data (toFirestore_doc updates)).
  assert (Hget : forall k, obj_get data' k
                           = stored_or (obj_get data k) (obj_get updates k))
    by (intros k; by apply updated_get).
  assert (Hmeta : obj_get data' "metadata" = metadata').
  { rewrite Hget. unfold updates. cbn [obj_get String.eqb Ascii.eqb Bool.eqb].
    unfold metadata'. by destruct metadata. }
  exists (logged (EvGet TABLE_THREADS id)
            (with_db (db_put (w_db w) TABLE_THREADS (coll_put (w_db w TABLE_THREADS) id data'))
               (logged (EvWrite (WUpdate TABLE_THREADS id updates))
                  (logged (EvGet TABLE_THREADS id) w)))), data'.
  split.
  - unfold liftR, MemoryFirestore.deserializeThread. rewrite Hmeta.
    rewrite !Hget. unfold updates. cbn [obj_get String.eqb Ascii.eqb Bool.eqb].
    unfold d. cbn [stored_or]. by rewrite (coerceDate_stored_date (w_now w)).
  - cbn [w_db with_db logged]. rewrite db_put_same, coll_get_put_eq.
    split; [done |]. split; [by rewrite Hget |]. split; [exact Hmeta |].
    split; [by rewrite Hget |]. split.
    + intros k H1 H2 H3. rewrite Hget. unfold updates. cbn [obj_get].
      destruct (String.eqb_spec k "title"); [done |].
      destruct (String.eqb_spec k "metadata"); [done |].
      destruct (String.eqb_spec k "updatedAt"); done.
    + cbn [w_log with_db logged]. rewrite !all_accepted_app.
      cbn [all_accepted forallb accepted write_data].
      by rewrite Hdu, !andb_true_r.
Qed.

Lemma thread_messages_matches threadId d :
  matches (thread_messages_query threadId) d = true <->
  obj_get d "threadId" = VStr threadId.
Proof.
  unfold matches, thread_messages_query. simpl. rewrite !andb_true_r.
  rewrite andb_true_iff, value_eqb_str. split; [tauto |]. intros E. split; [| done].
  destruct (obj_has d "threadId") eqn:Eh; [done |].
  rewrite (obj_get_absent _ _ Eh) in E. discriminate.
Qed.

Lemma run_query_where_eq db t field s :
  run_query db (fs_where (collection t) field OpEq (VStr s))
  = Ok (matching db (fs_where (collection t) field OpEq (VStr s))).
Proof.
  unfold run_query.
  cbn [fs_where collection q_where q_offset q_limit app forallb filter_ok storable negb].
  cbn [Z.ltb Z.compare orb]. unfold ordered, window.
  cbn [q_order fs_where collection]. change (Z.to_nat 0) with 0%nat. by rewrite drop_0.
Qed.

(** A batch of deletes is accepted when it holds at most 500 of them. *)
Lemma accepted_deletes t (ids : list string) :
  (length ids <= 500)%nat -> accepted (EvCommit (map (fun id => WDelete t id) ids)) = true.
Proof.
  intros Hn. cbn [accepted]. rewrite length_map. apply andb_true_iff. split.
  - by apply Nat.leb_le.
  - apply forallb_forall. intros wr Hin. by apply in_map_iff in Hin as (id & <- & _).
Qed.

(** X10.  [deleteThread] on a thread of at most 500 messages removes the thread
    and every message that carries its id as [threadId], in one batch of at
    most 500 deletes; other threads and the messages of other threads
    stay. *)
Theorem deleteThread_removes_thread_and_messages threadId w :
  TABLE_THREADS <> TABLE_MESSAGES ->
  NoDup (map fst (w_db w TABLE_THREADS)) ->
  NoDup (map fst (w_db w TABLE_MESSAGES)) ->
  (length (matching (w_db w) (thread_messages_query threadId)) <= 500)%nat ->
  exists w',
    run (MemoryFirestore.deleteThread threadId) w = (Ok tt, w') /\
    coll_get (w_db w' TABLE_THREADS) threadId = None /\
    (forall id, id <> threadId ->
       coll_get (w_db w' TABLE_THREADS) id = coll_get (w_db w TABLE_THREADS) id) /\
    w_db w' TABLE_MESSAGES
    = List.filter (fun kd => negb (matches (thread_messages_query threadId) (snd kd)))
        (w_db w TABLE_MESSAGES) /\
    (forall id d, In (id, d) (w_db w' TABLE_MESSAGES) ->
       obj_get d "threadId" <> VStr threadId) /\
    all_accepted (w_log w') = all_accepted (w_log w).
Proof.
  intros Hne Hnt Hnm Hlen.
  set (P := fun kd : string * obj => matches (thread_messages_query threadId) (snd kd)).
  assert (Hfilter : forall id d,
    In (id, d) (List.filter (fun kd => negb (P kd)) (w_db w TABLE_MESSAGES)) ->
    obj_get d "threadId" <> VStr threadId).
  { intros id d Hin E. apply filter_In in Hin as [_ Hp]. unfold P in Hp. simpl in Hp.
    apply thread_messages_matches in E. by rewrite E in Hp. }
  assert (Hlen' : (length (List.filter P (w_db w TABLE_MESSAGES)) <= 500)%nat) by exact Hlen.
  unfold run, MemoryFirestore.deleteThread.
  rewrite bind_run. unfold doc_delete. rewrite write_run. cbn [apply_write].
  rewrite bind_run, query_get_run, run_query_where_eq. cbn [w_db with_db logged].
  fold (thread_messages_query threadId).
  set (db1 := db_put (w_db w) TABLE_THREADS (coll_remove (w_db w TABLE_THREADS) threadId)).
  assert (Hm1 : db1 TABLE_MESSAGES = w_db w TABLE_MESSAGES).
  { unfold db1. apply db_put_other. congruence. }
  assert (Hmsgs : matching db1 (thread_messages_query threadId)
                  = List.filter P (w_db w TABLE_MESSAGES)).
  { unfold matching. cbn [q_coll thread_messages_query fs_where collection].
    by rewrite Hm1. }
  rewrite Hmsgs.
  pose proof (remove_all_filter P _ Hnm) as Hrem.
  destruct (List.filter P (w_db w TABLE_MESSAGES)) as [|m msgs] eqn:Ef.
  - cbn [length Nat.ltb Nat.leb]. eexists. split; [reflexivity |].
    cbn [w_db with_db logged]. fold db1. unfold db1 at 1 2. rewrite db_put_same.
    split; [by apply coll_get_remove_eq |].
    split; [intros id Hid; apply coll_get_remove_ne; congruence |].
    rewrite Hm1.
    assert (E' : w_db w TABLE_MESSAGES
                 = List.filter (fun kd => negb (P kd)) (w_db w TABLE_MESSAGES))
      by exact Hrem.
    split; [exact E' |]. split; [intros id d Hin; apply (Hfilter id d); by rewrite <- E' |].
    cbn [w_log with_db logged]. rewrite !all_accepted_app. cbn [all_accepted forallb accepted write_data].
    by rewrite !andb_true_r.
  - change (0 <? length (m :: msgs))%nat with true. cbv iota.
    rewrite commit_run. cbn [w_db with_db logged]. fold db1.
    rewrite <- (map_map fst (fun id => WDelete TABLE_MESSAGES id)).
    pose proof (accepted_deletes TABLE_MESSAGES (map fst (m :: msgs))) as Hacc.
    rewrite length_map in Hacc. specialize (Hacc Hlen').
    destruct (apply_deletes_run db1 TABLE_MESSAGES (map fst (m :: msgs)))
      as (db' & Ha & Hb & Hc).
    rewrite Ha. eexists. split; [reflexivity |]. cbn [w_db with_db logged].
    rewrite (Hc TABLE_THREADS) by done. unfold db1 at 1 2. rewrite db_put_same.
    split; [by apply coll_get_remove_eq |].
    split; [intros id Hid; apply coll_get_remove_ne; congruence |].
    rewrite Hb, Hm1, Hrem. split; [done |]. split; [exact Hfilter |].
    cbn [w_log with_db logged]. rewrite !all_accepted_app.
    cbn [all_accepted forallb]. rewrite Hacc. cbn [accepted write_data].
    by rewrite !andb_true_r.
Qed.

Lemma message_ready_storable m : message_ready m -> storable (VObj m) = true.
Proof.
  intros (_ & Hnd & Hc & Hall). simpl. apply forallb_forall. intros [k v] Hin.
  rewrite Forall_forall in Hall. destruct (Hall (k, v)) as [E|E].
  { by apply list_elem_of_In. }
  - simpl in E. subst k. pose proof (obj_get_In _ _ _ Hnd Hin) as Ev.
    rewrite Ev in Hc. destruct (truthy v) eqn:Et.
    + by destruct (Hc eq_refl) as [ms ->].
    + by destruct v.
  - by apply storable_wf.
Qed.

(** What is stored for a message, and what the decoder makes of it. *)
Lemma message_stored d ms m :
  message_ready m -> js_or (obj_get m "createdAt") d = VDate (Some ms) ->
  toFirestore_doc (message_data d m) = obj_set m "createdAt" (timestamp_of ms) /\
  decodeMessage (toFirestore_doc (message_data d m))
  = obj_set m "createdAt" (VDate (Some ms)).
Proof.
  intros (_ & Hnd & _ & Hall) Ec.
  assert (Ed : message_data d m = obj_set m "createdAt" (VDate (Some ms))).
  { unfold message_data, MemoryFirestore.serializeMessage.
    by rewrite obj_get_set_eq, obj_set_set, Ec. }
  assert (Es : toFirestore_doc (message_data d m)
               = obj_set m "createdAt" (timestamp_of ms)).
  { rewrite Ed. rewrite toFirestore_doc_defined.
    - rewrite (map_obj_set toFirestore). apply obj_set_map_others; [done |].
      eapply Forall_impl; [exact Hall |]. intros [k v] [E|E]; [by left | right].
      by apply toFirestore_wf.
    - apply (Forall_obj_set (fun v => v <> VUndef)); [done | done |].
      eapply Forall_impl; [exact Hall |]. intros [k v] [E|E]; [by left | right].
      simpl in *. intros ->. discriminate. }
  split; [exact Es |]. unfold decodeMessage. rewrite Es, obj_get_set_eq, obj_set_set.
  change (timestamp_of ms) with (toFirestore (VDate (Some ms))).
  by rewrite (coerceDate_stored_date ms).
Qed.

Lemma message_ready_defined d m :
  message_ready m -> defined d = true -> defined (VObj (message_data d m)) = true.
Proof.
  intros (_ & Hnd & Hc & Hall) Hd.
  assert (Ed : message_data d m = obj_set m "createdAt" (js_or (obj_get m "createdAt") d)).
  { unfold message_data, MemoryFirestore.serializeMessage.
    by rewrite obj_get_set_eq, obj_set_set. }
  rewrite Ed. cbn [defined].
  assert (Hv : defined (js_or (obj_get m "createdAt") d) = true).
  { apply defined_js_or; [| done]. intros E. by destruct (Hc E) as [ms ->]. }
  pose proof (Forall_obj_set (fun v => defined v = true) m "createdAt" _ Hnd Hv) as HF.
  apply forallb_forall. intros [k v] Hin.
  assert (HF' : Forall (fun kv => defined (snd kv) = true)
                  (obj_set m "createdAt" (js_or (obj_get m "createdAt") d))).
  { apply HF. eapply Forall_impl; [exact Hall |]. intros [k0 v0] [E|E]; [by left | right].
    by apply wf_stored_defined. }
  rewrite Forall_forall in HF'. apply (HF' (k, v)). by apply list_elem_of_In.
Qed.

Lemma saveMessages_db messages w :
  messages <> [] -> (length messages <= 500)%nat ->
  Forall message_ready messages ->
  let d := VDate (Some (w_now w)) in
  exists w',
    run (MemoryFirestore.saveMessages messages) w = (Ok messages, w') /\
    w_db w' TABLE_MESSAGES
    = fold_left (fun c w => coll_put c (fst w) (toFirestore_doc (snd w)))
        (map (fun m => (message_id m, message_data d m)) messages)
        (w_db w TABLE_MESSAGES) /\
    all_accepted (w_log w') = all_accepted (w_log w).
Proof.
  intros Hne Hlen Hall d. unfold run, MemoryFirestore.saveMessages.
  destruct messages as [|m0 ms]; [done |]. cbn [length Nat.eqb].
  rewrite bind_run, now_run, bind_run. fold d.
  assert (Hids : Forall (fun m => exists id, obj_get m "id" = VStr id) (m0 :: ms)).
  { eapply Forall_impl; [exact Hall |]. by intros m (Hid & _). }
  pose proof (saveMessages_batch (m0 :: ms) w Hids) as Eb. fold d in Eb. rewrite Eb.
  rewrite bind_run, commit_run.
  set (batch := map (fun m => WSet TABLE_MESSAGES (message_id m) (message_data d m))
                  (m0 :: ms)).
  assert (Hacc : accepted (EvCommit batch) = true).
  { cbn [accepted]. apply andb_true_iff. split.
    - unfold batch. rewrite length_map. by apply Nat.leb_le.
    - apply forallb_forall. intros wr Hin. unfold batch in Hin.
      apply in_map_iff in Hin as (m & <- & Hin).
      cbn [write_data]. apply message_ready_defined; [| done].
      rewrite Forall_forall in Hall. apply Hall. by apply list_elem_of_In. }
  set (ws := map (fun m => (message_id m, message_data d m)) (m0 :: ms)).
  assert (Ews : batch = map (fun w => WSet TABLE_MESSAGES (fst w) (snd w)) ws).
  { unfold batch, ws. by rewrite map_map. }
  rewrite Ews.
  destruct (apply_sets (w_db w) TABLE_MESSAGES ws) as (db' & -> & Edb).
  { unfold ws. apply Forall_fmap. eapply Forall_impl; [exact Hall |].
    intros m Hm. simpl. apply message_data_storable; [| done].
    by apply message_ready_storable. }
  eexists. split; [reflexivity |]. rewrite <- Ews. split.
  - cbn [w_log w_db with_db logged]. exact Edb.
  - cbn [w_log with_db]. by apply all_accepted_logged.
Qed.

(** X11.  Every message that [saveMessages] saved, at most 500 at a time, is
    among what [getMessagesById] returns for its id, with [createdAt] as a
    date: the caller's, or the time of the save.  The batch holds no
    undefined. *)
Theorem saveMessages_then_getMessagesById messages w :
  messages <> [] -> (length messages <= 500)%nat ->
  Forall message_ready messages ->
  NoDup (map message_id messages) ->
  let d := VDate (Some (w_now w)) in
  exists w',
    run (MemoryFirestore.saveMessages messages) w = (Ok messages, w') /\
    all_accepted (w_log w') = all_accepted (w_log w) /\
    forall m, In m messages ->
      exists found,
        fst (run (MemoryFirestore.getMessagesById [message_id m]) w') = Ok found /\
        In (obj_set m "createdAt" (js_or (obj_get m "createdAt") d)) found.
Proof.
  intros Hne Hlen Hall Hnd d.
  destruct (saveMessages_db messages w Hne Hlen Hall) as (w' & Hr & Hdb & Hacc).
  fold d in Hdb.
  exists w'. split; [exact Hr |]. split; [exact Hacc |]. intros m Hin.
  assert (Hm : message_ready m).
  { rewrite Forall_forall in Hall. apply Hall. by apply list_elem_of_In. }
  assert (Ec : exists ms, js_or (obj_get m "createdAt") d = VDate (Some ms)).
  { destruct Hm as (_ & _ & Hc & _). unfold js_or.
    destruct (truthy (obj_get m "createdAt")); [by apply Hc | by eexists]. }
  destruct Ec as [ms Ec]. rewrite Ec.
  destruct (message_stored d ms m Hm Ec) as [Es Edec].
  rewrite getMessagesById_run. cbn [fst]. eexists. split; [reflexivity |].
  change (slices 10 [message_id m]) with [[message_id m]]. cbn [map concat].
  rewrite app_nil_r. apply found_In.
  exists (message_id m), (toFirestore_doc (message_data d m)).
  split; [| split].
  - apply coll_get_In. rewrite Hdb. apply coll_get_fold.
    + by rewrite map_map.
    + apply in_map_iff. by exists m.
  - exists (message_id m). split; [by left |]. rewrite Es.
    rewrite obj_get_set_ne by done.
    destruct Hm as ((id & Hid) & _). unfold message_id. by rewrite Hid.
  - by rewrite Edec.
Qed.

Lemma deleteMessages_db chunks w :
  exists w',
    forM_ chunks (fun batchIds => commit (map (fun id => WDelete TABLE_MESSAGES id) batchIds)) w
    = (Ok tt, w') /\
    w_db w' TABLE_MESSAGES = remove_all (concat chunks) (w_db w TABLE_MESSAGES) /\
    forall t, t <> TABLE_MESSAGES -> w_db w' t = w_db w t.
Proof.
  revert w. induction chunks as [|c chunks IH]; intros w.
  - by exists w.
  - cbn [forM_]. rewrite bind_run, commit_run.
    destruct (apply_deletes_run (w_db w) TABLE_MESSAGES c) as (db & -> & Hb & Hc).
    destruct (IH (with_db db (logged (EvCommit (map (fun id => WDelete TABLE_MESSAGES id) c)) w)))
      as (w' & -> & Hd & He).
    exists w'. split; [done |]. cbn [w_db with_db logged] in Hd, He.
    split.
    + rewrite Hd, Hb. cbn [concat]. by rewrite remove_all_app.
    + intros t Ht. by rewrite He, Hc.
Qed.

(** X12.  After [deleteMessages], none of the listed ids is stored any more, and
    every other message and collection is as before. *)
Theorem deleteMessages_removes_the_listed_ids messageIds w :
  NoDup (map fst (w_db w TABLE_MESSAGES)) ->
  exists w',
    run (MemoryFirestore.deleteMessages messageIds) w = (Ok tt, w') /\
    (forall id, coll_get (w_db w' TABLE_MESSAGES) id
                = if bool_decide (id ∈ messageIds) then None
                  else coll_get (w_db w TABLE_MESSAGES) id) /\
    (forall t, t <> TABLE_MESSAGES -> w_db w' t = w_db w t).
Proof.
  intros Hnd. unfold run, MemoryFirestore.deleteMessages.
  destruct messageIds as [|i ids]; [by exists w |].
  cbn [length Nat.eqb].
  destruct (deleteMessages_db (slices 500 (i :: ids)) w) as (w' & -> & Hd & He).
  exists w'. split; [done |]. split; [| exact He].
  intros id. rewrite Hd, slices_concat by lia. by apply coll_get_remove_all.
Qed.

Lemma threads_query_window r f d :
  q_offset (MemoryFirestore.threads_query r f d) = Some 0 /\
  q_limit (MemoryFirestore.threads_query r f d) = None.
Proof.
  unfold MemoryFirestore.threads_query.
  destruct (truthy (VStr f) && truthy (VStr d)); auto.
Qed.

Lemma messages_query_window t include :
  q_offset (MemoryFirestore.messages_query t include) = Some 0 /\
  q_limit (MemoryFirestore.messages_query t include) = None.
Proof.
  unfold MemoryFirestore.messages_query.
  set (q0 := fs_where (collection TABLE_MESSAGES) "threadId" OpEq (VStr t)).
  assert (G : forall q,
    let q' := fold_left (fun q id => fs_where q "id" OpEq (VStr id)) include q in
    q_offset q' = q_offset q /\ q_limit q' = q_limit q).
  { induction include as [|i l IH]; intros q; simpl; [auto |].
    destruct (IH (fs_where q "id" OpEq (VStr i))) as [A B]. auto. }
  destruct (G q0) as [A B]. simpl. auto.
Qed.

Lemma evals_query_window a t :
  q_offset (LegacyEvalsFirestore.evals_query a t) = Some 0 /\
  q_limit (LegacyEvalsFirestore.evals_query a t) = None.
Proof.
  unfold LegacyEvalsFirestore.evals_query.
  destruct (truthy (opt_str a)), (truthy (opt_str t)); auto.
Qed.

Lemma traces_query_window fromDate toDate :
  q_offset (TracesFirestore.traces_query fromDate toDate) = Some 0 /\
  q_limit (TracesFirestore.traces_query fromDate toDate) = None.
Proof.
  unfold TracesFirestore.traces_query.
  destruct (truthy fromDate), (truthy toDate); auto.
Qed.

Lemma messages_query_where t include :
  q_where (MemoryFirestore.messages_query t include)
  = ("threadId", OpEq, VStr t) :: map (fun id => ("id", OpEq, VStr id)) include /\
  q_coll (MemoryFirestore.messages_query t include) = TABLE_MESSAGES.
Proof.
  unfold MemoryFirestore.messages_query.
  set (q0 := fs_where (collection TABLE_MESSAGES) "threadId" OpEq (VStr t)).
  assert (G : forall q,
    let q' := fold_left (fun q id => fs_where q "id" OpEq (VStr id)) include q in
    q_where q' = (q_where q ++ map (fun id => ("id", OpEq, VStr id)) include)%list /\
    q_coll q' = q_coll q).
  { induction include as [|i l IH]; intros q; simpl; [by rewrite app_nil_r |].
    destruct (IH (fs_where q "id" OpEq (VStr i))) as [A B].
    split; [| exact B]. rewrite A. simpl. by rewrite <- app_assoc. }
  destruct (G q0) as [A B]. simpl. auto.
Qed.

(** The documents [getMessages] selects: those of the thread whose id
    equals every included id. *)
Lemma messages_query_matches t include d :
  matches (MemoryFirestore.messages_query t include) d = true ->
  obj_get d "threadId" = VStr t /\ forall x, In x include -> obj_get d "id" = VStr x.
Proof.
  unfold matches. destruct (messages_query_where t include) as [-> _].
  intros Hm. apply andb_true_iff in Hm as [Hm _]. cbn [forallb] in Hm.
  apply andb_true_iff in Hm as [Ht Hi]. split.
  - simpl in Ht. apply andb_true_iff in Ht as [_ Ht]. by apply value_eqb_str.
  - intros x Hx. rewrite forallb_forall in Hi.
    specialize (Hi ("id", OpEq, VStr x)). simpl in Hi.
    assert (Hin : In ("id", OpEq, VStr x) (map (fun id => ("id", OpEq, VStr id)) include))
      by (apply in_map_iff; by exists x).
    apply Hi in Hin. apply andb_true_iff in Hin as [_ Hin]. by apply value_eqb_str.
Qed.

(** X13.  The ids listed under [include] are conditions that must all hold: a
    message is returned only if its id equals each of them, so two distinct
    included ids select nothing, from [getMessages] and from
    [getMessagesPaginated] alike. *)
Theorem getMessages_conjoins_the_included_ids args w :
  let include := or_default (MemoryFirestore.ms_include args) [] in
  (forall all m,
     fst (run (MemoryFirestore.getMessages args) w) = Ok all -> In m all ->
     exists id d,
       In (id, d) (w_db w TABLE_MESSAGES) /\ m = decodeMessage d /\
       obj_get d "threadId" = VStr (MemoryFirestore.ms_threadId args) /\
       forall x, In x include -> obj_get d "id" = VStr x) /\
  (forall a b,
     In a include -> In b include -> a <> b ->
     fst (run (MemoryFirestore.getMessages args) w) = Ok [] /\
     forall r, fst (run (MemoryFirestore.getMessagesPaginated args) w) = Ok r ->
               items r = [] /\ total r = 0 /\ hasMore r = false).
Proof.
  intros include.
  set (q := MemoryFirestore.messages_query (MemoryFirestore.ms_threadId args) include).
  destruct (messages_query_ok (MemoryFirestore.ms_threadId args) include) as (Hf & Ho & Hc).
  destruct (messages_query_window (MemoryFirestore.ms_threadId args) include) as [Hoff Hlim].
  assert (Hrun : fst (run (MemoryFirestore.getMessages args) w)
                 = mapR (fun doc => MemoryFirestore.deserializeMessage (Some (snd doc)))
                     (ordered (w_db w) q)).
  { unfold run, MemoryFirestore.getMessages. cbv zeta. fold include. fold q.
    rewrite bind_run, query_get_run. unfold run_query. fold q in Hf, Hoff, Hlim.
    rewrite Hf, Hoff, Hlim. cbn [negb Z.ltb Z.compare orb]. unfold window.
    change (Z.to_nat 0) with 0%nat. by rewrite drop_0. }
  split.
  - intros all m Hall Hin. rewrite Hrun in Hall.
    destruct (mapR_In _ _ _ _ Hall Hin) as ([id d] & Hd & Em).
    apply ordered_In_matching in Hd. unfold matching in Hd.
    apply filter_In in Hd as [Hd Hm]. fold q in Hc. rewrite Hc in Hd.
    simpl in Em, Hm. injection Em as <-.
    destruct (messages_query_matches _ _ _ Hm) as [Ht Hi].
    exists id, d. auto.
  - intros a b Ha Hb Hne.
    assert (Hnone : matching (w_db w) q = []).
    { unfold matching.
      induction (w_db w (q_coll q)) as [|[id d] c IH]; [done |]. cbn [List.filter snd].
      destruct (matches q d) eqn:Em; [| exact IH].
      destruct (messages_query_matches _ _ _ Em) as [_ Hi].
      pose proof (Hi a Ha) as Ea. rewrite (Hi b Hb) in Ea. congruence. }
    assert (Hord : ordered (w_db w) q = []).
    { destruct (ordered (w_db w) q) as [|x l] eqn:E; [done |].
      assert (Hx : In x (ordered (w_db w) q)) by (rewrite E; by left).
      apply ordered_In_matching in Hx. by rewrite Hnone in Hx. }
    split; [by rewrite Hrun, Hord |].
    intros r Hr. rewrite getMessagesPaginated_paged in Hr. fold include in Hr. fold q in Hr.
    apply paged_inv in Hr as (H1 & H2 & Hm & _ & _ & Ht & Hh).
    rewrite Hord in Hm. unfold window in Hm. rewrite drop_nil, take_nil in Hm.
    simpl in Hm. injection Hm as <-. rewrite Hnone in Ht. simpl in Ht.
    split; [done |]. split; [done |]. rewrite Hh, Ht. apply Z.ltb_ge. nia.
Qed.

(** X14.  A paginated read of threads or messages returns the window of what
    its unpaginated companion returns on the same store: page [p] of size
    [pp] holds the items from position [(p - 1) * pp] on, at most [pp] of
    them, and its total is the length of the whole list. *)
Theorem pages_are_windows_of_the_whole_lists :
  (forall args w all,
     fst (run (MemoryFirestore.getThreadsByResourceId args) w) = Ok all ->
     let p := or_default (MemoryFirestore.th_page args) 1 in
     let pp := or_default (MemoryFirestore.th_perPage args) 20 in
     1 <= p -> 0 <= pp ->
     exists r,
       fst (run (MemoryFirestore.getThreadsByResourceIdPaginated args) w) = Ok r /\
       items r = window ((p - 1) * pp) (Some pp) all /\
       total r = Z.of_nat (length all)) /\
  (forall args w all,
     fst (run (MemoryFirestore.getMessages args) w) = Ok all ->
     let pagination := or_default (MemoryFirestore.ms_pagination args) no_pagination in
     let p := or_default (sp_page pagination) 1 in
     let pp := or_default (sp_perPage pagination) 20 in
     1 <= p -> 0 <= pp ->
     exists r,
       fst (run (MemoryFirestore.getMessagesPaginated args) w) = Ok r /\
       items r = window ((p - 1) * pp) (Some pp) all /\
       total r = Z.of_nat (length all)).
Proof.
  split.
  - intros args w all Hall p pp Hp Hpp.
    rewrite getThreadsByResourceIdPaginated_paged.
    apply listed_run in Hall as [Hf Hall]; try apply threads_query_window.
    by apply paged_window.
  - intros args w all Hall pagination p pp Hp Hpp.
    rewrite getMessagesPaginated_paged.
    apply listed_run in Hall as [Hf Hall]; try apply messages_query_window.
    by apply paged_window.
Qed.

(** X25.  [getEvals] for an agent returns the window of what
    [getEvalsByAgentName] returns, and [getTracesPaginated] the window of
    what [getTraces] returns: page [p] of size [pp] holds the items from
    position [(p - 1) * pp] on, at most [pp] of them, and its total is the
    length of the whole list. *)
Theorem evals_and_traces_are_paged_by_windows :
  (forall agentName type page perPage w all,
     agentName <> "" ->
     fst (run (LegacyEvalsFirestore.getEvalsByAgentName agentName type) w) = Ok all ->
     let p := or_default page 1 in
     let pp := or_default perPage 20 in
     1 <= p -> 0 <= pp ->
     exists r,
       fst (run (LegacyEvalsFirestore.getEvals
                   (LegacyEvalsFirestore.mkEvalsOptions (Some agentName) type page perPage))
              w) = Ok r /\
       items r = window ((p - 1) * pp) (Some pp) all /\
       total r = Z.of_nat (length all)) /\
  (forall args w all p pp,
     fst (run (TracesFirestore.getTraces args) w) = Ok all ->
     TracesFirestore.tr_page args = Some p ->
     TracesFirestore.tr_perPage args = Some pp ->
     1 <= p -> 0 <= pp ->
     exists r,
       fst (run (TracesFirestore.getTracesPaginated args) w) = Ok r /\
       items r = window ((p - 1) * pp) (Some pp) all /\
       total r = Z.of_nat (length all)).
Proof.
  split.
  - intros agentName type page perPage w all Hne Hall p pp Hp Hpp.
    rewrite getEvals_paged.
    cbn [LegacyEvalsFirestore.ev_agentName LegacyEvalsFirestore.ev_type
         LegacyEvalsFirestore.ev_page LegacyEvalsFirestore.ev_perPage].
    assert (Eq : LegacyEvalsFirestore.evals_query (Some agentName) type
                 = fs_orderBy
                     (let query := fs_where (collection TABLE_EVALS) "agentName" OpEq
                                     (VStr agentName) in
                      if truthy (opt_str type)
                      then fs_where query "type" OpEq (opt_str type) else query)
                     "createdAt" Desc).
    { unfold LegacyEvalsFirestore.evals_query. cbn [opt_str].
      assert (Ht : truthy (VStr agentName) = true).
      { simpl. apply String.eqb_neq in Hne. by rewrite Hne. }
      by rewrite Ht. }
    unfold run, LegacyEvalsFirestore.getEvalsByAgentName in Hall. cbv zeta in Hall.
    cbv zeta in Eq. rewrite <- Eq in Hall.
    apply listed_run in Hall as [Hf Hall]; try apply evals_query_window.
    by apply paged_window.
  - intros args w all p pp Hall Hp' Hpp' Hp Hpp.
    rewrite (getTracesPaginated_paged args w p pp) by done.
    apply listed_run in Hall as [Hf Hall]; try apply traces_query_window.
    by apply paged_window.
Qed.

(** X15.  Reading a resource back after [saveResource] gives its five fields as
    they were saved: working memory defaulted to the empty string, metadata
    to the empty map, and both dates to the millisecond. *)
Theorem saveResource_then_getResourceById resource i w :
  obj_get resource "id" = VStr i ->
  (truthy (obj_get resource "workingMemory") = true ->
   wf_stored (obj_get resource "workingMemory") = true) ->
  (truthy (obj_get resource "metadata") = true ->
   wf_stored (obj_get resource "metadata") = true) ->
  (truthy (obj_get resource "createdAt") = true ->
   exists ms, obj_get resource "createdAt" = VDate (Some ms)) ->
  let d := VDate (Some (w_now w)) in
  exists w',
    run (MemoryFirestore.saveResource resource ;; MemoryFirestore.getResourceById i) w
    = (Ok (VObj [("id", VStr i);
                 ("workingMemory", js_or (obj_get resource "workingMemory") (VStr ""));
                 ("metadata", js_or (obj_get resource "metadata") (VObj []));
                 ("createdAt", js_or (obj_get resource "createdAt") d);
                 ("updatedAt", d)]), w').
Proof.
  intros Hid Hwm Hm Hc d.
  destruct (stored_workingMemory _ Hwm) as [Ew Sw].
  destruct (stored_metadata _ Hm) as [Em Sm].
  destruct (stored_createdAt _ (w_now w) Hc) as [Ec Sc]. fold d in Ec, Sc.
  unfold run. rewrite bind_run. unfold MemoryFirestore.saveResource.
  rewrite Hid. cbn [MemoryFirestore.doc_path]. rewrite bind_run. cbn [ret].
  rewrite bind_run, now_run, bind_run. fold d.
  set (resourceData := obj_set (obj_set resource "createdAt" _) "updatedAt" d).
  assert (Hser : MemoryFirestore.serializeResource resourceData
                 = [("id", VStr i);
                    ("workingMemory", js_or (obj_get resource "workingMemory") (VStr ""));
                    ("metadata", js_or (obj_get resource "metadata") (VObj []));
                    ("createdAt", js_or (obj_get resource "createdAt") d);
                    ("updatedAt", d)]).
  { unfold MemoryFirestore.serializeResource, resourceData.
    rewrite obj_get_set_eq. rewrite !(obj_get_set_ne _ "updatedAt") by done.
    rewrite obj_get_set_eq. rewrite !(obj_get_set_ne _ "createdAt") by done.
    by rewrite Hid. }
  rewrite Hser. set (L := [("id", VStr i); _; _; _; _]).
  assert (HL : storable (VObj L) = true).
  { unfold L. cbn [storable forallb]. rewrite Sw, Sm, Sc. reflexivity. }
  rewrite doc_set_run by done. cbn [ret].
  unfold MemoryFirestore.getResourceById. rewrite bind_run, doc_get_run.
  cbn [w_db with_db logged]. rewrite db_put_same, coll_get_put_eq.
  rewrite bind_run. unfold liftR, MemoryFirestore.deserializeResource.
  assert (HnL : NoDup (keys L)) by (apply (bool_decide_unpack _); vm_compute; exact I).
  rewrite !obj_get_toFirestore_doc by done.
  unfold L. cbn [obj_get String.eqb Ascii.eqb Bool.eqb].
  rewrite Ew, Em, Ec.
  pose proof (coerceDate_stored_date (w_now w)) as Ed. fold d in Ed. rewrite Ed.
  eexists. reflexivity.
Qed.





(** X17.  Reading a score back after [saveScore], for a score that has its
    eight plain fields: the id is the generated one, both dates are the time
    of the call, the eight plain fields and the metadata are as passed;
    whatever the score held as [output], [input], [entity] and [scorer] is
    not stored, and reads back as the empty map.  The document written
    holds no undefined. *)
Theorem saveScore_then_getScoreById score w :
  Forall (fun k => wf_stored (obj_get score k) = true)
    ["scorerId"; "entityId"; "entityType"; "source"; "runId"; "traceId"; "spanId";
     "score"] ->
  (truthy (obj_get score "metadata") = true ->
   wf_stored (obj_get score "metadata") = true) ->
  let id := "auto-" +:+ pretty (w_ids w) in
  let d := VDate (Some (w_now w)) in
  exists w',
    run (ScoresFirestore.saveScore score ;; ScoresFirestore.getScoreById id) w
    = (Ok (VObj [("id", VStr id);
                 ("scorerId", obj_get score "scorerId");
                 ("entityId", obj_get score "entityId");
                 ("entityType", obj_get score "entityType");
                 ("source", obj_get score "source");
                 ("runId", obj_get score "runId");
                 ("traceId", obj_get score "traceId");
                 ("spanId", obj_get score "spanId");
                 ("score", obj_get score "score");
                 ("metadata", js_or (obj_get score "metadata") (VObj []));
                 ("createdAt", d);
                 ("updatedAt", d);
                 ("output", VObj []);
                 ("input", VObj []);
                 ("entity", VObj []);
                 ("scorer", VObj [])]), w') /\
    all_accepted (w_log w') = all_accepted (w_log w).
Proof.
  intros Hk Hm id d.
  destruct (stored_metadata _ Hm) as [Em Sm].
  assert (K : forall k, In k ["scorerId"; "entityId"; "entityType"; "source"; "runId";
                              "traceId"; "spanId"; "score"] ->
                        wf_stored (obj_get score k) = true).
  { intros k Hin. rewrite Forall_forall in Hk. apply Hk. by apply list_elem_of_In. }
  pose proof (K "scorerId" ltac:(simpl; tauto)) as K1.
  pose proof (K "entityId" ltac:(simpl; tauto)) as K2.
  pose proof (K "entityType" ltac:(simpl; tauto)) as K3.
  pose proof (K "source" ltac:(simpl; tauto)) as K4.
  pose proof (K "runId" ltac:(simpl; tauto)) as K5.
  pose proof (K "traceId" ltac:(simpl; tauto)) as K6.
  pose proof (K "spanId" ltac:(simpl; tauto)) as K7.
  pose proof (K "score" ltac:(simpl; tauto)) as K8.
  unfold run. rewrite bind_run. unfold ScoresFirestore.saveScore.
  rewrite bind_run, auto_id_run. fold id. rewrite bind_run, now_run. cbn [w_now]. fold d.
  set (scoreData := obj_set (obj_set (obj_set score "id" (VStr id)) "createdAt" d)
                      "updatedAt" d).
  assert (Hg : forall k, k <> "id" -> k <> "createdAt" -> k <> "updatedAt" ->
                         obj_get scoreData k = obj_get score k).
  { intros k H1 H2 H3. unfold scoreData. by rewrite !obj_get_set_ne by congruence. }
  assert (Hser : ScoresFirestore.serializeScore scoreData
                 = [("id", VStr id);
                    ("scorerId", obj_get score "scorerId");
                    ("entityId", obj_get score "entityId");
                    ("entityType", obj_get score "entityType");
                    ("source", obj_get score "source");
                    ("runId", obj_get score "runId");
                    ("traceId", obj_get score "traceId");
                    ("spanId", obj_get score "spanId");
                    ("score", obj_get score "score");
                    ("metadata", js_or (obj_get score "metadata") (VObj []));
                    ("createdAt", d);
                    ("updatedAt", d)]).
  { unfold ScoresFirestore.serializeScore.
    rewrite (Hg "scorerId"), (Hg "entityId"), (Hg "entityType"), (Hg "source"),
      (Hg "runId"), (Hg "traceId"), (Hg "spanId"), (Hg "score"), (Hg "metadata") by done.
    unfold scoreData. rewrite obj_get_set_eq.
    rewrite (obj_get_set_ne _ "updatedAt" "createdAt") by done. rewrite obj_get_set_eq.
    rewrite (obj_get_set_ne _ "updatedAt" "id"), (obj_get_set_ne _ "createdAt" "id") by done.
    by rewrite obj_get_set_eq. }
  rewrite Hser. set (L := [("id", VStr id); _; _; _; _; _; _; _; _; _; _; _]).
  assert (HL : storable (VObj L) = true).
  { unfold L. cbn [storable forallb].
    rewrite (storable_wf _ K1), (storable_wf _ K2), (storable_wf _ K3),
      (storable_wf _ K4), (storable_wf _ K5), (storable_wf _ K6),
      (storable_wf _ K7), (storable_wf _ K8), Sm. reflexivity. }
  assert (HdL : defined (VObj L) = true).
  { unfold L. cbn [defined forallb].
    rewrite (wf_stored_defined _ K1), (wf_stored_defined _ K2), (wf_stored_defined _ K3),
      (wf_stored_defined _ K4), (wf_stored_defined _ K5), (wf_stored_defined _ K6),
      (wf_stored_defined _ K7), (wf_stored_defined _ K8).
    rewrite defined_js_or; [done | | done].
    intros E. by apply wf_stored_defined, Hm. }
  rewrite bind_run, doc_set_run by done. cbn [ret].
  unfold ScoresFirestore.getScoreById. rewrite bind_run, doc_get_run.
  cbn [w_db with_db logged]. rewrite db_put_same, coll_get_put_eq.
  rewrite bind_run. unfold liftR, ScoresFirestore.deserializeScore.
  assert (HnL : NoDup (keys L)) by (apply (bool_decide_unpack _); vm_compute; exact I).
  rewrite !obj_get_toFirestore_doc by done.
  unfold L. cbn [obj_get String.eqb Ascii.eqb Bool.eqb].
  rewrite (toFirestore_wf _ K1), (toFirestore_wf _ K2), (toFirestore_wf _ K3),
    (toFirestore_wf _ K4), (toFirestore_wf _ K5), (toFirestore_wf _ K6),
    (toFirestore_wf _ K7), (toFirestore_wf _ K8), Em.
  pose proof (coerceDate_stored_date (w_now w)) as Ed. fold d in Ed. rewrite Ed.
  eexists. split; [reflexivity |].
  rewrite all_accepted_logged by done. cbn [w_log with_db].
  by rewrite all_accepted_logged.
Qed.

End one_record.

(** ** Workflow snapshots and runs *)

Section workflow_runs.
Context `{JSBuiltins} `{Tables}.

(** The run state is read off twelve fields. *)
Lemma deserializeWorkflowRunState_ext (a b : obj) :
  (forall k, In k ["runId"; "status"; "result"; "runtimeContext"; "error";
                   "suspendedPaths"; "waitingPaths"; "timestamp"; "value"; "context";
                   "serializedStepGraph"; "activePaths"] ->
             obj_get a k = obj_get b k) ->
  WorkflowsFirestore.deserializeWorkflowRunState (Some a)
  = WorkflowsFirestore.deserializeWorkflowRunState (Some b).
Proof.
  intros Hk. unfold WorkflowsFirestore.deserializeWorkflowRunState.
  rewrite !Hk by (simpl; tauto). reflexivity.
Qed.

Lemma persisted_facts workflowName resourceId snapshot now :
  storable (VObj snapshot) = true ->
  let x := persisted workflowName resourceId snapshot (VDate (Some now)) in
  storable (VObj x) = true /\ NoDup (keys x) /\
  (forall k, k <> "workflowName" -> k <> "resourceId" -> k <> "updatedAt" ->
             obj_has x k = obj_has snapshot k).
Proof.
  intros Hs x. unfold x, persisted. split; [| split].
  - apply storable_set; [| done]. apply storable_spread; [| done]. by destruct resourceId.
  - apply NoDup_obj_set, NoDup_spread. apply (bool_decide_unpack _). vm_compute. exact I.
  - intros k H1 H2 H3. rewrite obj_has_set_ne by congruence. rewrite obj_has_spread.
    cbn [obj_has].
    destruct (String.eqb_spec k "workflowName"); [done |].
    by destruct (String.eqb_spec k "resourceId").
Qed.

Lemma persisted_get workflowName resourceId snapshot d k :
  NoDup (keys snapshot) ->
  k <> "workflowName" -> k <> "resourceId" -> k <> "updatedAt" ->
  obj_get (persisted workflowName resourceId snapshot d) k = obj_get snapshot k.
Proof.
  intros Hnd H1 H2 H3. unfold persisted. rewrite obj_get_set_ne by congruence.
  rewrite obj_get_spread by done. destruct (obj_has snapshot k) eqn:Eh; [done |].
  rewrite (obj_get_absent _ _ Eh). cbn [obj_get].
  destruct (String.eqb_spec k "workflowName"); [done |].
  by destruct (String.eqb_spec k "resourceId").
Qed.

Lemma persistWorkflowSnapshot_run workflowName runId resourceId snapshot w :
  storable (VObj snapshot) = true ->
  let id := WorkflowsFirestore.snapshot_id workflowName runId in
  let x := persisted workflowName resourceId snapshot (VDate (Some (w_now w))) in
  WorkflowsFirestore.persistWorkflowSnapshot workflowName runId resourceId snapshot w
  = (Ok tt,
     with_db (db_put (w_db w) TABLE_WORKFLOW_SNAPSHOT
                (coll_put (w_db w TABLE_WORKFLOW_SNAPSHOT) id
                   (merge_obj (match coll_get (w_db w TABLE_WORKFLOW_SNAPSHOT) id with
                               | Some d => d
                               | None => []
                               end) (toFirestore_doc x))))
       (logged (EvWrite (WSetMerge TABLE_WORKFLOW_SNAPSHOT id x)) w)).
Proof.
  intros Hs id x. unfold WorkflowsFirestore.persistWorkflowSnapshot.
  rewrite bind_run, now_run. fold id. fold (persisted workflowName resourceId snapshot
                                              (VDate (Some (w_now w)))). fold x.
  apply doc_set_merge_run. by apply persisted_facts.
Qed.

Lemma persisted_defined workflowName resourceId snapshot now :
  defined (VObj snapshot) = true ->
  defined (VObj (persisted workflowName (Some resourceId) snapshot (VDate (Some now)))) = true.
Proof.
  intros Hd. unfold persisted. apply defined_set; [| done]. by apply defined_spread.
Qed.

(** X18.  A snapshot persisted with a resource id under a new document id and
    loaded again gives the run state read off the snapshot itself.  The
    document written holds no undefined. *)
Theorem persistWorkflowSnapshot_then_loadWorkflowSnapshot
    workflowName runId (resourceId : string) snapshot w :
  coll_get (w_db w TABLE_WORKFLOW_SNAPSHOT)
    (WorkflowsFirestore.snapshot_id workflowName runId) = None ->
  wf_stored (VObj snapshot) = true ->
  exists w' state,
    run (WorkflowsFirestore.persistWorkflowSnapshot workflowName runId (Some resourceId)
           snapshot ;;
         WorkflowsFirestore.loadWorkflowSnapshot workflowName runId) w
    = (Ok (VObj state), w') /\
    WorkflowsFirestore.deserializeWorkflowRunState (Some snapshot) = Ok state /\
    all_accepted (w_log w') = all_accepted (w_log w).
Proof.
  intros Hfresh Hwf.
  destruct (wf_stored_obj _ Hwf) as [Hall Hnd].
  pose proof (storable_wf _ Hwf) as Hs.
  unfold run. rewrite bind_run, persistWorkflowSnapshot_run by done. rewrite Hfresh.
  unfold WorkflowsFirestore.loadWorkflowSnapshot.
  rewrite bind_run, doc_get_run. cbn [w_db with_db logged].
  rewrite db_put_same, coll_get_put_eq. rewrite bind_run. unfold liftR.
  set (x := persisted workflowName (Some resourceId) snapshot (VDate (Some (w_now w)))).
  destruct (persisted_facts workflowName (Some resourceId) snapshot (w_now w) Hs)
    as (_ & Hnx & _).
  assert (Hdx : defined (VObj x) = true)
    by (by apply persisted_defined, wf_stored_defined).
  fold x in Hnx.
  rewrite (deserializeWorkflowRunState_ext _ snapshot).
  - eexists _, _. split; [reflexivity |]. split; [reflexivity |].
    rewrite all_accepted_logged by done. cbn [w_log with_db].
    by rewrite all_accepted_logged.
  - intros k Hk.
    assert (Hx : obj_get x k = obj_get snapshot k).
    { apply persisted_get; [done | | |]; intros ->; simpl in Hk;
        repeat (destruct Hk as [Hk|Hk]; [discriminate |]); done. }
    rewrite fresh_merge_get; [done | done |]. rewrite Hx.
    destruct (obj_has snapshot k) eqn:Eh.
    + pose proof (wf_stored_get _ _ Hwf Eh) as Hv. by destruct (obj_get snapshot k).
    + by rewrite (obj_get_absent _ _ Eh).
Qed.


Lemma deserializeWorkflowRun_no_snapshot data :
  truthy (obj_get data "snapshot") = false ->
  WorkflowsFirestore.deserializeWorkflowRun (Some data)
  = Throw (Error "Workflow run state data is undefined").
Proof.
  intros Hs. unfold WorkflowsFirestore.deserializeWorkflowRun. by rewrite Hs.
Qed.

Lemma deserializeWorkflowRun_ok data x :
  WorkflowsFirestore.deserializeWorkflowRun (Some data) = Ok x ->
  truthy (obj_get data "snapshot") = true.
Proof.
  unfold WorkflowsFirestore.deserializeWorkflowRun.
  by destruct (truthy (obj_get data "snapshot")).
Qed.

(** X20.  [getWorkflowRunById] and [getWorkflowRuns] read the run state off a
    [snapshot] field, which [persistWorkflowSnapshot] does not write (it
    spreads the snapshot over the document).  So a run that was persisted
    (with a resource id, the write being one every client accepts) from a
    snapshot without a [snapshot] field of its own, onto no document or onto
    one without such a field, cannot be read by id; and every run that
    [getWorkflowRuns] returns comes from a document that has a [snapshot]
    field and a [createdAt] field. *)
Theorem workflow_runs_are_read_off_a_snapshot_field :
  (forall workflowName runId (resourceId : string) snapshot w,
     workflowName <> "" ->
     storable (VObj snapshot) = true -> defined (VObj snapshot) = true ->
     obj_has snapshot "snapshot" = false ->
     match coll_get (w_db w TABLE_WORKFLOW_SNAPSHOT)
             (WorkflowsFirestore.snapshot_id workflowName runId) with
     | Some old => truthy (obj_get old "snapshot") = false
     | None => True
     end ->
     exists w',
       run (WorkflowsFirestore.persistWorkflowSnapshot workflowName runId
              (Some resourceId) snapshot ;;
            WorkflowsFirestore.getWorkflowRunById runId (Some workflowName)) w
       = (Throw (Error "Workflow run state data is undefined"), w') /\
       all_accepted (w_log w') = all_accepted (w_log w)) /\
  (forall args w r x,
     fst (run (WorkflowsFirestore.getWorkflowRuns args) w) = Ok r ->
     In x (WorkflowsFirestore.runs r) ->
     exists id data,
       In (id, data) (w_db w TABLE_WORKFLOW_SNAPSHOT) /\
       WorkflowsFirestore.deserializeWorkflowRun (Some data) = Ok x /\
       truthy (obj_get data "snapshot") = true /\
       obj_has data "createdAt" = true).
Proof.
  split.
  - intros workflowName runId resourceId snapshot w Hne Hs Hdef Hno Hold.
    pose proof (persisted_defined workflowName resourceId snapshot (w_now w) Hdef) as Hdx.
    set (id := WorkflowsFirestore.snapshot_id workflowName runId) in *.
    unfold run. rewrite bind_run, persistWorkflowSnapshot_run by done. fold id.
    unfold WorkflowsFirestore.getWorkflowRunById. cbn [opt_str or_default].
    assert (Ht : truthy (VStr workflowName) = true).
    { simpl. apply String.eqb_neq in Hne. by rewrite Hne. }
    rewrite Ht. fold id. rewrite bind_run, doc_get_run. cbn [w_db with_db logged].
    rewrite db_put_same, coll_get_put_eq. rewrite bind_run. unfold liftR.
    rewrite deserializeWorkflowRun_no_snapshot.
    { eexists. split; [reflexivity |].
      rewrite all_accepted_logged by done. cbn [w_log with_db].
      by rewrite all_accepted_logged. }
    destruct (persisted_facts workflowName (Some resourceId) snapshot (w_now w) Hs)
      as (_ & Hnx & Hhas).
    rewrite merge_obj_get by by apply NoDup_keys_toFirestore_doc.
    assert (Hh : obj_has (toFirestore_doc
                            (persisted workflowName (Some resourceId) snapshot
                               (VDate (Some (w_now w))))) "snapshot" = false).
    { rewrite obj_has_toFirestore_doc by done. rewrite Hhas by done. by rewrite Hno. }
    rewrite Hh. by destruct (coll_get _ id).
  - intros args w r x Hr Hx. unfold run, WorkflowsFirestore.getWorkflowRuns in Hr.
    cbv zeta in Hr. rewrite bind_run, query_count_run in Hr.
    destruct (run_count _ _) as [n|]; [| discriminate].
    rewrite bind_run, query_get_run in Hr.
    destruct (run_query _ _) as [snapshot|] eqn:Eq; [| discriminate].
    rewrite bind_run in Hr. unfold liftR in Hr.
    destruct (mapR _ snapshot) as [xs|] eqn:Em; [| discriminate].
    cbn [ret fst] in Hr. injection Hr as <-. cbn [WorkflowsFirestore.runs] in Hx.
    destruct (mapR_In _ _ _ _ Em Hx) as ([id data] & Hin & Ed). cbn [snd] in Ed.
    exists id, data.
    assert (Hm : In (id, data) (matching (w_db w) (WorkflowsFirestore.runs_query args))).
    { cbn [w_db logged] in Eq. unfold run_query in Eq.
      destruct (negb _); [discriminate |].
      cbn [q_offset q_limit fs_limit fs_offset] in Eq.
      destruct (_ || _); [discriminate |]. injection Eq as <-.
      change (In (id, data)
                (window (or_default (WorkflowsFirestore.wr_offset args) 0)
                   (Some (or_default (WorkflowsFirestore.wr_limit args) 50))
                   (ordered (w_db w) (WorkflowsFirestore.runs_query args)))) in Hin.
      apply window_In in Hin. by apply ordered_In_matching in Hin. }
    unfold matching in Hm. apply filter_In in Hm as [Hd Hm]. cbn [snd] in Hm.
    assert (Hq : q_coll (WorkflowsFirestore.runs_query args) = TABLE_WORKFLOW_SNAPSHOT /\
                 q_order (WorkflowsFirestore.runs_query args) = Some ("createdAt", Desc)).
    { unfold WorkflowsFirestore.runs_query.
      destruct (truthy (opt_str _)), (truthy (opt_str _)), (truthy _), (truthy _); auto. }
    destruct Hq as [Hc Ho]. rewrite Hc in Hd.
    split; [done |]. split; [done |]. split; [by apply (deserializeWorkflowRun_ok _ x) |].
    unfold matches in Hm. rewrite Ho in Hm. by apply andb_true_iff in Hm as [_ Hm].
Qed.

Lemma runs_query_facts args :
  q_coll (WorkflowsFirestore.runs_query args) = TABLE_WORKFLOW_SNAPSHOT /\
  q_order (WorkflowsFirestore.runs_query args) = Some ("createdAt", Desc).
Proof.
  unfold WorkflowsFirestore.runs_query.
  destruct (truthy (opt_str _)), (truthy (opt_str _)), (truthy _), (truthy _); auto.
Qed.

(** X21.  [getWorkflowRuns] takes 50 runs from the start unless told otherwise:
    what it returns is the window [offset .. offset + limit) of the matching
    snapshots, latest [createdAt] first, and the count of all that match;
    it returns nothing for a negative offset or limit. *)
Theorem getWorkflowRuns_returns_a_window args w r :
  let limit := or_default (WorkflowsFirestore.wr_limit args) 50 in
  let offset := or_default (WorkflowsFirestore.wr_offset args) 0 in
  let q := WorkflowsFirestore.runs_query args in
  fst (run (WorkflowsFirestore.getWorkflowRuns args) w) = Ok r ->
  0 <= offset /\ 0 <= limit /\
  mapR (fun doc => WorkflowsFirestore.deserializeWorkflowRun (Some (snd doc)))
    (window offset (Some limit) (ordered (w_db w) q)) = Ok (WorkflowsFirestore.runs r) /\
  Z.of_nat (length (WorkflowsFirestore.runs r)) <= limit /\
  WorkflowsFirestore.runs_total r = Z.of_nat (length (matching (w_db w) q)) /\
  StronglySorted (doc_le "createdAt" Desc) (ordered (w_db w) q).
Proof.
  intros limit offset q Hr. unfold run, WorkflowsFirestore.getWorkflowRuns in Hr.
  cbv zeta in Hr. fold limit offset q in Hr.
  rewrite bind_run, query_count_run in Hr. unfold run_count in Hr.
  destruct (forallb filter_ok (q_where q)) eqn:Hf; cbn [negb] in Hr; [| discriminate].
  rewrite bind_run, query_get_run in Hr.
  rewrite (run_query_limit _ (fs_offset q (Some offset)) offset limit eq_refl Hf) in Hr.
  destruct (Z.ltb_spec offset 0); [discriminate |].
  destruct (Z.ltb_spec limit 0); [discriminate |]. cbn [orb] in Hr.
  rewrite bind_run in Hr. unfold liftR in Hr.
  change (ordered (w_db (logged (EvCount q) w)) (fs_offset q (Some offset)))
    with (ordered (w_db w) q) in Hr.
  destruct (mapR _ _) as [xs|] eqn:Em; [| discriminate].
  cbn [ret fst] in Hr. injection Hr as <-.
  cbn [WorkflowsFirestore.runs WorkflowsFirestore.runs_total w_db logged].
  split; [done |]. split; [done |]. split; [done |]. split.
  - rewrite (mapR_length _ _ _ Em). unfold window. rewrite length_take. lia.
  - split; [done |].
    destruct (runs_query_facts args) as [_ Ho].
    by destruct (ordered_sorted (w_db w) q "createdAt" Desc Ho).
Qed.

End workflow_runs.

(** ** Updating spans *)

Section span_updates.
Context `{JSBuiltins} `{Tables}.

Lemma deserializeRecord_NoDup data :
  NoDup (keys (StoreOperationsFirestore.deserializeRecord data)).
Proof.
  destruct data as [data|]; [| apply NoDup_nil_2].
  unfold StoreOperationsFirestore.deserializeRecord.
  assert (G : forall acc, NoDup (keys acc) ->
    NoDup (keys (fold_left
      (fun deserialized kv =>
         let '(key, value) := kv in
         if truthy value && typeof_object value && has_prop value "_seconds"
         then obj_set deserialized key
                (VDate (num_mul (toNumber (prop value "_seconds")) (Some 1000)))
         else obj_set deserialized key value) data acc))).
  { induction data as [|[k v] data IH]; intros acc Ha; [done |].
    cbn [fold_left]. apply IH. destruct (_ && _); by apply NoDup_obj_set. }
  apply G. apply NoDup_nil_2.
Qed.

(** X22.  [updateAISpan] saves the merged span through [insert], under the id the
    merged span carries; when it carries none, the span is saved as a new
    document, and the document that was found stays as it was: one more
    document then has the span's ids. *)
Theorem updateAISpan_writes_a_new_document spanId traceId updates id0 d0 rest w :
  matching (w_db w) (span_query spanId traceId) = (id0, d0) :: rest ->
  let existing := StoreOperationsFirestore.deserializeRecord (Some d0) in
  let span := updated_span existing updates spanId traceId (VDate (Some (w_now w))) in
  let newid := "auto-" +:+ pretty (w_ids w) in
  let data := toFirestore_doc (StoreOperationsFirestore.serializeRecord span) in
  storable (VObj existing) = true -> storable (VObj updates) = true ->
  explicit_id span = None ->
  coll_get (w_db w TABLE_AI_SPANS) newid = None ->
  exists w',
    run (ObservabilityFirestore.updateAISpan spanId traceId updates) w = (Ok tt, w') /\
    w_db w' TABLE_AI_SPANS = (w_db w TABLE_AI_SPANS ++ [(newid, data)])%list /\
    matching (w_db w') (span_query spanId traceId)
    = ((id0, d0) :: rest ++ [(newid, data)])%list.
Proof.
  intros Hm existing span newid data He Hu Hid Hfresh.
  assert (Hnd : NoDup (keys span)).
  { unfold span, updated_span. do 3 apply NoDup_obj_set. apply NoDup_spread.
    apply deserializeRecord_NoDup. }
  assert (Hst : storable (VObj span) = true).
  { unfold span, updated_span. do 3 (apply storable_set; [| done]).
    by apply storable_spread. }
  unfold run, ObservabilityFirestore.updateAISpan.
  rewrite bind_run, load_by_query by reflexivity.
  fold (span_query spanId traceId). rewrite Hm. cbn [truthy negb].
  rewrite bind_run, now_run. change (w_now (logged _ w)) with (w_now w).
  cbn [as_obj]. fold existing. fold (updated_span existing updates spanId traceId
                                       (VDate (Some (w_now w)))). fold span.
  unfold StoreOperationsFirestore.insert. rewrite Hid.
  unfold coll_add. rewrite bind_run, auto_id_run. cbn [w_ids logged]. fold newid.
  rewrite doc_set_run by by apply serializeRecord_storable.
  fold data. eexists. split; [reflexivity |]. cbn [w_db with_db logged].
  rewrite db_put_same. rewrite coll_put_fresh by done. split; [done |].
  assert (Hc : q_coll (span_query spanId traceId) = TABLE_AI_SPANS) by reflexivity.
  unfold matching in *. rewrite Hc in *. rewrite db_put_same, List.filter_app, Hm.
  cbn [List.filter snd].
  assert (Hmd : matches (span_query spanId traceId) data = true).
  { apply span_query_matches. unfold data.
    assert (Hk : NoDup (keys (StoreOperationsFirestore.serializeRecord span))).
    { rewrite serializeRecord_map by done. by rewrite keys_map. }
    rewrite !obj_get_toFirestore_doc by done.
    rewrite serializeRecord_map by done. rewrite !obj_get_map.
    unfold span, updated_span.
    rewrite !obj_has_set_ne by done. rewrite obj_has_set_eq.
    rewrite !(obj_get_set_ne _ "updatedAt") by done. rewrite obj_get_set_eq.
    rewrite obj_has_set_ne by done. rewrite obj_has_set_eq.
    rewrite (obj_get_set_ne _ "traceId" "spanId") by done. rewrite obj_get_set_eq.
    done. }
  by rewrite Hmd.
Qed.

(** X23.  [batchUpdateAISpans] updates the spans one after the other and stops at
    the first that is missing: the updates before it stay written, those
    after it are not attempted. *)
Theorem batchUpdateAISpans_stops_at_the_first_missing_span rs1 r rs2 w w1 :
  run (ObservabilityFirestore.batchUpdateAISpans rs1) w = (Ok tt, w1) ->
  matching (w_db w1)
    (span_query (ObservabilityFirestore.su_spanId r) (ObservabilityFirestore.su_traceId r))
  = [] ->
  run (ObservabilityFirestore.batchUpdateAISpans (rs1 ++ r :: rs2)) w
  = (Throw (Error ("Span " +:+ ObservabilityFirestore.su_spanId r +:+ " in trace "
                   +:+ ObservabilityFirestore.su_traceId r +:+ " not found")),
     logged (EvQuery (fs_limit (span_query (ObservabilityFirestore.su_spanId r)
                                  (ObservabilityFirestore.su_traceId r)) (Some 1))) w1).
Proof.
  intros H1 Hm. unfold run, ObservabilityFirestore.batchUpdateAISpans in *.
  rewrite forM_app, H1. cbn [forM_]. rewrite bind_run.
  pose proof (updateAISpan_missing w1 _ _ (ObservabilityFirestore.su_updates r) Hm) as E.
  unfold run in E. by rewrite E.
Qed.

End span_updates.


(** * The properties at concrete inputs *)

#[local] Existing Instance example_builtins.
#[local] Existing Instance example_tables.

(** C1.  [getTracesPaginated] has no defaults: called without page and
    perPage it returns no page (the offset it computes is not a number, and
    the query is refused), on the empty store and on a store of three
    traces alike, where page 1 of size 20 is the empty page and the page of
    the three traces.  The sibling read of scores answers page 1 of size 20
    when its pagination leaves both unspecified. *)
Lemma getTracesPaginated_has_no_defaults :
  fst (run (TracesFirestore.getTracesPaginated
              (TracesFirestore.mkTracesArg None None VUndef VUndef))
         (world_of empty_db))
  = Throw (Error "Value for argument offset is not a valid integer.") /\
  fst (run (TracesFirestore.getTracesPaginated
              (TracesFirestore.mkTracesArg None None VUndef VUndef))
         (world_of db_traces))
  = Throw (Error "Value for argument offset is not a valid integer.") /\
  fst (run (TracesFirestore.getTracesPaginated
              (TracesFirestore.mkTracesArg (Some 1) (Some 20) VUndef VUndef))
         (world_of empty_db))
  = Ok {| items := []; page := Some 1; perPage := Some 20; total := 0;
          hasMore := false |} /\
  (exists r,
     fst (run (TracesFirestore.getTracesPaginated
                 (TracesFirestore.mkTracesArg (Some 1) (Some 20) VUndef VUndef))
            (world_of db_traces)) = Ok r /\
     map (fun x => obj_get x "id") (items r) = [VStr "y"; VStr "z"; VStr "x"] /\
     total r = 3 /\ hasMore r = false) /\
  fst (run (ScoresFirestore.getScoresByRunId "r" no_pagination) (world_of empty_db))
  = Ok {| items := []; page := Some 1; perPage := Some 20; total := 0;
          hasMore := false |}.
Proof.
  split; [vm_compute; reflexivity |]. split; [vm_compute; reflexivity |].
  split; [vm_compute; reflexivity |]. split; [| vm_compute; reflexivity].
  eexists. split; [vm_compute; reflexivity |]. split; [| split]; reflexivity.
Qed.

(** X26 at the three threads of [db_threads], page and perPage left
    unspecified. *)
Lemma paginated_reads_answer_the_page_witness :
  True /\ 1 <= 1 /\ 0 <= 20 /\
  exists r,
    fst (run (MemoryFirestore.getThreadsByResourceIdPaginated
                (MemoryFirestore.mkThreadsArgs "r1" None None None None))
           (world_of db_threads)) = Ok r.
Proof.
  split; [exact I |]. split; [lia |]. split; [lia |].
  destruct paginated_reads_answer_the_page as (_ & _ & Hthreads & _).
  apply (proj2 (Hthreads (MemoryFirestore.mkThreadsArgs "r1" None None None None)
                  (world_of db_threads))); [exact I | simpl; lia | simpl; lia].
Defined.

(** The total counts the records the ordered query matches: a thread
    stored without the ordering field is neither listed nor counted. *)
Lemma total_counts_records_with_the_ordering_field :
  exists r,
    fst (run (MemoryFirestore.getThreadsByResourceIdPaginated
                (MemoryFirestore.mkThreadsArgs "r1" None None None None))
           (world_of db_threads_undated)) = Ok r /\
    total r = 1 /\ map (fun t => obj_get t "id") (items r) = [VStr "a"].
Proof. eexists. split; [vm_compute; reflexivity |]. split; reflexivity. Qed.

(** C2 (code bug).  Deleting a thread that has 501 messages commits one
    batch of 501 deletes: the cascade of [deleteThread] is not split into
    batches of at most 500 writes, as the loops of [deleteMessages],
    [batchInsert] and [batchTraceInsert] are. *)
Theorem deleteThread_501_messages_one_commit :
  write_counts (w_log (snd (run (MemoryFirestore.deleteThread "T1")
                             (world_of (db_messages 501)))))
  = [501%nat].
Proof. vm_compute. reflexivity. Qed.

(** The chunked loops, at the sizes of the specification. *)
Lemma deleteMessages_7_ids_one_commit (ids : list string) (w : World) :
  length ids = 7%nat ->
  write_counts (w_log (snd (run (MemoryFirestore.deleteMessages ids) w)))
  = (write_counts (w_log w) ++ [7%nat])%list.
Proof.
  intros Hl. destruct (deleteMessages_commits ids w) as [_ Hc].
  unfold write_counts. rewrite Hc, map_app. f_equal.
  rewrite map_map.
  rewrite (map_ext _ length) by (intros c; apply length_map).
  rewrite slices_sizes, Hl. reflexivity.
Qed.

Lemma batchInsert_1200_records_three_commits tableName (records : list obj) (w : World) :
  length records = 1200%nat ->
  fst (run (StoreOperationsFirestore.batchInsert tableName records) w) = Ok tt ->
  write_counts (w_log (snd (run (StoreOperationsFirestore.batchInsert tableName records) w)))
  = (write_counts (w_log w) ++ [500; 500; 200]%nat)%list.
Proof.
  intros Hl Hok. destruct (batchInsert_commits tableName records w) as (bs & Hc & _ & Hs).
  unfold write_counts. rewrite Hc, map_app. f_equal.
  rewrite (Hs Hok), Hl. vm_compute. reflexivity.
Qed.


(** The scenario of the specification: results [{a: 1}], step [b] with
    result 2. *)
Example updateWorkflowResults_a1_b2 :
  let res := run (WorkflowsFirestore.updateWorkflowResults "wf" "r1" "b" (VNum 2) (VObj []))
               (world_of (db_workflow (VNum 1))) in
  fst res = Ok (VObj [("a", VNum 1); ("b", VNum 2)]) /\
  option_map (fun d => obj_get d "results")
    (coll_get (w_db (snd res) TABLE_WORKFLOW_SNAPSHOT) "wf_r1")
  = Some (VObj [("a", VNum 1); ("b", VNum 2)]).
Proof. split; vm_compute; reflexivity. Qed.


(** C4, counterexample.  [updateWorkflowState] on a run that has no
    snapshot returns [undefined] instead of throwing. *)
Lemma updateWorkflowState_missing_returns_undefined :
  coll_get (w_db (world_of empty_db) TABLE_WORKFLOW_SNAPSHOT)
    (WorkflowsFirestore.snapshot_id "wf" "r1") = None /\
  fst (run (WorkflowsFirestore.updateWorkflowState "wf" "r1"
              (WorkflowsFirestore.mkStateOpts "success" VUndef VUndef VUndef VUndef))
         (world_of empty_db))
  = Ok VUndef.
Proof. split; vm_compute; reflexivity. Qed.

(** C4 at a thread that does not exist. *)
Lemma update_of_a_missing_record_witness :
  coll_get (w_db (world_of empty_db) TABLE_THREADS) "t1" = None /\
  run (MemoryFirestore.updateThread "t1" "title" (VObj [])) (world_of empty_db)
  = (Throw (Error "Thread t1 not found"),
     logged (EvGet TABLE_THREADS "t1") (world_of empty_db)).
Proof.
  split; [reflexivity |].
  apply (proj1 update_of_a_missing_record (world_of empty_db) "t1" "title" (VObj [])).
  reflexivity.
Defined.

(** C5, counterexample.  A nested plain object with a [_seconds] key is
    decoded as a date. *)
Lemma codec_turns_a_seconds_object_into_a_date :
  supported (VObj [("_seconds", VNum 5)]) = false /\
  plain (VObj [("_seconds", VNum 5)]) = true /\
  StoreOperationsFirestore.deserializeRecord
    (Some (StoreOperationsFirestore.serializeRecord seconds_record))
  = [("a", VDate (Some 5000))] /\
  StoreOperationsFirestore.deserializeRecord
    (Some (StoreOperationsFirestore.serializeRecord seconds_record))
  <> seconds_record.
Proof. repeat split; try (vm_compute; reflexivity). vm_compute. discriminate. Qed.

(** A date inside a nested object comes back as its ISO string. *)
Example codec_turns_a_nested_date_into_a_string :
  StoreOperationsFirestore.deserializeRecord
    (Some (StoreOperationsFirestore.serializeRecord
             [("meta", VObj [("when", VDate (Some 0))])]))
  = [("meta", VObj [("when", VStr (Date_toISOString 0))])].
Proof. vm_compute. reflexivity. Qed.

(** C5 at a record with a field of each supported kind. *)
Lemma codec_round_trip_witness :
  NoDup (keys supported_record) /\
  forallb (fun kv => supported (snd kv)) supported_record = true /\
  StoreOperationsFirestore.deserializeRecord
    (Some (StoreOperationsFirestore.serializeRecord supported_record))
  = supported_record /\
  StoreOperationsFirestore.deserializeRecord
    (Some (toFirestore_doc (StoreOperationsFirestore.serializeRecord supported_record)))
  = map (fun kv => (fst kv, truncate_to_seconds (snd kv))) supported_record.
Proof.
  assert (Hnd : NoDup (keys supported_record))
    by (apply (bool_decide_unpack _); vm_compute; exact I).
  split; [exact Hnd |]. split; [reflexivity |].
  apply (codec_round_trip supported_record Hnd). reflexivity.
Defined.

(** C6 at 25 ids. *)
Lemma getMessagesById_queries_by_groups_of_ten_witness :
  length ids_25 = 25%nat /\ length (slices 10 ids_25) = 3%nat.
Proof.
  split; [reflexivity |].
  destruct (getMessagesById_queries_by_groups_of_ten ids_25 (world_of (db_messages 30)))
    as (_ & _ & _ & _ & Hcount & _).
  apply Hcount. reflexivity.
Defined.

(** C6 on a store with 30 messages: 25 ids, 3 queries, 25 records. *)
Example getMessagesById_25_ids :
  let res := run (MemoryFirestore.getMessagesById ids_25) (world_of (db_messages 30)) in
  length (queries (w_log (snd res))) = 3%nat /\
  match fst res with Ok found => length found | Throw _ => 0%nat end = 25%nat.
Proof. split; vm_compute; reflexivity. Qed.

(** C7, counterexample.  A message saved without updatedAt is stored with
    a createdAt and without an updatedAt. *)
Lemma saveMessages_stores_no_updatedAt :
  let res := run (MemoryFirestore.saveMessages [new_message]) (world_of empty_db) in
  fst res = Ok [new_message] /\
  option_map (fun d => (obj_has d "createdAt", obj_has d "updatedAt"))
    (coll_get (w_db (snd res) TABLE_MESSAGES) "m1")
  = Some (true, false).
Proof. split; vm_compute; reflexivity. Qed.

Example createAISpan_stores_no_updatedAt :
  let res := run (ObservabilityFirestore.createAISpan (snd (span_doc "s1")))
               (world_of empty_db) in
  fst res = Ok tt /\
  option_map (fun d => (obj_has d "createdAt", obj_has d "updatedAt"))
    (coll_get (w_db (snd res) TABLE_AI_SPANS) "auto-0")
  = Some (true, false).
Proof. split; vm_compute; reflexivity. Qed.

(** C7 at a thread saved without dates. *)
Lemma writes_stamp_creation_and_update_times_witness :
  obj_get new_thread "id" = VStr "t1" /\ storable (VObj new_thread) = true /\
  defined (VObj new_thread) = true /\
  defined (obj_get new_thread "resourceId") = true /\
  defined (obj_get new_thread "title") = true /\
  exists w' data,
    run (MemoryFirestore.saveThread new_thread) (world_of empty_db)
    = (Ok (obj_set (obj_set new_thread "createdAt"
                      (js_or (obj_get new_thread "createdAt") (VDate (Some 0))))
             "updatedAt" (VDate (Some 0))), w') /\
    coll_get (w_db w' TABLE_THREADS) "t1" = Some data /\
    obj_get data "createdAt"
    = toFirestore (js_or (obj_get new_thread "createdAt") (VDate (Some 0))) /\
    obj_get data "updatedAt" = timestamp_of 0 /\
    all_accepted (w_log w') = true.
Proof.
  split; [reflexivity |]. split; [reflexivity |]. split; [reflexivity |].
  split; [reflexivity |]. split; [reflexivity |].
  apply (proj1 writes_stamp_creation_and_update_times new_thread (world_of empty_db) "t1");
    reflexivity.
Defined.

(** Writes outside what every client accepts: a thread saved without a
    title, a snapshot persisted without a resource id, and the cascade of a
    thread of 501 messages.  The store of this development takes them; a
    client left at its defaults, respectively the backend, refuses them,
    which is why the properties of these writes ask for more. *)
Example writes_that_are_not_accepted :
  all_accepted
    (w_log (snd (run (MemoryFirestore.saveThread
                        [("id", VStr "t1"); ("resourceId", VStr "r1")])
                   (world_of empty_db)))) = false /\
  all_accepted
    (w_log (snd (run (WorkflowsFirestore.persistWorkflowSnapshot "wf" "r1" None run_state)
                   (world_of empty_db)))) = false /\
  all_accepted
    (w_log (snd (run (MemoryFirestore.deleteThread "T1") (world_of (db_messages 501)))))
  = false.
Proof. split; [| split]; vm_compute; reflexivity. Qed.

(** C8, counterexample.  With no sort direction given, the threads created
    at seconds 1, 3 and 2 are listed in ascending order of createdAt. *)
Lemma threads_default_order_is_ascending :
  exists r,
    fst (run (MemoryFirestore.getThreadsByResourceIdPaginated
                (MemoryFirestore.mkThreadsArgs "r1" None None None None))
           (world_of db_threads)) = Ok r /\
    map (fun t => obj_get t "createdAt") (items r)
    = [VDate (Some 1000); VDate (Some 2000); VDate (Some 3000)] /\
    ~ descending_by "createdAt" (items r).
Proof.
  eexists. split; [vm_compute; reflexivity |]. split; [reflexivity |].
  intros Hs. unfold descending_by in Hs. simpl in Hs.
  apply StronglySorted_inv in Hs as [_ Hh].
  apply Forall_inv in Hh. vm_compute in Hh. discriminate.
Qed.

(** C8 at the same request. *)
Lemma paginated_reads_order_before_the_window_witness :
  exists r,
    fst (run (MemoryFirestore.getThreadsByResourceIdPaginated
                (MemoryFirestore.mkThreadsArgs "r1" None None None None))
           (world_of db_threads)) = Ok r /\
    page_of_sorted (w_db (world_of db_threads))
      (MemoryFirestore.threads_query "r1" "createdAt" "ASC") "createdAt" Asc 1 20
      (fun doc => MemoryFirestore.deserializeThread (Some (snd doc))) r.
Proof.
  eexists. split; [vm_compute; reflexivity |].
  destruct paginated_reads_order_before_the_window as (_ & _ & _ & Hthreads & _).
  apply (Hthreads (MemoryFirestore.mkThreadsArgs "r1" None None None None)
           (world_of db_threads)); [discriminate | discriminate | vm_compute; reflexivity].
Defined.

(** C9 at a store with one span. *)
Lemma getAITracesPaginated_never_returns_a_span_witness :
  matching (w_db (world_of db_spans))
    (spans_query (ObservabilityFirestore.mkAITracesArg None None)) <> [] /\
  fst (run (ObservabilityFirestore.getAITracesPaginated
              (ObservabilityFirestore.mkAITracesArg None None))
         (world_of db_spans))
  = Throw (TypeError "spans.slice is not a function").
Proof.
  assert (Hne : matching (w_db (world_of db_spans))
                  (spans_query (ObservabilityFirestore.mkAITracesArg None None)) <> [])
    by (vm_compute; discriminate).
  split; [exact Hne |].
  destruct (getAITracesPaginated_never_returns_a_span
              (ObservabilityFirestore.mkAITracesArg None None) (world_of db_spans))
    as (_ & _ & Hthrow & _).
  apply Hthrow. exact Hne.
Defined.

Example getAITracesPaginated_empty_store :
  fst (run (ObservabilityFirestore.getAITracesPaginated
              (ObservabilityFirestore.mkAITracesArg None None))
         (world_of empty_db))
  = Ok {| items := []; page := Some 1; perPage := Some 20; total := 0; hasMore := false |}.
Proof. vm_compute. reflexivity. Qed.

(** ** More of the adapter, at concrete inputs *)

#[local] Existing Instance example_objects.

(** X2 at table [t1] and its metadata. *)
Lemma dropTable_removes_table_and_metadata_witness :
  NoDup (map fst (w_db (world_of db_metadata) "_metadata")) /\
  exists w',
    run (StoreOperationsFirestore.dropTable "t1") (world_of db_metadata) = (Ok tt, w') /\
    coll_get (w_db w' "_metadata") "t1" = None.
Proof.
  assert (Hnd : NoDup (map fst (w_db (world_of db_metadata) "_metadata")))
    by (apply (bool_decide_unpack _); vm_compute; exact I).
  split; [exact Hnd |].
  destruct (dropTable_removes_table_and_metadata "t1" (world_of db_metadata) Hnd)
    as (w' & Hr & _ & Hg & _).
  exists w'. auto.
Defined.

(** X3 at table [t1]: column [b] is added, column [a] is kept. *)
Lemma alterTable_adds_the_missing_columns_witness :
  coll_get (w_db (world_of db_metadata) "_metadata") "t1"
  = Some [("schema", VObj [("a", column_text)]); ("createdAt", VTimestamp 1 0)] /\
  wf_stored (VObj [("a", column_text)]) = true /\
  wf_stored (VObj [("a", column_integer); ("b", column_integer)]) = true /\
  exists w' data' schema',
    run (StoreOperationsFirestore.alterTable "t1"
           [("a", column_integer); ("b", column_integer)] ["a"; "b"])
      (world_of db_metadata) = (Ok tt, w') /\
    coll_get (w_db w' "_metadata") "t1" = Some data' /\
    obj_get data' "schema" = VObj schema' /\
    obj_get schema' "a" = column_text /\ obj_get schema' "b" = column_integer.
Proof.
  split; [reflexivity |]. split; [reflexivity |]. split; [reflexivity |].
  destruct (proj2 (alterTable_adds_the_missing_columns "t1"
                     [("a", column_integer); ("b", column_integer)] ["a"; "b"]
                     (world_of db_metadata))
              [("schema", VObj [("a", column_text)]); ("createdAt", VTimestamp 1 0)]
              [("a", column_text)] eq_refl eq_refl eq_refl eq_refl)
    as (w' & data' & schema' & Hr & Hg & Hs & Hc & _).
  exists w', data', schema'. split; [exact Hr |]. split; [exact Hg |]. split; [exact Hs |].
  split; rewrite Hc; reflexivity.
Defined.

(** X4 at the same schemas. *)
Lemma createTable_then_alterTable_witness :
  wf_stored (VObj [("a", column_text)]) = true /\
  wf_stored (VObj [("b", column_integer)]) = true /\
  exists w' data schema',
    run (StoreOperationsFirestore.createTable "t1" [("a", column_text)] ;;
         StoreOperationsFirestore.alterTable "t1" [("b", column_integer)] ["b"])
      (world_of db_metadata) = (Ok tt, w') /\
    coll_get (w_db w' "_metadata") "t1" = Some data /\
    obj_get data "schema" = VObj schema' /\
    obj_get schema' "b" = column_integer.
Proof.
  split; [reflexivity |]. split; [reflexivity |].
  destruct (createTable_then_alterTable "t1" [("a", column_text)] [("b", column_integer)]
              ["b"] (world_of db_metadata) eq_refl eq_refl)
    as (w' & data & schema' & Hr & Hg & Hs & Hc & _).
  exists w', data, schema'. split; [exact Hr |]. split; [exact Hg |]. split; [exact Hs |].
  rewrite Hc. reflexivity.
Defined.

(** X5 at record [r1]. *)
Lemma insert_then_load_witness :
  obj_get record_r1 "id" = VStr "r1" /\ "r1" <> "" /\ NoDup (keys record_r1) /\
  forallb (fun kv => supported (snd kv)) record_r1 = true /\
  exists w',
    run (StoreOperationsFirestore.insert "t" record_r1 ;;
         StoreOperationsFirestore.load "t" [("id", VStr "r1")]) (world_of empty_db)
    = (Ok (VObj [("id", VStr "r1"); ("count", VNum 1); ("when", VDate (Some 1000))]), w').
Proof.
  assert (Hnd : NoDup (keys record_r1))
    by (apply (bool_decide_unpack _); vm_compute; exact I).
  split; [reflexivity |]. split; [discriminate |]. split; [exact Hnd |].
  split; [reflexivity |].
  destruct (insert_then_load "t" record_r1 "r1" (world_of empty_db) eq_refl
              ltac:(discriminate) Hnd eq_refl) as (w' & Hr & _).
  exists w'. exact Hr.
Defined.

(** X6 at records [r1] and [r2]. *)
Lemma batchInsert_then_load_witness :
  Forall bulk_ready [record_r1; record_r2] /\
  NoDup (map record_id [record_r1; record_r2]) /\
  exists w',
    run (StoreOperationsFirestore.batchInsert "t" [record_r1; record_r2])
      (world_of empty_db) = (Ok tt, w') /\
    run (StoreOperationsFirestore.load "t" [("id", VStr "r2")]) w'
    = (Ok (VObj [("id", VStr "r2"); ("count", VNum 2)]), logged (EvGet "t" "r2") w').
Proof.
  assert (Hready : Forall bulk_ready [record_r1; record_r2]).
  { repeat constructor; try discriminate; try reflexivity;
      apply (bool_decide_unpack _); vm_compute; exact I. }
  assert (Hnd : NoDup (map record_id [record_r1; record_r2]))
    by (apply (bool_decide_unpack _); vm_compute; exact I).
  split; [exact Hready |]. split; [exact Hnd |].
  destruct (batchInsert_then_load "t" [record_r1; record_r2] (world_of empty_db) Hready Hnd)
    as (w' & Hr & Hl & _).
  exists w'. split; [exact Hr |]. apply (Hl record_r2). simpl. auto.
Defined.

(** X7 on the empty store. *)
Lemma reads_of_a_missing_id_return_null_witness :
  coll_get (w_db (world_of empty_db) TABLE_THREADS) "t1" = None /\
  run (MemoryFirestore.getThreadById "t1") (world_of empty_db)
  = (Ok VNull, logged (EvGet TABLE_THREADS "t1") (world_of empty_db)).
Proof.
  split; [reflexivity |].
  apply (proj1 (reads_of_a_missing_id_return_null (world_of empty_db))). reflexivity.
Defined.

(** X8 at a thread without metadata and dates. *)
Lemma saveThread_then_getThreadById_witness :
  obj_get new_thread "id" = VStr "t1" /\
  wf_stored (obj_get new_thread "resourceId") = true /\
  wf_stored (obj_get new_thread "title") = true /\
  exists w',
    run (MemoryFirestore.saveThread new_thread ;; MemoryFirestore.getThreadById "t1")
      (world_of empty_db)
    = (Ok (VObj [("id", VStr "t1"); ("resourceId", VStr "r1"); ("title", VStr "chat");
                 ("metadata", VObj []); ("createdAt", VDate (Some 0));
                 ("updatedAt", VDate (Some 0))]), w') /\
    all_accepted (w_log w') = true.
Proof.
  split; [reflexivity |]. split; [reflexivity |]. split; [reflexivity |].
  apply (saveThread_then_getThreadById new_thread "t1" (world_of empty_db)
           eq_refl eq_refl eq_refl).
  - intros Ht. discriminate Ht.
  - intros Ht. discriminate Ht.
Defined.

(** X9 at thread [a]. *)
Lemma updateThread_changes_title_metadata_updatedAt_witness :
  coll_get (w_db (world_of db_threads) TABLE_THREADS) "a" = Some (snd (thread_doc "a" 1)) /\
  storable (VObj [("k", VStr "v")]) = true /\
  defined (VObj [("k", VStr "v")]) = true /\
  exists w' data',
    run (MemoryFirestore.updateThread "a" "new" (VObj [("k", VStr "v")]))
      (world_of db_threads)
    = (Ok [("id", VStr "a"); ("resourceId", VStr "r1"); ("title", VStr "new");
           ("metadata", VObj [("k", VStr "v")]); ("createdAt", VDate (Some 1000));
           ("updatedAt", VDate (Some 0))], w') /\
    coll_get (w_db w' TABLE_THREADS) "a" = Some data' /\
    obj_get data' "title" = VStr "new" /\
    all_accepted (w_log w') = true.
Proof.
  assert (Hg0 : coll_get (w_db (world_of db_threads) TABLE_THREADS) "a"
                = Some (snd (thread_doc "a" 1))) by reflexivity.
  split; [exact Hg0 |]. split; [reflexivity |]. split; [reflexivity |].
  destruct (updateThread_changes_title_metadata_updatedAt "a" "new" (VObj [("k", VStr "v")])
              (snd (thread_doc "a" 1)) (world_of db_threads) Hg0 eq_refl eq_refl)
    as (w' & data' & Hr & Hg & Ht & _ & _ & _ & Ha).
  exists w', data'. split; [exact Hr |]. split; [exact Hg |]. split; [exact Ht | exact Ha].
Defined.

(** X10 at thread [T1] with three messages. *)
Lemma deleteThread_removes_thread_and_messages_witness :
  TABLE_THREADS <> TABLE_MESSAGES /\
  NoDup (map fst (w_db (world_of (db_messages 3)) TABLE_THREADS)) /\
  NoDup (map fst (w_db (world_of (db_messages 3)) TABLE_MESSAGES)) /\
  (length (matching (w_db (world_of (db_messages 3))) (thread_messages_query "T1"))
   <= 500)%nat /\
  exists w',
    run (MemoryFirestore.deleteThread "T1") (world_of (db_messages 3)) = (Ok tt, w') /\
    coll_get (w_db w' TABLE_THREADS) "T1" = None /\
    w_db w' TABLE_MESSAGES = [] /\
    all_accepted (w_log w') = true.
Proof.
  assert (Hne : TABLE_THREADS <> TABLE_MESSAGES) by discriminate.
  assert (H1 : NoDup (map fst (w_db (world_of (db_messages 3)) TABLE_THREADS)))
    by (apply (bool_decide_unpack _); vm_compute; exact I).
  assert (H2 : NoDup (map fst (w_db (world_of (db_messages 3)) TABLE_MESSAGES)))
    by (apply (bool_decide_unpack _); vm_compute; exact I).
  assert (H3 : (length (matching (w_db (world_of (db_messages 3)))
                          (thread_messages_query "T1")) <= 500)%nat)
    by (apply Nat.leb_le; vm_compute; reflexivity).
  split; [exact Hne |]. split; [exact H1 |]. split; [exact H2 |]. split; [exact H3 |].
  destruct (deleteThread_removes_thread_and_messages "T1" (world_of (db_messages 3))
              Hne H1 H2 H3) as (w' & Hr & Hg & _ & Hm & _ & Ha).
  exists w'. split; [exact Hr |]. split; [exact Hg |]. split; [| exact Ha].
  rewrite Hm. reflexivity.
Defined.

(** X11 at one message. *)
Lemma saveMessages_then_getMessagesById_witness :
  [new_message] <> [] /\ (length [new_message] <= 500)%nat /\
  Forall message_ready [new_message] /\
  NoDup (map message_id [new_message]) /\
  exists w' found,
    run (MemoryFirestore.saveMessages [new_message]) (world_of empty_db)
    = (Ok [new_message], w') /\
    all_accepted (w_log w') = true /\
    fst (run (MemoryFirestore.getMessagesById ["m1"]) w') = Ok found /\
    In [("id", VStr "m1"); ("threadId", VStr "T1"); ("content", VStr "hi");
        ("createdAt", VDate (Some 0))] found.
Proof.
  assert (Hne : [new_message] <> []) by discriminate.
  assert (Hlen : (length [new_message] <= 500)%nat) by (simpl; lia).
  assert (Hready : Forall message_ready [new_message]).
  { constructor; [| constructor]. split; [exists "m1"; reflexivity |].
    split; [apply (bool_decide_unpack _); vm_compute; exact I |].
    split; [intros Ht; discriminate Ht |].
    repeat constructor; right; reflexivity. }
  assert (Hnd : NoDup (map message_id [new_message]))
    by (apply (bool_decide_unpack _); vm_compute; exact I).
  split; [exact Hne |]. split; [exact Hlen |]. split; [exact Hready |].
  split; [exact Hnd |].
  destruct (saveMessages_then_getMessagesById [new_message] (world_of empty_db)
              Hne Hlen Hready Hnd) as (w' & Hr & Ha & Hall).
  destruct (Hall new_message (or_introl eq_refl)) as (found & Hf & Hin).
  exists w', found. split; [exact Hr |]. split; [exact Ha |].
  split; [exact Hf | exact Hin].
Defined.

(** X12 at thread [T1] with three messages. *)
Lemma deleteMessages_removes_the_listed_ids_witness :
  NoDup (map fst (w_db (world_of (db_messages 3)) TABLE_MESSAGES)) /\
  exists w',
    run (MemoryFirestore.deleteMessages ["m0"; "m2"]) (world_of (db_messages 3))
    = (Ok tt, w') /\
    coll_get (w_db w' TABLE_MESSAGES) "m0" = None /\
    coll_get (w_db w' TABLE_MESSAGES) "m1" = Some (snd (message_doc "T1" 1)) /\
    coll_get (w_db w' TABLE_MESSAGES) "m2" = None.
Proof.
  assert (Hnd : NoDup (map fst (w_db (world_of (db_messages 3)) TABLE_MESSAGES)))
    by (apply (bool_decide_unpack _); vm_compute; exact I).
  split; [exact Hnd |].
  destruct (deleteMessages_removes_the_listed_ids ["m0"; "m2"] (world_of (db_messages 3))
              Hnd) as (w' & Hr & Hg & _).
  exists w'. split; [exact Hr |].
  split; [rewrite Hg; reflexivity |]. split; rewrite Hg; reflexivity.
Defined.

(** X13 at thread [T1] with three messages, two of them included. *)
Lemma getMessages_conjoins_the_included_ids_witness :
  In "m0" ["m0"; "m1"] /\ In "m1" ["m0"; "m1"] /\ "m0" <> "m1" /\
  fst (run (MemoryFirestore.getMessages
              (MemoryFirestore.mkMessagesArgs "T1" (Some ["m0"; "m1"]) None))
         (world_of (db_messages 3))) = Ok [].
Proof.
  assert (H0 : In "m0" ["m0"; "m1"]) by (simpl; auto).
  assert (H1 : In "m1" ["m0"; "m1"]) by (simpl; auto).
  assert (Hne : "m0" <> "m1") by discriminate.
  split; [exact H0 |]. split; [exact H1 |]. split; [exact Hne |].
  exact (proj1 (proj2 (getMessages_conjoins_the_included_ids
                         (MemoryFirestore.mkMessagesArgs "T1" (Some ["m0"; "m1"]) None)
                         (world_of (db_messages 3))) "m0" "m1" H0 H1 Hne)).
Defined.

(** X14 at the three threads of resource [r1], second page of two. *)
Lemma pages_are_windows_of_the_whole_lists_witness :
  exists all r,
    fst (run (MemoryFirestore.getThreadsByResourceId
                (MemoryFirestore.mkThreadsArgs "r1" (Some 2) (Some 2) None None))
           (world_of db_threads)) = Ok all /\
    length all = 3%nat /\
    fst (run (MemoryFirestore.getThreadsByResourceIdPaginated
                (MemoryFirestore.mkThreadsArgs "r1" (Some 2) (Some 2) None None))
           (world_of db_threads)) = Ok r /\
    items r = window 2 (Some 2) all /\ total r = 3.
Proof.
  destruct (fst (run (MemoryFirestore.getThreadsByResourceId
                        (MemoryFirestore.mkThreadsArgs "r1" (Some 2) (Some 2) None None))
                   (world_of db_threads))) as [all | e] eqn:Hall;
    [| vm_compute in Hall; discriminate Hall].
  assert (Hlen : length all = 3%nat).
  { vm_compute in Hall. injection Hall as <-. reflexivity. }
  destruct (proj1 pages_are_windows_of_the_whole_lists
              (MemoryFirestore.mkThreadsArgs "r1" (Some 2) (Some 2) None None)
              (world_of db_threads) all Hall ltac:(simpl; lia) ltac:(simpl; lia))
    as (r & Hr & Hi & Ht).
  exists all, r. split; [reflexivity |]. split; [exact Hlen |]. split; [exact Hr |].
  split; [exact Hi |]. rewrite Ht, Hlen. reflexivity.
Defined.

(** X15 at a resource with working memory only. *)
Lemma saveResource_then_getResourceById_witness :
  obj_get new_resource "id" = VStr "r1" /\
  wf_stored (obj_get new_resource "workingMemory") = true /\
  exists w',
    run (MemoryFirestore.saveResource new_resource ;; MemoryFirestore.getResourceById "r1")
      (world_of empty_db)
    = (Ok (VObj [("id", VStr "r1"); ("workingMemory", VStr "notes");
                 ("metadata", VObj []); ("createdAt", VDate (Some 0));
                 ("updatedAt", VDate (Some 0))]), w').
Proof.
  split; [reflexivity |]. split; [reflexivity |].
  apply (saveResource_then_getResourceById new_resource "r1" (world_of empty_db) eq_refl).
  - intros _. reflexivity.
  - intros Ht. discriminate Ht.
  - intros Ht. discriminate Ht.
Defined.


(** X17 at a score that carries an output. *)
Lemma saveScore_then_getScoreById_witness :
  Forall (fun k => wf_stored (obj_get new_score k) = true)
    ["scorerId"; "entityId"; "entityType"; "source"; "runId"; "traceId"; "spanId";
     "score"] /\
  exists w' r,
    run (ScoresFirestore.saveScore new_score ;; ScoresFirestore.getScoreById "auto-0")
      (world_of empty_db) = (Ok (VObj r), w') /\
    obj_get r "scorerId" = VStr "s" /\ obj_get r "output" = VObj [] /\
    all_accepted (w_log w') = true.
Proof.
  assert (Hk : Forall (fun k => wf_stored (obj_get new_score k) = true)
                 ["scorerId"; "entityId"; "entityType"; "source"; "runId"; "traceId";
                  "spanId"; "score"]) by (repeat constructor).
  split; [exact Hk |].
  destruct (saveScore_then_getScoreById new_score (world_of empty_db) Hk
              ltac:(intros Ht; discriminate Ht)) as (w' & Hr & Ha).
  eexists w', _. split; [exact Hr |]. split; [reflexivity |]. split; [reflexivity | exact Ha].
Defined.

(** X18 at a run state persisted on the empty store. *)
Lemma persistWorkflowSnapshot_then_loadWorkflowSnapshot_witness :
  coll_get (w_db (world_of empty_db) TABLE_WORKFLOW_SNAPSHOT)
    (WorkflowsFirestore.snapshot_id "wf" "r1") = None /\
  wf_stored (VObj run_state) = true /\
  exists w' state,
    run (WorkflowsFirestore.persistWorkflowSnapshot "wf" "r1" (Some "res") run_state ;;
         WorkflowsFirestore.loadWorkflowSnapshot "wf" "r1") (world_of empty_db)
    = (Ok (VObj state), w') /\
    obj_get state "status" = VStr "running" /\
    all_accepted (w_log w') = true.
Proof.
  split; [reflexivity |]. split; [reflexivity |].
  destruct (persistWorkflowSnapshot_then_loadWorkflowSnapshot "wf" "r1" "res" run_state
              (world_of empty_db) eq_refl eq_refl) as (w' & state & Hr & Hs & Ha).
  exists w', state. split; [exact Hr |]. split; [| exact Ha].
  vm_compute in Hs. injection Hs as <-. reflexivity.
Defined.


(** X20 at a run state persisted on the empty store. *)
Lemma workflow_runs_are_read_off_a_snapshot_field_witness :
  "wf" <> "" /\ storable (VObj run_state) = true /\ defined (VObj run_state) = true /\
  obj_has run_state "snapshot" = false /\
  coll_get (w_db (world_of empty_db) TABLE_WORKFLOW_SNAPSHOT)
    (WorkflowsFirestore.snapshot_id "wf" "r1") = None /\
  exists w',
    run (WorkflowsFirestore.persistWorkflowSnapshot "wf" "r1" (Some "res") run_state ;;
         WorkflowsFirestore.getWorkflowRunById "r1" (Some "wf")) (world_of empty_db)
    = (Throw (Error "Workflow run state data is undefined"), w') /\
    all_accepted (w_log w') = true.
Proof.
  split; [discriminate |]. split; [reflexivity |]. split; [reflexivity |].
  split; [reflexivity |]. split; [reflexivity |].
  apply (proj1 workflow_runs_are_read_off_a_snapshot_field "wf" "r1" "res" run_state
           (world_of empty_db));
    [discriminate | reflexivity | reflexivity | reflexivity | exact I].
Defined.

(** X21 at two runs of workflow [wf], read one at a time. *)
Lemma getWorkflowRuns_returns_a_window_witness :
  exists r,
    fst (run (WorkflowsFirestore.getWorkflowRuns
                (WorkflowsFirestore.mkRunsArgs (Some "wf") VUndef VUndef (Some 1) None None))
           (world_of db_runs)) = Ok r /\
    map (fun x => obj_get x "runId") (WorkflowsFirestore.runs r) = [VStr "r2"] /\
    Z.of_nat (length (WorkflowsFirestore.runs r)) <= 1 /\
    WorkflowsFirestore.runs_total r = 2.
Proof.
  destruct (fst (run (WorkflowsFirestore.getWorkflowRuns
                        (WorkflowsFirestore.mkRunsArgs (Some "wf") VUndef VUndef (Some 1)
                           None None))
                   (world_of db_runs))) as [r | e] eqn:Hr;
    [| vm_compute in Hr; discriminate Hr].
  destruct (getWorkflowRuns_returns_a_window _ _ _ Hr) as (_ & _ & _ & Hlen & Htot & _).
  exists r. split; [reflexivity |].
  split; [vm_compute in Hr; injection Hr as <-; reflexivity |].
  split; [exact Hlen |]. rewrite Htot. reflexivity.
Defined.

(** X22 at span [s1] of trace [t1], stored without an id. *)
Lemma updateAISpan_writes_a_new_document_witness :
  matching (w_db (world_of db_spans)) (span_query "s1" "t1") = [span_doc "s1"] /\
  coll_get (w_db (world_of db_spans) TABLE_AI_SPANS) "auto-0" = None /\
  exists w',
    run (ObservabilityFirestore.updateAISpan "s1" "t1" [("name", VStr "tool")])
      (world_of db_spans) = (Ok tt, w') /\
    length (w_db w' TABLE_AI_SPANS) = 2%nat /\
    length (matching (w_db w') (span_query "s1" "t1")) = 2%nat.
Proof.
  assert (Hm : matching (w_db (world_of db_spans)) (span_query "s1" "t1")
               = [span_doc "s1"]) by reflexivity.
  assert (Hn : coll_get (w_db (world_of db_spans) TABLE_AI_SPANS) "auto-0" = None)
    by reflexivity.
  split; [exact Hm |]. split; [exact Hn |].
  destruct (updateAISpan_writes_a_new_document "s1" "t1" [("name", VStr "tool")]
              "s1" (snd (span_doc "s1")) [] (world_of db_spans) Hm
              eq_refl eq_refl eq_refl Hn) as (w' & Hr & Hdb & Hq).
  exists w'. split; [exact Hr |]. split; [rewrite Hdb | rewrite Hq]; reflexivity.
Defined.

(** X23 at a missing span followed by a stored one. *)
Lemma batchUpdateAISpans_stops_at_the_first_missing_span_witness :
  run (ObservabilityFirestore.batchUpdateAISpans []) (world_of db_spans)
  = (Ok tt, world_of db_spans) /\
  matching (w_db (world_of db_spans)) (span_query "s9" "t1") = [] /\
  exists w',
    run (ObservabilityFirestore.batchUpdateAISpans
           [ObservabilityFirestore.mkSpanUpdate "t1" "s9" [("name", VStr "tool")];
            ObservabilityFirestore.mkSpanUpdate "t1" "s1" [("name", VStr "tool")]])
      (world_of db_spans)
    = (Throw (Error "Span s9 in trace t1 not found"), w') /\
    w_db w' = w_db (world_of db_spans).
Proof.
  assert (H0 : run (ObservabilityFirestore.batchUpdateAISpans []) (world_of db_spans)
               = (Ok tt, world_of db_spans)) by reflexivity.
  assert (Hm : matching (w_db (world_of db_spans)) (span_query "s9" "t1") = [])
    by reflexivity.
  split; [exact H0 |]. split; [exact Hm |].
  eexists. split.
  - exact (batchUpdateAISpans_stops_at_the_first_missing_span []
             (ObservabilityFirestore.mkSpanUpdate "t1" "s9" [("name", VStr "tool")])
             [ObservabilityFirestore.mkSpanUpdate "t1" "s1" [("name", VStr "tool")]]
             (world_of db_spans) (world_of db_spans) H0 Hm).
  - reflexivity.
Defined.

(** X24 on the empty store. *)
Lemma loads_of_a_missing_id_return_null_witness :
  "r1" <> "" /\ coll_get (w_db (world_of empty_db) "t") "r1" = None /\
  run (StoreOperationsFirestore.load "t" [("id", VStr "r1")]) (world_of empty_db)
  = (Ok VNull, logged (EvGet "t" "r1") (world_of empty_db)).
Proof.
  assert (Hne : "r1" <> "") by discriminate.
  split; [exact Hne |]. split; [reflexivity |].
  apply (proj2 (loads_of_a_missing_id_return_null (world_of empty_db)) "t" "r1" Hne).
  reflexivity.
Defined.

(** X25 at three traces, second page of two. *)
Lemma evals_and_traces_are_paged_by_windows_witness :
  exists all r,
    fst (run (TracesFirestore.getTraces
                (TracesFirestore.mkTracesArg (Some 2) (Some 2) VUndef VUndef))
           (world_of db_traces)) = Ok all /\
    map (fun x => obj_get x "id") all = [VStr "y"; VStr "z"; VStr "x"] /\
    fst (run (TracesFirestore.getTracesPaginated
                (TracesFirestore.mkTracesArg (Some 2) (Some 2) VUndef VUndef))
           (world_of db_traces)) = Ok r /\
    items r = window 2 (Some 2) all /\ total r = 3.
Proof.
  destruct (fst (run (TracesFirestore.getTraces
                        (TracesFirestore.mkTracesArg (Some 2) (Some 2) VUndef VUndef))
                   (world_of db_traces))) as [all | e] eqn:Hall;
    [| vm_compute in Hall; discriminate Hall].
  assert (Hids : map (fun x => obj_get x "id") all = [VStr "y"; VStr "z"; VStr "x"]).
  { vm_compute in Hall. injection Hall as <-. reflexivity. }
  destruct (proj2 evals_and_traces_are_paged_by_windows
              (TracesFirestore.mkTracesArg (Some 2) (Some 2) VUndef VUndef)
              (world_of db_traces) all 2 2 Hall eq_refl eq_refl
              ltac:(lia) ltac:(lia)) as (r & Hr & Hi & Ht).
  exists all, r. split; [reflexivity |]. split; [exact Hids |]. split; [exact Hr |].
  split; [exact Hi |]. rewrite Ht, <- (length_map (fun x => obj_get x "id")), Hids.
  reflexivity.
Defined.
